(** * MediMind-AI: the Flask back end ([app.py]) as a shallow embedding

    The back end is a thin orchestration layer: four POST endpoints that
    validate a request, call external collaborators (document parser,
    chunker, embedding client, vector index, answer generator) and shape a
    JSON response.

    - Python values that flow through the handlers (request bodies, index
      results, response bodies) are modelled by [value]; a [dict] is a
      [gmap] from strings to values.
    - A Python [str] is a list of Unicode code points ([list Z]).
    - A handler is a computation in [M]: it threads the state of the
      collaborators, records every collaborator call with its result, and
      either returns or raises.
    - The collaborators, whose code is not in [app.py], are the fields of
      an environment record [Env]. *)

From Stdlib Require Import ZArith String Ascii DecimalString.
From Stdlib Require Import Floats.SpecFloat.
From stdpp Require Import base option list gmap.

#[local] Set Warnings "-register-all".
#[local] Open Scope Z_scope.

(** ** Strings *)

Module Str.

(** A Python [str]: a sequence of code points. *)
Abbreviation str := (list Z).

(** An ASCII literal of the source. *)
Definition u (s : string) : str :=
  (fun a => Z.of_N (N_of_ascii a)) <$> list_ascii_of_string s.

Definition nl : Z := 10.
Definition dquote : Z := 34.

Definition is_empty (s : str) : bool :=
  match s with [] => true | _ => false end.

(** [str.isspace] on one code point (CPython's [_PyUnicode_IsWhitespace]). *)
Definition is_space (c : Z) : bool :=
  ((9 <=? c) && (c <=? 13)) || ((28 <=? c) && (c <=? 32))
  || (c =? 133) || (c =? 160) || (c =? 5760)
  || ((8192 <=? c) && (c <=? 8202))
  || (c =? 8232) || (c =? 8233) || (c =? 8239) || (c =? 8287)
  || (c =? 12288).

Fixpoint lstrip (s : str) : str :=
  match s with
  | c :: s' => if is_space c then lstrip s' else s
  | [] => []
  end.

Definition rstrip (s : str) : str := reverse (lstrip (reverse s)).

(** [s.strip()] *)
Definition strip (s : str) : str := rstrip (lstrip s).

(** [s.split(sep)] for a one-character separator. *)
Fixpoint split (sep : Z) (s : str) : list str :=
  match s with
  | [] => [[]]
  | c :: s' =>
      if c =? sep then [] :: split sep s'
      else match split sep s' with
           | l :: ls => (c :: l) :: ls
           | [] => [[c]]
           end
  end.

(** [sep.join(parts)] on a list of strings. *)
Fixpoint join (sep : str) (parts : list str) : str :=
  match parts with
  | [] => []
  | [p] => p
  | p :: ps => p ++ sep ++ join sep ps
  end.

(** [c in s] for a one-character [c]. *)
Definition contains (c : Z) (s : str) : bool := existsb (Z.eqb c) s.

(** [s.lower()].  Exact below U+0100; a code point above is left as it
    is.  No such code point has a lower case among the characters of
    [ALLOWED_EXT], the only strings the result is compared with. *)
Definition lower_char (c : Z) : Z :=
  if ((65 <=? c) && (c <=? 90))
     || ((192 <=? c) && (c <=? 222) && negb (c =? 215))
  then c + 32 else c.

Definition lower (s : str) : str := lower_char <$> s.

(** [s.rfind(c)]: the highest index of [c] in [s], or -1. *)
Fixpoint rfind_from (c : Z) (s : str) (i : Z) (found : Z) : Z :=
  match s with
  | [] => found
  | x :: s' => rfind_from c s' (i + 1) (if x =? c then i else found)
  end.

Definition rfind (c : Z) (s : str) : Z := rfind_from c s 0 (-1).

(** [s[i:j]] for [0 <= i]. *)
Definition slice (s : str) (i j : Z) : str :=
  take (Z.to_nat (j - i)) (drop (Z.to_nat i) s).

(** [str(n)] for an [int]. *)
Definition of_Z (n : Z) : str := u (NilZero.string_of_int (Z.to_int n)).

End Str.

Export Str.

(** ** Python values and exceptions *)

(** The values the handlers see: what [json] yields for a request body,
    what the index returns, and what [jsonify] serialises.  A float is an
    IEEE-754 value in the representation of [SpecFloat]. *)
Inductive value :=
| VNone
| VBool (b : bool)
| VInt (n : Z)
| VFloat (f : spec_float)
| VStr (s : str)
| VList (l : list value)
| VDict (d : gmap str value).

(** The exception classes the handlers can meet.  [BadRequest] is
    werkzeug's HTTP exception; [External] is any exception raised inside a
    collaborator. *)
Inductive exn :=
| AttributeError
| TypeError
| ValueError
| KeyError
| OverflowError
| BadRequest
| External (msg : str).

Inductive res (A : Type) :=
| Ok (a : A)
| Raise (e : exn).

Arguments Ok {A} a.
Arguments Raise {A} e.

Definition res_bind {A B} (r : res A) (k : A -> res B) : res B :=
  match r with
  | Ok a => k a
  | Raise e => Raise e
  end.

#[global] Instance res_mret : MRet res := fun A => @Ok A.
#[global] Instance res_mbind : MBind res := fun A B k r => @res_bind A B r k.

Definition is_ok {A} (r : res A) : bool :=
  match r with Ok _ => true | Raise _ => false end.

(** A decimal literal of the source, such as [0.2]: [dec_digits * 10^dec_exp]. *)
Record decimal := Dec { dec_digits : Z; dec_exp : Z }.

(** ** Operations of the Python runtime *)

Module Py.

(** [bool(v)] *)
Definition truthy (v : value) : bool :=
  match v with
  | VNone => false
  | VBool b => b
  | VInt n => negb (n =? 0)
  | VFloat (S754_zero _) => false
  | VFloat _ => true
  | VStr s => negb (is_empty s)
  | VList l => match l with [] => false | _ => true end
  | VDict d => match map_to_list d with [] => false | _ => true end
  end.

(** [a or b] *)
Definition or (a b : value) : value := if truthy a then a else b.

(** [v.get(k, default)]: only a dict has the method. *)
Definition get (v : value) (k : str) (dflt : value) : res value :=
  match v with
  | VDict d => Ok (default dflt (d !! k))
  | _ => Raise AttributeError
  end.

(** [v[k]] for a string key [k]. *)
Definition getitem (v : value) (k : str) : res value :=
  match v with
  | VDict d => match d !! k with Some x => Ok x | None => Raise KeyError end
  | _ => Raise TypeError
  end.

(** [v.strip()]: only a [str] has the method. *)
Definition strip (v : value) : res str :=
  match v with
  | VStr s => Ok (Str.strip s)
  | _ => Raise AttributeError
  end.

(** [int(f)] for a float: truncation toward zero. *)
Definition int_of_float (f : spec_float) : res Z :=
  match f with
  | S754_zero _ => Ok 0
  | S754_infinity _ => Raise OverflowError
  | S754_nan => Raise ValueError
  | S754_finite s m e =>
      let a := if 0 <=? e then Z.pos m * 2 ^ e else Z.pos m / 2 ^ (- e) in
      Ok (if s then - a else a)
  end.

(** [for x in v]: the elements a loop over [v] visits.  A dict yields
    its keys (their insertion order is not tracked by the model). *)
Definition iter (v : value) : res (list value) :=
  match v with
  | VList l => Ok l
  | VStr s => Ok ((fun c => VStr [c]) <$> s)
  | VDict d => Ok ((fun kv => VStr kv.1) <$> map_to_list d)
  | _ => Raise TypeError
  end.

(** [sep.join(parts)]: every part must be a [str]. *)
Fixpoint strs (parts : list value) : res (list str) :=
  match parts with
  | [] => Ok []
  | VStr s :: ps => l ← strs ps; Ok (s :: l)
  | _ :: _ => Raise TypeError
  end.

Definition join (sep : str) (parts : list value) : res str :=
  l ← strs parts; Ok (Str.join sep l).

End Py.

(** ** Collaborator calls and the handler monad *)

(** An uploaded file as [request.files] gives it (werkzeug's
    [FileStorage]); the handler reads only its name and saves it. *)
Record file_storage := FileStorage { fs_filename : option str }.

(** What the document parser's generator yields: the pages, and the
    exception that ends the iteration when the parser fails. *)
Record page_stream := PageStream { pages : list str; failure : option exn }.

(** One entry per collaborator call, with its arguments and its result. *)
Inductive event :=
| EvUuid (id : str)
| EvSave (f : file_storage) (path : str) (r : res ())
| EvExtract (path : str) (r : page_stream)
| EvSplit (text : str) (chunk_size chunk_overlap : Z)
          (r : res (list (value * str)))
| EvEmbed (texts : list str) (task_type : str) (r : res (list value))
| EvUpsert (vectors : list value) (namespace : str) (r : res ())
| EvQuery (student_id : value) (query : str) (top_k : Z) (r : res value)
| EvAnswer (question context : str) (temperature : decimal) (r : res str).

Module Eff.

Record outcome (X A : Type) :=
  Outcome { result : res A; events : list event; final : X }.

Arguments Outcome {X A} result events final.
Arguments result {X A} o.
Arguments events {X A} o.
Arguments final {X A} o.

(** A computation over the collaborators' state [X]. *)
Definition M (X A : Type) : Type := X -> outcome X A.

Definition ret {X A} (a : A) : M X A := fun x => Outcome (Ok a) [] x.

Definition raise {X A} (e : exn) : M X A := fun x => Outcome (Raise e) [] x.

Definition lift {X A} (r : res A) : M X A := fun x => Outcome r [] x.

(** The outcome [o], after the calls [evs] that came before it. *)
Definition preceded {X A} (evs : list event) (o : outcome X A) : outcome X A :=
  Outcome (result o) (evs ++ events o) (final o).

Definition bind {X A B} (m : M X A) (k : A -> M X B) : M X B :=
  fun x =>
    let o := m x in
    match result o with
    | Ok a => preceded (events o) (k a (final o))
    | Raise e => Outcome (Raise e) (events o) (final o)
    end.

(** [try: m  except Exception as e: h e] *)
Definition catch {X A} (m : M X A) (h : exn -> M X A) : M X A :=
  fun x =>
    let o := m x in
    match result o with
    | Ok a => o
    | Raise e => preceded (events o) (h e (final o))
    end.

(** A call that may raise, recorded with its result. *)
Definition call {X A} (f : X -> res A * X) (ev : res A -> event) : M X A :=
  fun x => let '(r, x') := f x in Outcome r [ev r] x'.

(** A call that cannot raise, recorded with its result. *)
Definition call_total {X A} (f : X -> A * X) (ev : A -> event) : M X A :=
  fun x => let '(a, x') := f x in Outcome (Ok a) [ev a] x'.

End Eff.

Export Eff.

#[global] Instance M_ret {X} : MRet (M X) := fun A => @ret X A.
#[global] Instance M_bind {X} : MBind (M X) := fun A B k m => @bind X A B m k.

(** ** The environment of the handlers *)

(** What [app.py] imports: pieces of the Python runtime whose algorithms
    are outside the model, werkzeug's [secure_filename], the upload
    directory, and the collaborators under [services/]. *)
Record Env (X : Type) := {
  (** [int(s)] for a [str]; [None] when it raises [ValueError] *)
  int_of_str : str -> option Z;
  (** [str(v)] for a float, a list or a dict *)
  repr : value -> str;
  (** [json.loads(s)]; [None] when it raises *)
  json_loads : str -> option value;
  (** [str(e)] for an exception *)
  str_exn : exn -> str;
  secure_filename : str -> str;
  UPLOAD_DIR : str;
  uuid4 : X -> str * X;
  save : file_storage -> str -> X -> res () * X;
  extract_text : str -> X -> page_stream * X;
  split_text : str -> Z -> Z -> X -> res (list (value * str)) * X;
  embed_texts : list str -> str -> X -> res (list value) * X;
  index_upsert : list value -> str -> X -> res () * X;
  query_chunks : value -> str -> Z -> X -> res value * X;
  answer_with_context : str -> str -> decimal -> X -> res str * X
}.

Arguments int_of_str {X} e.
Arguments repr {X} e.
Arguments json_loads {X} e.
Arguments str_exn {X} e.
Arguments secure_filename {X} e.
Arguments UPLOAD_DIR {X} e.
Arguments uuid4 {X} e.
Arguments save {X} e.
Arguments extract_text {X} e.
Arguments split_text {X} e.
Arguments embed_texts {X} e.
Arguments index_upsert {X} e.
Arguments query_chunks {X} e.
Arguments answer_with_context {X} e.

(** ** HTTP requests and responses *)

(** The multipart form of [POST /upload]: [request.form.get("student_id")]
    and [request.files.get("file")]. *)
Record upload_request := UploadRequest {
  form_student_id : option str;
  files_file : option file_storage
}.

(** A request: the upload form, or the body of a JSON endpoint as
    [request.get_json(force=True)] parses it ([None] when the body is not
    JSON). *)
Inductive request :=
| PostUpload (r : upload_request)
| PostAsk (body : option value)
| PostSummarize (body : option value)
| PostFlashcards (body : option value).

(** A response body: a JSON document, or the HTML page Flask renders for
    an exception that leaves the handler. *)
Inductive payload :=
| Json (v : value)
| ErrorPage.

Record response := Response { status : Z; body : payload }.

(** A dict literal. *)
Definition dict (items : list (str * value)) : value :=
  VDict (list_to_map items).

(** [jsonify({...}), code] *)
Definition jsonify (items : list (str * value)) (code : Z) : response :=
  Response code (Json (dict items)).

(** [key in body], for a JSON object body. *)
Definition has_key (k : str) (r : response) : bool :=
  match body r with
  | Json (VDict d) => match d !! k with Some _ => true | None => false end
  | _ => false
  end.

(** The value under [k] of a dict. *)
Definition field (k : str) (v : value) : option value :=
  match v with
  | VDict d => d !! k
  | _ => None
  end.

(** ** [os.path] (POSIX flavour) *)

Definition slash : Z := 47.
Definition dot : Z := 46.

(** [os.path.splitext]: the extension starts at the last dot of the last
    path component, leading dots of the component apart. *)
Definition splitext (p : str) : str * str :=
  let sepIndex := rfind slash p in
  let dotIndex := rfind dot p in
  if (sepIndex <? dotIndex)
     && existsb (fun c => negb (c =? dot)) (slice p (sepIndex + 1) dotIndex)
  then (slice p 0 dotIndex, drop (Z.to_nat dotIndex) p)
  else (p, []).

(** [os.path.join(a, b)] *)
Definition path_join (a b : str) : str :=
  match b with
  | c :: _ => if c =? slash then b
              else if is_empty a || (default 0 (last a) =? slash) then a ++ b
              else a ++ [slash] ++ b
  | [] => if is_empty a || (default 0 (last a) =? slash) then a
          else a ++ [slash]
  end.

(** ** [app.py] *)

Definition ALLOWED_EXT : gset str :=
  {[ u ".pdf"; u ".docx"; u ".txt"; u ".md" ]}.

Definition _allowed (filename : str) : bool :=
  bool_decide (lower (splitext filename).2 ∈ ALLOWED_EXT).

(** A list comprehension whose element expression may raise. *)
Fixpoint mapM {A B} (f : A -> res B) (l : list A) : res (list B) :=
  match l with
  | [] => Ok []
  | a :: l' => b ← f a; bs ← mapM f l'; Ok (b :: bs)
  end.

(** The literals of the source. *)
Module Lit.

Definition student_id := u "student_id".
Definition question := u "question".
Definition topic := u "topic".
Definition top_k := u "top_k".
Definition error := u "error".
Definition matches := u "matches".
Definition metadata := u "metadata".
Definition text := u "text".
Definition chunk_id := u "chunk_id".
Definition filename := u "filename".
Definition doc_id := u "doc_id".
Definition score := u "score".
Definition answer := u "answer".
Definition context_used := u "context_used".
Definition summary := u "summary".
Definition flashcards := u "flashcards".
Definition id := u "id".
Definition values := u "values".
Definition ok := u "ok".
Definition num_chunks := u "num_chunks".
Definition retrieval_document := u "retrieval_document".

(** ["\n\n"] *)
Definition blank_line : str := [nl; nl].

(** The answer of [/ask] when nothing matches; the apostrophe is U+2019. *)
Definition not_found : str :=
  u "I couldn" ++ [8217] ++ u "t find this in your notes.".

Definition no_notes : str := u "No relevant notes found to summarize.".

Definition q (s : string) : str := [dquote] ++ u s ++ [dquote].

End Lit.

Definition temperature_0_2 : decimal := Dec 2 (-1).
Definition temperature_0_3 : decimal := Dec 3 (-1).

Section Handlers.

Context {X : Type} (env : Env X).

(** [int(v)] *)
Definition py_int (v : value) : res Z :=
  match v with
  | VInt n => Ok n
  | VBool b => Ok (Z.b2z b)
  | VFloat f => Py.int_of_float f
  | VStr s => match int_of_str env s with
              | Some n => Ok n
              | None => Raise ValueError
              end
  | VNone | VList _ | VDict _ => Raise TypeError
  end.

(** [f"{v}"] *)
Definition fmt (v : value) : str :=
  match v with
  | VStr s => s
  | VNone => u "None"
  | VBool true => u "True"
  | VBool false => u "False"
  | VInt n => of_Z n
  | _ => repr env v
  end.

(** The collaborator calls of the handlers. *)
Definition new_uuid : M X str :=
  call_total (uuid4 env) EvUuid.

Definition save_file (f : file_storage) (path : str) : M X () :=
  call (save env f path) (EvSave f path).

Definition parse_pages (path : str) : M X page_stream :=
  call_total (extract_text env path) (EvExtract path).

Definition chunk_page (page_text : str) (size overlap : Z)
  : M X (list (value * str)) :=
  call (split_text env page_text size overlap) (EvSplit page_text size overlap).

Definition embed (texts : list str) (task_type : str) : M X (list value) :=
  call (embed_texts env texts task_type) (EvEmbed texts task_type).

Definition upsert (vectors : list value) (namespace : str) : M X () :=
  call (index_upsert env vectors namespace) (EvUpsert vectors namespace).

Definition query (student_id : value) (text : str) (top_k : Z) : M X value :=
  call (query_chunks env student_id text top_k) (EvQuery student_id text top_k).

Definition generate (question context : str) (t : decimal) : M X str :=
  call (answer_with_context env question context t)
       (EvAnswer question context t).

(** [request.get_json(force=True)] *)
Definition get_json (b : option value) : M X value :=
  match b with
  | Some v => ret v
  | None => raise BadRequest
  end.

(** *** [upload] *)

(** The record appended for one chunk (lines 61-70). *)
Definition upsert_record (file_id filename : str) (chunk_counter : Z)
    (text : str) (vec : value) : value :=
  dict [ (Lit.id, VStr (file_id ++ u "-" ++ of_Z chunk_counter));
         (Lit.values, vec);
         (Lit.metadata,
          dict [ (Lit.doc_id, VStr file_id);
                 (Lit.filename, VStr filename);
                 (Lit.chunk_id, VInt chunk_counter);
                 (Lit.text, VStr (take 1200 text)) ]) ].

(** The inner loop (lines 60-71) over [zip(page_chunks, vectors)]. *)
Fixpoint append_chunks (file_id filename : str)
    (pairs : list ((value * str) * value))
    (vectors_to_upsert : list value) (chunk_counter : Z)
  : list value * Z :=
  match pairs with
  | [] => (vectors_to_upsert, chunk_counter)
  | ((_, text), vec) :: rest =>
      append_chunks file_id filename rest
        (vectors_to_upsert
           ++ [upsert_record file_id filename chunk_counter text vec])
        (chunk_counter + 1)
  end.

(** The outer loop (lines 55-71) over the pages the parser yields. *)
Fixpoint each_page (file_id filename : str) (page_texts : list str)
    (vectors_to_upsert : list value) (chunk_counter : Z)
  : M X (list value * Z) :=
  match page_texts with
  | [] => ret (vectors_to_upsert, chunk_counter)
  | page_text :: rest =>
      page_chunks ← chunk_page page_text 1000 200;
      let texts := snd <$> page_chunks in
      vectors ← embed texts Lit.retrieval_document;
      let '(vectors_to_upsert', chunk_counter') :=
         append_chunks file_id filename (zip page_chunks vectors)
           vectors_to_upsert chunk_counter in
      each_page file_id filename rest vectors_to_upsert' chunk_counter'
  end.

Definition upload_missing : response :=
  jsonify [ (Lit.error, VStr (u "student_id and file are required")) ] 400.

Definition upload_ok (file_id : str) (chunk_counter : Z) (filename : str)
  : response :=
  jsonify [ (Lit.ok, VBool true);
            (Lit.doc_id, VStr file_id);
            (Lit.num_chunks, VInt chunk_counter);
            (Lit.filename, VStr filename) ] 200.

(** Lines 46-82, once both fields are known to be present. *)
Definition upload_file (student_id : str) (f : file_storage) (name : str)
  : M X response :=
  let filename := secure_filename env name in
   file_id ← new_uuid;
   let saved_path :=
     path_join (UPLOAD_DIR env) (file_id ++ u "_" ++ filename) in
   _ ← save_file f saved_path;
   stream ← parse_pages saved_path;
   '(vectors_to_upsert, chunk_counter) ←
     each_page file_id filename (pages stream) [] 0;
   _ ← match failure stream with
        | Some e => raise e
        | None => ret ()
        end;
   _ ← match vectors_to_upsert with
        | [] => ret ()
        | _ => upsert vectors_to_upsert student_id
        end;
   ret (upload_ok file_id chunk_counter filename).

(** [upload] (lines 39-82).  [not student_id] holds for a missing or
    empty form field, [not f] for a missing file part or one without a
    file name. *)
Definition upload (req : upload_request) : M X response :=
  match form_student_id req, files_file req with
  | Some student_id, Some f =>
      match fs_filename f with
      | Some name =>
          if is_empty student_id || is_empty name
          then ret upload_missing
          else upload_file student_id f name
      | None => ret upload_missing
      end
  | _, _ => ret upload_missing
  end.

(** *** [ask] *)

(** The label put before a chunk's text in a context block. *)
Definition tagged (chunk_id filename snippet : value) : str :=
  u "[chunk " ++ fmt chunk_id ++ u " from " ++ fmt filename ++ u "] "
  ++ fmt snippet.

(** The loop of lines 115-121. *)
Fixpoint ask_context_blocks (matches : list value) (context_blocks : list str)
  : res (list str) :=
  match matches with
  | [] => Ok context_blocks
  | m :: rest =>
      meta ← Py.getitem m Lit.metadata;
      snippet ← Py.get meta Lit.text (VStr []);
      chunk_id ← Py.get meta Lit.chunk_id VNone;
      filename ← Py.get meta Lit.filename VNone;
      ask_context_blocks rest
        (context_blocks ++ [tagged chunk_id filename snippet])
  end.

(** One element of the comprehension of lines 127-132. *)
Definition citation (m : value) : res value :=
  meta1 ← Py.getitem m Lit.metadata;
  doc_id ← Py.get meta1 Lit.doc_id VNone;
  meta2 ← Py.getitem m Lit.metadata;
  filename ← Py.get meta2 Lit.filename VNone;
  meta3 ← Py.getitem m Lit.metadata;
  chunk_id ← Py.get meta3 Lit.chunk_id VNone;
  score ← Py.get m Lit.score VNone;
  Ok (dict [ (Lit.doc_id, doc_id);
             (Lit.filename, filename);
             (Lit.chunk_id, chunk_id);
             (Lit.score, score) ]).

Definition ask_missing : response :=
  jsonify [ (Lit.error, VStr (u "student_id and question are required")) ] 400.

Definition ask_not_found : response :=
  jsonify [ (Lit.answer, VStr Lit.not_found);
            (Lit.context_used, VList []) ] 200.

(** [ask] (lines 86-137) *)
Definition ask (req : option value) : M X response :=
  body ← get_json req;
  student_id ← lift (Py.get body Lit.student_id VNone);
  question ← lift (q ← Py.get body Lit.question (VStr []); Py.strip q);
  top_k ← lift (k ← Py.get body Lit.top_k (VInt 6); py_int k);
  if negb (Py.truthy student_id) || is_empty question
  then ret ask_missing
  else
    result ← query student_id question top_k;
    matches ← lift (Py.get result Lit.matches (VList []));
    if negb (Py.truthy matches)
    then ret ask_not_found
    else
      context_blocks ← lift (ms ← Py.iter matches; ask_context_blocks ms []);
      let context_str := join Lit.blank_line context_blocks in
      answer ← generate question context_str temperature_0_2;
      citations ← lift (ms ← Py.iter matches; mapM citation ms);
      ret (jsonify [ (Lit.answer, VStr answer);
                     (Lit.context_used, VList citations) ] 200).

(** *** [summarize] *)

(** The loop of lines 165-170. *)
Fixpoint summarize_parts (matches : list value) (parts : list str)
  : res (list str) :=
  match matches with
  | [] => Ok parts
  | m :: rest =>
      meta ← Py.getitem m Lit.metadata;
      chunk_id ← Py.get meta Lit.chunk_id VNone;
      filename ← Py.get meta Lit.filename VNone;
      text ← Py.get meta Lit.text (VStr []);
      summarize_parts rest (parts ++ [tagged chunk_id filename text])
  end.

Definition summarize_missing : response :=
  jsonify [ (Lit.error, VStr (u "student_id and topic are required")) ] 400.

Definition summarize_prompt (topic : str) : str :=
  u "Summarize the topic: " ++ topic ++ u " using ONLY the context below. "
  ++ u "Produce a concise, exam-oriented summary with bullet points and key definitions.".

(** [summarize] (lines 141-182) *)
Definition summarize (req : option value) : M X response :=
  body ← get_json req;
  student_id ← lift (Py.get body Lit.student_id VNone);
  topic ← lift (t ← Py.get body Lit.topic (VStr []); Py.strip t);
  top_k ← lift (k ← Py.get body Lit.top_k (VInt 12); py_int k);
  if negb (Py.truthy student_id) || is_empty topic
  then ret summarize_missing
  else
    result ← query student_id topic top_k;
    matches ← lift (Py.get result Lit.matches (VList []));
    if negb (Py.truthy matches)
    then ret (jsonify [ (Lit.summary, VStr Lit.no_notes) ] 200)
    else
      parts ← lift (ms ← Py.iter matches; summarize_parts ms []);
      let ctx := join Lit.blank_line parts in
      let prompt := summarize_prompt topic in
      summary ← generate prompt ctx temperature_0_2;
      ret (jsonify [ (Lit.topic, VStr topic);
                     (Lit.summary, VStr summary) ] 200).

(** *** [flashcards] *)

(** The fallback loop of lines 224-227 over [response.split("\n")]. *)
Fixpoint scan_lines (lines : list str) (flashcards : list value)
  : list value :=
  match lines with
  | [] => flashcards
  | line :: rest =>
      scan_lines rest
        (if contains 63 line
         then flashcards ++ [dict [ (Lit.question, VStr (strip line));
                                    (Lit.answer, VStr []) ]]
         else flashcards)
  end.

Definition flashcards_prompt (topic ctx : str) : str :=
  u "Generate 6-8 flashcards for medical exam preparation about **"
  ++ topic ++ u "**. "
  ++ u "If context is available, use ONLY that. If not, use general medical knowledge. "
  ++ u "Each flashcard must be a JSON object with 'question' and 'answer'. "
  ++ u "Return ONLY a valid JSON list. Example:" ++ [nl]
  ++ u "[{" ++ Lit.q "question" ++ u ": " ++ Lit.q "What is X?" ++ u ", "
  ++ Lit.q "answer" ++ u ": " ++ Lit.q "Y" ++ u "}]" ++ [nl; nl]
  ++ u "Context:" ++ [nl] ++ ctx.

Definition flashcards_missing : response :=
  jsonify [ (Lit.error, VStr (u "student_id and topic are required")) ] 400.

(** The body of the [try] (lines 189-229). *)
Definition flashcards_try (req : option value) : M X response :=
  body ← get_json req;
  student_id ← lift (Py.get body Lit.student_id VNone);
  topic ← lift (t ← Py.get body Lit.topic VNone; Py.strip (Py.or t (VStr [])));
  top_k ← lift (k ← Py.get body Lit.top_k (VInt 10); py_int k);
  if negb (Py.truthy student_id) || is_empty topic
  then ret flashcards_missing
  else
    result ← query student_id topic top_k;
    matches ← lift (Py.get result Lit.matches (VList []));
    ctx ← lift (if Py.truthy matches
                then ms ← Py.iter matches;
                     texts ← mapM (fun m =>
                                     meta ← Py.getitem m Lit.metadata;
                                     Py.get meta Lit.text (VStr [])) ms;
                     Py.join Lit.blank_line texts
                else Ok (u "General notes about " ++ topic));
    let prompt := flashcards_prompt topic ctx in
    response ← generate prompt ctx temperature_0_3;
    let flashcards :=
      match json_loads env response with
      | Some parsed => parsed
      | None => VList (scan_lines (split nl response) [])
      end in
    ret (jsonify [ (Lit.flashcards, flashcards) ] 200).

(** [flashcards] (lines 186-232) *)
Definition flashcards (req : option value) : M X response :=
  catch (flashcards_try req)
        (fun e => ret (jsonify [ (Lit.error, VStr (str_exn env e)) ] 500)).

(** *** Dispatch *)

Definition handler (r : request) : M X response :=
  match r with
  | PostUpload req => upload req
  | PostAsk b => ask b
  | PostSummarize b => summarize b
  | PostFlashcards b => flashcards b
  end.

(** What Flask answers when an exception leaves the handler: the code of
    an HTTP exception, 500 for any other. *)
Definition handle_exception (e : exn) : response :=
  match e with
  | BadRequest => Response 400 ErrorPage
  | _ => Response 500 ErrorPage
  end.

(** The response to a request, from collaborator state [x]. *)
Definition serve (r : request) (x : X) : response :=
  match result (handler r x) with
  | Ok resp => resp
  | Raise e => handle_exception e
  end.

End Handlers.

(** ** A stub environment

    Deterministic collaborators for running the handlers on concrete
    requests: the parser yields scripted pages, the chunker turns each
    non-empty page into one chunk, the index answers every query with a
    scripted result and the generator with a scripted text. *)

Module Stub.

Record script := Script {
  sc_pages : list str;
  sc_result : value;
  sc_answer : str;
  sc_json : list (str * value)
}.

(** Decimal digits, an optional sign, surrounding whitespace. *)
Fixpoint digits (s : str) (acc : Z) : option Z :=
  match s with
  | [] => Some acc
  | c :: s' => if (48 <=? c) && (c <=? 57)
               then digits s' (10 * acc + (c - 48)) else None
  end.

Definition parse_decimal (s : str) : option Z :=
  match strip s with
  | [] => None
  | c :: ds =>
      if c =? 45 then (if is_empty ds then None else Z.opp <$> digits ds 0)
      else if c =? 43 then (if is_empty ds then None else digits ds 0)
      else digits (c :: ds) 0
  end.

Definition keep_safe (name : str) : str :=
  filter (fun c => ((48 ≤ c ≤ 57) ∨ (65 ≤ c ≤ 90) ∨ (97 ≤ c ≤ 122)
                    ∨ c = 45 ∨ c = 46 ∨ c = 95)) name.

Definition exn_text (e : exn) : str :=
  match e with
  | External msg => msg
  | AttributeError => u "AttributeError"
  | TypeError => u "TypeError"
  | ValueError => u "ValueError"
  | KeyError => u "KeyError"
  | OverflowError => u "OverflowError"
  | BadRequest => u "400 Bad Request"
  end.

Definition one_chunk (page : str) : list (value * str) :=
  match page with
  | [] => []
  | _ => [(VInt 0, page)]
  end.

(** The collaborators' state counts the ids handed out. *)
Definition env (sc : script) : Env nat := {|
  int_of_str := parse_decimal;
  repr := fun _ => u "<repr>";
  json_loads := fun s => (list_to_map (sc_json sc) : gmap str value) !! s;
  str_exn := exn_text;
  secure_filename := keep_safe;
  UPLOAD_DIR := u "data/uploads";
  uuid4 := fun n => (u "doc" ++ of_Z (Z.of_nat n), S n);
  save := fun _ _ n => (Ok (), n);
  extract_text := fun _ n => (PageStream (sc_pages sc) None, n);
  split_text := fun page _ _ n => (Ok (one_chunk page), n);
  embed_texts := fun texts _ n =>
    (Ok ((fun t => VList [VInt (Z.of_nat (length t))]) <$> texts), n);
  index_upsert := fun _ _ n => (Ok (), n);
  query_chunks := fun _ _ _ n => (Ok (sc_result sc), n);
  answer_with_context := fun _ _ _ n => (Ok (sc_answer sc), n)
|}.

Definition a_match (doc file : string) (chunk : Z) (text : string) (score : Z)
  : value :=
  dict [ (Lit.score, VInt score);
         (Lit.metadata, dict [ (Lit.doc_id, VStr (u doc));
                               (Lit.filename, VStr (u file));
                               (Lit.chunk_id, VInt chunk);
                               (Lit.text, VStr (u text)) ]) ].

Definition matches_of (ms : list value) : value :=
  dict [ (Lit.matches, VList ms) ].

Definition json_object (items : list (string * value)) : option value :=
  Some (dict ((fun kv => (u kv.1, kv.2)) <$> items)).

End Stub.

(** ** Vocabulary of the statements *)

(** *** Requests with a missing required field *)

Section MissingField.

Context {X : Type} (env : Env X).

(** The JSON body has no field [k]; a body that is not JSON has none. *)
Definition lacks (k : str) (b : option value) : bool :=
  match b with
  | Some v => match field k v with None => true | Some _ => false end
  | None => true
  end.

(** A required field of the endpoint is not in the request. *)
Definition missing_required (r : request) : bool :=
  match r with
  | PostUpload req =>
      match form_student_id req, files_file req with
      | Some _, Some _ => false
      | _, _ => true
      end
  | PostAsk b => lacks Lit.student_id b || lacks Lit.question b
  | PostSummarize b | PostFlashcards b =>
      lacks Lit.student_id b || lacks Lit.topic b
  end.

(** [top_k] is absent, or something [int()] accepts. *)
Definition top_k_readable (d : gmap str value) : bool :=
  match d !! Lit.top_k with
  | Some k => is_ok (py_int env k)
  | None => true
  end.

(** The field is absent or a string. *)
Definition str_if_present (k : str) (d : gmap str value) : bool :=
  match d !! k with
  | None | Some (VStr _) => true
  | Some _ => false
  end.

(** The field is absent, a string, or falsy. *)
Definition str_or_falsy (k : str) (d : gmap str value) : bool :=
  match d !! k with
  | None | Some (VStr _) => true
  | Some v => negb (Py.truthy v)
  end.

(** The body is a JSON object whose fields the handler can read before it
    validates them.  The upload form has no such reads. *)
Definition readable (r : request) : bool :=
  match r with
  | PostUpload _ => true
  | PostAsk (Some (VDict d)) =>
      str_if_present Lit.question d && top_k_readable d
  | PostSummarize (Some (VDict d)) =>
      str_if_present Lit.topic d && top_k_readable d
  | PostFlashcards (Some (VDict d)) =>
      str_or_falsy Lit.topic d && top_k_readable d
  | _ => false
  end.

End MissingField.

(** *** Runs of the handlers *)

(** The index result has no match for the handler: its [matches] is
    absent, empty, or otherwise falsy. *)
Definition no_matches (r : value) : bool :=
  match Py.get r Lit.matches (VList []) with
  | Ok m => negb (Py.truthy m)
  | Raise _ => false
  end.

(** The contexts handed to the answer generator in a run. *)
Definition contexts (evs : list event) : list str :=
  omap (fun ev => match ev with
                  | EvAnswer _ context _ _ => Some context
                  | _ => None
                  end) evs.

(** The flashcards of the line scan, as the specification words them:
    every line with a question mark, stripped, with an empty answer. *)
Definition question_lines (response : str) : list value :=
  (fun line => dict [ (Lit.question, VStr (strip line));
                      (Lit.answer, VStr []) ])
    <$> List.filter (contains 63) (split nl response).

(** The record lists of the upsert calls in a run. *)
Definition upserted (evs : list event) : list (list value) :=
  omap (fun ev => match ev with
                  | EvUpsert vectors _ _ => Some vectors
                  | _ => None
                  end) evs.

(** The call raised. *)
Definition failed (ev : event) : bool :=
  match ev with
  | EvSave _ _ (Raise _) | EvExtract _ (PageStream _ (Some _))
  | EvSplit _ _ _ (Raise _) | EvEmbed _ _ (Raise _)
  | EvUpsert _ _ (Raise _) | EvQuery _ _ _ (Raise _)
  | EvAnswer _ _ _ (Raise _) => true
  | _ => false
  end.

(** Record [i] of the list is the record of chunk counter [i]. *)
Definition numbered (file_id filename : str) (recs : list value) : Prop :=
  forall (i : nat) (r : value),
    recs !! i = Some r ->
    exists text vec, r = upsert_record file_id filename (Z.of_nat i) text vec.

(** The text a record stores. *)
Definition stored_text (r : value) : option str :=
  match field Lit.metadata r ≫= field Lit.text with
  | Some (VStr t) => Some t
  | _ => None
  end.

(** The chunk texts that got a vector, in the order of the embedding
    calls of a run: [zip] pairs the chunks of a page with the vectors
    returned for them. *)
Definition embedded (evs : list event) : list str :=
  ev ← evs;
  match ev with
  | EvEmbed texts _ (Ok vectors) => take (length vectors) texts
  | _ => []
  end.

(** No call of the run raised. *)
Definition all_ok (evs : list event) : bool :=
  forallb (fun ev => negb (failed ev)) evs.

(** Every chunker call of the run returned no chunk. *)
Definition no_chunks (evs : list event) : bool :=
  forallb (fun ev => match ev with
                     | EvSplit _ _ _ (Ok (_ :: _)) => false
                     | _ => true
                     end) evs.

(** A match as the index returns it: an object with a [metadata] object. *)
Definition has_metadata (m : value) : bool :=
  match field Lit.metadata m with
  | Some (VDict _) => true
  | _ => false
  end.

(** [m["metadata"].get(k)] and [m.get(k)], [None] when absent. *)
Definition meta (k : str) (m : value) : value :=
  default VNone (field Lit.metadata m ≫= field k).

Definition top (k : str) (m : value) : value :=
  default VNone (field k m).

Section Vocabulary.

Context {X : Type} (env : Env X).

(** The request fields [ask] reads: (student_id, question, top_k). *)
Definition ask_fields (body : value) : res (value * str * Z) :=
  student_id ← Py.get body Lit.student_id VNone;
  question ← (q ← Py.get body Lit.question (VStr []); Py.strip q);
  top_k ← (k ← Py.get body Lit.top_k (VInt 6); py_int env k);
  Ok (student_id, question, top_k).

(** The request fields [flashcards] reads: (student_id, topic, top_k). *)
Definition flashcards_fields (body : value) : res (value * str * Z) :=
  student_id ← Py.get body Lit.student_id VNone;
  topic ← (t ← Py.get body Lit.topic VNone; Py.strip (Py.or t (VStr [])));
  top_k ← (k ← Py.get body Lit.top_k (VInt 10); py_int env k);
  Ok (student_id, topic, top_k).

(** The context block of one match: its text, tagged with its chunk
    index and file name. *)
Definition block (m : value) : str :=
  u "[chunk " ++ fmt env (meta Lit.chunk_id m) ++ u " from "
  ++ fmt env (meta Lit.filename m) ++ u "] "
  ++ fmt env (default (VStr []) (field Lit.metadata m ≫= field Lit.text)).

(** The citation of one match. *)
Definition cite (m : value) : value :=
  dict [ (Lit.doc_id, meta Lit.doc_id m);
         (Lit.filename, meta Lit.filename m);
         (Lit.chunk_id, meta Lit.chunk_id m);
         (Lit.score, top Lit.score m) ].

End Vocabulary.

(** ** Concrete requests and scripts *)

Module Demo.

#[local] Open Scope string_scope.

(** Nothing uploaded, nothing matches. *)
Definition quiet : Stub.script :=
  Stub.Script [] (Stub.matches_of []) [] [].

(** A three-page document: a short page, an empty one, and one of 1500
    characters. *)
Definition three_pages : Stub.script :=
  Stub.Script [u "alpha"; []; replicate 1500 97] (Stub.matches_of []) [] [].

(** A document whose pages are all empty. *)
Definition blank_pages : Stub.script :=
  Stub.Script [[]; []] (Stub.matches_of []) [] [].

Definition two_matches : list value :=
  [ Stub.a_match "doc0" "notes.pdf" 0 "Aspirin inhibits COX-1." 9;
    Stub.a_match "doc0" "notes.pdf" 3 "NSAIDs lower prostaglandins." 7 ].

Definition with_matches : Stub.script :=
  Stub.Script [] (Stub.matches_of two_matches) (u "It inhibits COX-1.") [].

(** The generator answers with text that is not JSON. *)
Definition prose : str :=
  u "Here are your cards:" ++ [nl] ++ u "  What is X?  " ++ [nl]
  ++ u "X is a letter.".

Definition prose_answer : Stub.script :=
  Stub.Script [] (Stub.matches_of []) prose [].

(** The generator answers with a JSON list of one card. *)
Definition one_card_json : str :=
  u "[{" ++ Lit.q "question" ++ u ":" ++ Lit.q "Q1" ++ u ","
  ++ Lit.q "answer" ++ u ":" ++ Lit.q "A1" ++ u "}]".

Definition one_card : value :=
  VList [ dict [ (Lit.question, VStr (u "Q1")); (Lit.answer, VStr (u "A1")) ] ].

Definition json_answer : Stub.script :=
  Stub.Script [] (Stub.matches_of []) one_card_json
              [ (one_card_json, one_card) ].

(** The records of the three-page document, uploaded as notes.pdf. *)
Definition long_record : value :=
  upsert_record (u "doc0") (u "notes.pdf") 1 (replicate 1500 97)
    (VList [VInt 1500]).

Definition stored_records : list value :=
  [ upsert_record (u "doc0") (u "notes.pdf") 0 (u "alpha") (VList [VInt 5]);
    long_record ].

Definition upload_exe : upload_request :=
  UploadRequest (Some (u "s1")) (Some (FileStorage (Some (u "notes.exe")))).

Definition upload_pdf : upload_request :=
  UploadRequest (Some (u "s1")) (Some (FileStorage (Some (u "notes.pdf")))).

(** [{"question": "What is X?"}]: no [student_id]. *)
Definition question_only : option value :=
  Stub.json_object [ ("question", VStr (u "What is X?")) ].

(** [{"question": "What is X?", "top_k": null}]: no [student_id]. *)
Definition null_top_k : option value :=
  Stub.json_object [ ("question", VStr (u "What is X?")); ("top_k", VNone) ].

Definition ask_aspirin : value :=
  dict [ (Lit.student_id, VStr (u "s1"));
         (Lit.question, VStr (u " How does aspirin work? ")) ].

Definition topic_diabetes : value :=
  dict [ (Lit.student_id, VStr (u "s1"));
         (Lit.topic, VStr (u "diabetes")) ].

End Demo.

(** ** Further vocabulary: the JSON endpoints and the upload trace *)

(** The three endpoints that take a JSON body. *)
Inductive endpoint := Ask | Summarize | Flashcards.

Definition post (e : endpoint) (b : option value) : request :=
  match e with
  | Ask => PostAsk b
  | Summarize => PostSummarize b
  | Flashcards => PostFlashcards b
  end.

(** The name of the text field of an endpoint. *)
Definition text_key (e : endpoint) : str :=
  match e with
  | Ask => Lit.question
  | Summarize | Flashcards => Lit.topic
  end.

(** The answer to a request without student or text. *)
Definition missing_response (e : endpoint) : response :=
  match e with
  | Ask =>
      jsonify [ (Lit.error, VStr (u "student_id and question are required")) ]
        400
  | Summarize | Flashcards =>
      jsonify [ (Lit.error, VStr (u "student_id and topic are required")) ] 400
  end.

(** The pages handed to the chunker in a run, in call order. *)
Definition chunked (evs : list event) : list str :=
  omap (fun ev => match ev with
                  | EvSplit text _ _ _ => Some text
                  | _ => None
                  end) evs.

(** The chunk texts each successful chunker call returned. *)
Definition split_outputs (evs : list event) : list (list str) :=
  omap (fun ev => match ev with
                  | EvSplit _ _ _ (Ok chunks) => Some (snd <$> chunks)
                  | _ => None
                  end) evs.

(** The batches handed to the embedding client. *)
Definition embed_inputs (evs : list event) : list (list str) :=
  omap (fun ev => match ev with
                  | EvEmbed texts _ _ => Some texts
                  | _ => None
                  end) evs.

(** The page streams the parser returned. *)
Definition parsed (evs : list event) : list page_stream :=
  omap (fun ev => match ev with
                  | EvExtract _ stream => Some stream
                  | _ => None
                  end) evs.

(** What the loop of [upload] does for one page when both of its calls
    succeed: the page, the chunks the chunker returned for it, and the
    vectors the embedding client returned for their texts. *)
Record page_work := PageWork {
  work_page : str;
  work_chunks : list (value * str);
  work_vectors : list value
}.

(** The two calls made for that page (lines 56-58). *)
Definition page_calls (w : page_work) : list event :=
  [ EvSplit (work_page w) 1000 200 (Ok (work_chunks w));
    EvEmbed (snd <$> work_chunks w) Lit.retrieval_document
      (Ok (work_vectors w)) ].



Definition is_str (v : value) : bool :=
  match v with VStr _ => true | _ => false end.

Section MoreVocabulary.

Context {X : Type} (env : Env X).

(** The request fields [summarize] reads: (student_id, topic, top_k). *)
Definition summarize_fields (body : value) : res (value * str * Z) :=
  student_id ← Py.get body Lit.student_id VNone;
  topic ← (t ← Py.get body Lit.topic (VStr []); Py.strip t);
  top_k ← (k ← Py.get body Lit.top_k (VInt 12); py_int env k);
  Ok (student_id, topic, top_k).

(** The fields an endpoint reads from its body before it validates. *)
Definition fields (e : endpoint) (body : value) : res (value * str * Z) :=
  match e with
  | Ask => ask_fields env body
  | Summarize => summarize_fields body
  | Flashcards => flashcards_fields env body
  end.

End MoreVocabulary.

(** ** The Streamlit client ([streamlit_app.py]) *)

(** [{"question": q, "answer": a}] *)
Definition card (q a : value) : value :=
  dict [ (Lit.question, q); (Lit.answer, a) ].

(** The card of a dict: its question and its answer, each the empty
    string when absent. *)
Definition card_of (d : gmap str value) : value :=
  card (default (VStr []) (d !! Lit.question))
       (default (VStr []) (d !! Lit.answer)).

(** The module-level helper (lines 140-158). *)
Module Helper.

Section Model.

Context {X : Type} (env : Env X).

(** The card appended for one item (lines 144-157). *)
Definition normalize (item : value) : value :=
  match item with
  | VDict d => card_of d
  | VStr s =>
      match json_loads env s with
      | Some (VDict obj) => card_of obj
      | Some _ | None => card item (VStr [])
      end
  | _ => card (VStr (fmt env item)) (VStr [])
  end.

Fixpoint each_item (items : list value) (cards : list value) : list value :=
  match items with
  | [] => cards
  | item :: rest => each_item rest (cards ++ [normalize item])
  end.

Definition normalize_cards (raw_cards : value) : res (list value) :=
  items ← Py.iter raw_cards; Ok (each_item items []).

End Model.

End Helper.

(** The function the flashcards tab defines and calls (lines 178-191). *)
Module Tab4.

Section Model.

Context {X : Type} (env : Env X).

(** The card appended for one item, if any: a string is first parsed, and
    an item that is not a dict by then, or whose parsing raised, is
    passed over (lines 181-190). *)
Definition normalize (item : value) : option value :=
  match item with
  | VStr s =>
      match json_loads env s with
      | Some (VDict obj) => Some (card_of obj)
      | Some _ | None => None
      end
  | VDict d => Some (card_of d)
  | _ => None
  end.

Fixpoint each_item (items : list value) (cards : list value) : list value :=
  match items with
  | [] => cards
  | item :: rest =>
      each_item rest
        (match normalize item with
         | Some c => cards ++ [c]
         | None => cards
         end)
  end.

Definition normalize_cards (raw_cards : value) : res (list value) :=
  items ← Py.iter raw_cards; Ok (each_item items []).

End Model.

End Tab4.

(** The flashcard pager (lines 193-232).  The three keys of
    [st.session_state] are set together, so the state is a record, absent
    until flashcards have been generated. *)
Module Pager.

Record session := Session {
  flashcards : list value;
  index : Z;
  show_answer : bool
}.

Definition len (s : session) : Z := Z.of_nat (length (flashcards s)).

(** Lines 193-195, after a 200 response. *)
Definition generated (cards : list value) : session :=
  Session cards 0 false.

(** The guard of the display block (line 200). *)
Definition displayed (st : option session) : option session :=
  match st with
  | Some s => match flashcards s with [] => None | _ => Some s end
  | None => None
  end.

(** [cards[idx]] (line 203): [None] stands for [IndexError]. *)
Definition current_card (s : session) : option value :=
  let i := index s in
  if (0 <=? i) && (i <? len s) then flashcards s !! Z.to_nat i
  else if (- len s <=? i) && (i <? 0) then flashcards s !! Z.to_nat (i + len s)
  else None.

(** The buttons (lines 220-232). *)
Definition previous (s : session) : session :=
  Session (flashcards s) ((index s - 1) mod len s) false.

Definition flip (s : session) : session :=
  Session (flashcards s) (index s) (negb (show_answer s)).

Definition next (s : session) : session :=
  Session (flashcards s) ((index s + 1) mod len s) false.

Inductive click :=
| Generate (cards : list value)
| Previous
| Flip
| Next.

(** One rerun of the script.  The three paging buttons exist only while
    the display block is shown. *)
Definition step (st : option session) (c : click) : option session :=
  match c with
  | Generate cards => Some (generated cards)
  | Previous => match displayed st with Some s => Some (previous s) | None => st end
  | Flip => match displayed st with Some s => Some (flip s) | None => st end
  | Next => match displayed st with Some s => Some (next s) | None => st end
  end.

Definition run (clicks : list click) : option session :=
  foldl step None clicks.

End Pager.

(** The request bodies the tabs post (lines 97, 125, 172), and the
    client-side guard before posting (lines 93, 121, 168). *)
Definition default_top_k (e : endpoint) : Z :=
  match e with
  | Ask => 6
  | Summarize => 12
  | Flashcards => 10
  end.

Definition payload_of (e : endpoint) (student_id text : str) : value :=
  dict [ (Lit.student_id, VStr student_id);
         (text_key e, VStr text);
         (Lit.top_k, VInt (default_top_k e)) ].

Definition posted (e : endpoint) (student_id text : str) : option value :=
  if is_empty (strip text) then None
  else Some (payload_of e student_id text).

(** ** Further concrete cases *)

Module Cases.

#[local] Open Scope string_scope.

(** The stub environment with a vector index that is down. *)
Definition index_down (sc : Stub.script) : Env nat := {|
  int_of_str := int_of_str (Stub.env sc);
  repr := repr (Stub.env sc);
  json_loads := json_loads (Stub.env sc);
  str_exn := str_exn (Stub.env sc);
  secure_filename := secure_filename (Stub.env sc);
  UPLOAD_DIR := UPLOAD_DIR (Stub.env sc);
  uuid4 := uuid4 (Stub.env sc);
  save := save (Stub.env sc);
  extract_text := extract_text (Stub.env sc);
  split_text := split_text (Stub.env sc);
  embed_texts := embed_texts (Stub.env sc);
  index_upsert := index_upsert (Stub.env sc);
  query_chunks := fun _ _ _ n => (Raise (External (u "index down")), n);
  answer_with_context := answer_with_context (Stub.env sc)
|}.

(** A question of spaces only. *)
Definition blank_question : value :=
  dict [ (Lit.student_id, VStr (u "s1")); (Lit.question, VStr (u "   ")) ].

(** A question that is a number. *)
Definition numeric_question : gmap str value :=
  list_to_map [ (Lit.student_id, VStr (u "s1")); (Lit.question, VInt 7) ].

(** A form with an empty student id. *)
Definition empty_student : upload_request :=
  UploadRequest (Some []) (Some (FileStorage (Some (u "notes.pdf")))).

(** A document of two short pages. *)
Definition two_short_pages : Stub.script :=
  Stub.Script [u "alpha"; u "beta"] (Stub.matches_of []) [] [].

Definition fallback_card : value :=
  card (VStr (u "What is X?")) (VStr []).

(** What a generator may send back as flashcards: a card, a bare
    question, a number. *)
Definition mixed_items : list value :=
  [ card (VStr (u "Q1")) (VStr (u "A1")); VStr (u "What is X?"); VInt 3 ].

Definition mixed_cards : list value :=
  [ card (VStr (u "Q1")) (VStr (u "A1"));
    card (VStr (u "What is X?")) (VStr []);
    card (VStr (u "3")) (VStr []) ].

Definition three_cards : list value :=
  [ card (VStr (u "Q1")) (VStr (u "A1"));
    card (VStr (u "Q2")) (VStr (u "A2"));
    card (VStr (u "Q3")) (VStr (u "A3")) ].

Definition some_clicks : list Pager.click :=
  [ Pager.Generate three_cards; Pager.Next; Pager.Next; Pager.Next;
    Pager.Previous; Pager.Flip ].

Definition last_card_shown : Pager.session :=
  Pager.Session three_cards 2 true.

End Cases.

(** * Theorems *)

(** ** Checks of the string and path helpers *)

Example strip_example : strip (u "  What is X?  ") = u "What is X?".
Proof. reflexivity. Qed.

Example split_example :
  split nl (u "a" ++ [nl] ++ u "b" ++ [nl]) = [u "a"; u "b"; []].
Proof. reflexivity. Qed.

Example of_Z_example : of_Z 0 = u "0" /\ of_Z 1200 = u "1200" /\ of_Z (-7) = u "-7".
Proof. repeat split; reflexivity. Qed.

Example int_of_float_example :
  Py.int_of_float (S754_finite true 13 (-1)) = Ok (-6).
Proof. reflexivity. Qed.

Example allowed_examples :
  _allowed (u "notes.PDF") = true /\ _allowed (u "a.tar.md") = true
  /\ _allowed (u "notes.exe") = false /\ _allowed (u ".pdf") = false.
Proof. repeat split; vm_compute; reflexivity. Qed.

Ltac unfold_eff :=
  unfold mbind, mret, M_bind, M_ret, res_mbind, res_mret, bind, res_bind,
    ret, lift, raise, catch, call, call_total, preceded in *.

Section MonadFacts.

Context {X : Type}.

Lemma bind_run {A B} (m : M X A) (k : A -> M X B) x :
  (m ≫= k) x =
  match result (m x) with
  | Ok a => preceded (events (m x)) (k a (final (m x)))
  | Raise e => Outcome (Raise e) (events (m x)) (final (m x))
  end.
Proof. reflexivity. Qed.

Lemma bind_ret {A B} (a : A) (k : A -> M X B) x : (ret a ≫= k) x = k a x.
Proof. unfold_eff. simpl. now destruct (k a x). Qed.

Lemma bind_lift_Ok {A B} (a : A) (k : A -> M X B) x :
  (lift (Ok a) ≫= k) x = k a x.
Proof. unfold_eff. simpl. now destruct (k a x). Qed.

Lemma bind_lift_Raise {A B} e (k : A -> M X B) x :
  (lift (Raise e) ≫= k) x = Outcome (Raise e) [] x.
Proof. reflexivity. Qed.

Lemma bind_raise {A B} e (k : A -> M X B) x :
  (raise e ≫= k) x = Outcome (Raise e) [] x.
Proof. reflexivity. Qed.

Lemma bind_call {A B} (f : X -> res A * X) ev (k : A -> M X B) x :
  (call f ev ≫= k) x =
  match (f x).1 with
  | Ok a => preceded [ev (Ok a)] (k a (f x).2)
  | Raise e => Outcome (Raise e) [ev (Raise e)] (f x).2
  end.
Proof. unfold_eff. destruct (f x) as [[a|e] x']; reflexivity. Qed.

Lemma bind_call_total {A B} (f : X -> A * X) ev (k : A -> M X B) x :
  (call_total f ev ≫= k) x = preceded [ev (f x).1] (k (f x).1 (f x).2).
Proof. unfold_eff. destruct (f x) as [a x']; reflexivity. Qed.

Lemma preceded_inv {A} evs (o : outcome X A) r es xf :
  preceded evs o = Outcome r es xf ->
  exists es', o = Outcome r es' xf /\ es = evs ++ es'.
Proof. destruct o as [r' es' x']. unfold preceded. simpl. intros [= -> <- ->]. eauto. Qed.

End MonadFacts.

Section MissingFieldFacts.

Context {X : Type} (env : Env X).

Lemma top_k_readable_int d dflt :
  top_k_readable env d = true ->
  exists n, (k ← Py.get (VDict d) Lit.top_k (VInt dflt); py_int env k) = Ok n.
Proof.
  unfold top_k_readable. intros H. unfold_eff. simpl.
  destruct (d !! Lit.top_k) as [k|]; simpl.
  - destruct (py_int env k); [eauto | discriminate].
  - eauto.
Qed.

Lemma str_if_present_strip k d :
  str_if_present k d = true ->
  exists s, (q ← Py.get (VDict d) k (VStr []); Py.strip q) = Ok s
            /\ (d !! k = None -> s = []).
Proof.
  unfold str_if_present. intros H. unfold_eff. simpl.
  destruct (d !! k) as [[]|]; simpl; try discriminate; eauto.
  eexists; split; [reflexivity | discriminate].
Qed.

Lemma str_or_falsy_strip k d :
  str_or_falsy k d = true ->
  exists s, (t ← Py.get (VDict d) k VNone; Py.strip (Py.or t (VStr []))) = Ok s
            /\ (d !! k = None -> s = []).
Proof.
  unfold str_or_falsy. intros H. unfold_eff. simpl. unfold Py.or.
  destruct (d !! k) as [v|]; simpl; [|eauto].
  destruct (Py.truthy v) eqn:Hv.
  - destruct v; try discriminate. simpl.
    eexists; split; [reflexivity | discriminate].
  - eexists; split; [reflexivity | discriminate].
Qed.

Lemma lacks_dict k d : lacks k (Some (VDict d)) = true -> d !! k = None.
Proof. simpl. now destruct (d !! k). Qed.

Lemma ask_missing_field d x :
  lacks Lit.student_id (Some (VDict d)) || lacks Lit.question (Some (VDict d))
    = true ->
  str_if_present Lit.question d = true ->
  top_k_readable env d = true ->
  ask env (Some (VDict d)) x = Outcome (Ok ask_missing) [] x.
Proof.
  intros Hm Hq Hk. unfold ask. simpl get_json. rewrite bind_ret.
  change (Py.get (VDict d) Lit.student_id VNone)
    with (Ok (default VNone (d !! Lit.student_id))).
  rewrite bind_lift_Ok; cbv beta.
  destruct (str_if_present_strip _ _ Hq) as (s & -> & Hs).
  rewrite bind_lift_Ok; cbv beta.
  destruct (top_k_readable_int d 6 Hk) as (n & ->).
  rewrite bind_lift_Ok; cbv beta.
  apply orb_true_iff in Hm as [Hm|Hm]; apply lacks_dict in Hm.
  - now rewrite Hm.
  - rewrite (Hs Hm). simpl. now rewrite orb_true_r.
Qed.

Lemma summarize_missing_field d x :
  lacks Lit.student_id (Some (VDict d)) || lacks Lit.topic (Some (VDict d))
    = true ->
  str_if_present Lit.topic d = true ->
  top_k_readable env d = true ->
  summarize env (Some (VDict d)) x = Outcome (Ok summarize_missing) [] x.
Proof.
  intros Hm Hq Hk. unfold summarize. simpl get_json. rewrite bind_ret.
  change (Py.get (VDict d) Lit.student_id VNone)
    with (Ok (default VNone (d !! Lit.student_id))).
  rewrite bind_lift_Ok; cbv beta.
  destruct (str_if_present_strip _ _ Hq) as (s & -> & Hs).
  rewrite bind_lift_Ok; cbv beta.
  destruct (top_k_readable_int d 12 Hk) as (n & ->).
  rewrite bind_lift_Ok; cbv beta.
  apply orb_true_iff in Hm as [Hm|Hm]; apply lacks_dict in Hm.
  - now rewrite Hm.
  - rewrite (Hs Hm). simpl. now rewrite orb_true_r.
Qed.

Lemma flashcards_missing_field d x :
  lacks Lit.student_id (Some (VDict d)) || lacks Lit.topic (Some (VDict d))
    = true ->
  str_or_falsy Lit.topic d = true ->
  top_k_readable env d = true ->
  flashcards env (Some (VDict d)) x = Outcome (Ok flashcards_missing) [] x.
Proof.
  intros Hm Hq Hk.
  assert (flashcards_try env (Some (VDict d)) x
          = Outcome (Ok flashcards_missing) [] x) as Htry.
  { unfold flashcards_try. simpl get_json. rewrite bind_ret.
    change (Py.get (VDict d) Lit.student_id VNone)
      with (Ok (default VNone (d !! Lit.student_id))).
    rewrite bind_lift_Ok; cbv beta.
    destruct (str_or_falsy_strip _ _ Hq) as (s & -> & Hs).
    rewrite bind_lift_Ok; cbv beta.
    destruct (top_k_readable_int d 10 Hk) as (n & ->).
    rewrite bind_lift_Ok; cbv beta.
    apply orb_true_iff in Hm as [Hm|Hm]; apply lacks_dict in Hm.
    - now rewrite Hm.
    - rewrite (Hs Hm). simpl. now rewrite orb_true_r. }
  unfold flashcards, catch. now rewrite Htry.
Qed.

Lemma upload_missing_field req x :
  missing_required (PostUpload req) = true ->
  upload env req x = Outcome (Ok upload_missing) [] x.
Proof.
  unfold upload. simpl.
  destruct (form_student_id req), (files_file req); try discriminate;
    reflexivity.
Qed.

End MissingFieldFacts.

(** C1, as amended.  When a required field is missing from a request to
    /upload, /ask, /summarize or /flashcards, and (for the three JSON
    endpoints) the body is a JSON object whose [top_k], when present, is
    accepted by [int()] and whose question or topic, when present, is a
    string (for /flashcards: a string or a falsy value), the endpoint
    answers HTTP 400 with a JSON object that has an [error] key, and calls
    no collaborator. *)
Theorem missing_field_is_400 {X} (env : Env X) (r : request) (x : X) :
  missing_required r = true ->
  readable env r = true ->
  status (serve env r x) = 400
  /\ has_key Lit.error (serve env r x) = true
  /\ events (handler env r x) = [].
Proof.
  intros Hm Hr.
  assert (exists resp, handler env r x = Outcome (Ok resp) [] x
                       /\ status resp = 400
                       /\ has_key Lit.error resp = true) as (resp & E & ? & ?).
  { destruct r as [req|[[]|]|[[]|]|[[]|]]; try discriminate Hr; simpl in *;
      apply andb_true_iff in Hr as [Hq Hk] || idtac.
    - exists upload_missing. rewrite upload_missing_field by assumption.
      repeat split.
    - exists ask_missing. rewrite ask_missing_field by assumption.
      repeat split.
    - exists summarize_missing. rewrite summarize_missing_field by assumption.
      repeat split.
    - exists flashcards_missing.
      rewrite flashcards_missing_field by assumption. repeat split. }
  unfold serve. rewrite E. simpl. auto.
Qed.

Ltac lift_step H :=
  match type of H with
  | context [ (lift ?r ≫= _) _ ] =>
      let E := fresh "E" in
      destruct r eqn:E;
      [ rewrite bind_lift_Ok in H; cbv beta in H
      | rewrite bind_lift_Raise in H; simpl in H; try discriminate H ]
  end.

Ltac no_such_event H :=
  exfalso;
  repeat (apply elem_of_cons in H as [H|H]; [discriminate H|]);
  now apply elem_of_nil in H.

Ltac call_step H :=
  match type of H with
  | context [ (call ?f _ ≫= _) ?x ] =>
      let E := fresh "E" in
      let x' := fresh "x" in
      let es := fresh "es" in
      rewrite bind_call in H; destruct (f x) as [[?|?] x'] eqn:E;
      cbn [fst snd] in H;
      [ apply preceded_inv in H as (es & H & ->) | try discriminate H ]
  end.

(** The three reads of a handler, once they are known to succeed. *)
Ltac pass_reads H1 H2 H3 :=
  simpl get_json; rewrite bind_ret;
  rewrite H1, bind_lift_Ok; cbv beta;
  rewrite H2, bind_lift_Ok; cbv beta;
  rewrite H3, bind_lift_Ok; cbv beta.

Section AskFacts.

Context {X : Type} (env : Env X).

Lemma ask_fields_inv body sid question k :
  ask_fields env body = Ok (sid, question, k) ->
  Py.get body Lit.student_id VNone = Ok sid
  /\ (q ← Py.get body Lit.question (VStr []); Py.strip q) = Ok question
  /\ (k ← Py.get body Lit.top_k (VInt 6); py_int env k) = Ok k.
Proof.
  unfold ask_fields.
  destruct (Py.get body Lit.student_id VNone) as [a|]; [|discriminate].
  destruct (q ← Py.get body Lit.question (VStr []); Py.strip q) as [b|];
    [|discriminate].
  destruct (k ← Py.get body Lit.top_k (VInt 6); py_int env k) as [c|];
    [|discriminate].
  now intros [= -> -> ->].
Qed.

(** C4.  For a valid /ask request (student_id truthy, question not blank,
    top_k readable) whose index query returns zero matches, the handler
    returns the fixed not-found response, a fixed answer string with an
    empty [context_used] list, and the query is the only collaborator call
    of the run: the answer generator is not invoked. *)
Theorem ask_zero_matches (body : value) (x : X) sid question k r x1 :
  ask_fields env body = Ok (sid, question, k) ->
  Py.truthy sid = true ->
  is_empty question = false ->
  query_chunks env sid question k x = (Ok r, x1) ->
  no_matches r = true ->
  ask env (Some body) x
    = Outcome (Ok (jsonify [ (Lit.answer, VStr Lit.not_found);
                             (Lit.context_used, VList []) ] 200))
        [ EvQuery sid question k (Ok r) ] x1.
Proof.
  intros Hf Hs Hq Hr Hn.
  apply ask_fields_inv in Hf as (H1 & H2 & H3).
  unfold ask. simpl get_json. rewrite bind_ret.
  rewrite H1, bind_lift_Ok; cbv beta.
  rewrite H2, bind_lift_Ok; cbv beta.
  rewrite H3, bind_lift_Ok; cbv beta.
  rewrite Hs, Hq. cbn [negb orb].
  unfold query. rewrite bind_call, Hr. cbn [fst snd].
  unfold no_matches in Hn.
  destruct (Py.get r Lit.matches (VList [])) as [m|]; [|discriminate].
  rewrite bind_lift_Ok; cbv beta. rewrite Hn. reflexivity.
Qed.

End AskFacts.

Section FlashcardFacts.

Context {X : Type} (env : Env X).

Lemma flashcards_fields_inv body sid topic k :
  flashcards_fields env body = Ok (sid, topic, k) ->
  Py.get body Lit.student_id VNone = Ok sid
  /\ (t ← Py.get body Lit.topic VNone; Py.strip (Py.or t (VStr [])))
     = Ok topic
  /\ (k ← Py.get body Lit.top_k (VInt 10); py_int env k) = Ok k.
Proof.
  unfold flashcards_fields.
  destruct (Py.get body Lit.student_id VNone) as [a|]; [|discriminate].
  destruct (t ← Py.get body Lit.topic VNone; Py.strip (Py.or t (VStr [])))
    as [b|]; [|discriminate].
  destruct (k ← Py.get body Lit.top_k (VInt 10); py_int env k) as [c|];
    [|discriminate].
  now intros [= -> -> ->].
Qed.

Lemma scan_lines_spec lines acc :
  scan_lines lines acc
  = acc ++ ((fun line => dict [ (Lit.question, VStr (strip line));
                                (Lit.answer, VStr []) ])
              <$> List.filter (contains 63) lines).
Proof.
  revert acc. induction lines as [|line rest IH]; intros acc; simpl.
  - now rewrite app_nil_r.
  - rewrite IH. destruct (contains 63 line); simpl; [|reflexivity].
    now rewrite <- app_assoc.
Qed.

Lemma flashcards_events b x :
  events (flashcards env b x) = events (flashcards_try env b x).
Proof.
  unfold flashcards, catch.
  destruct (flashcards_try env b x) as [[resp|e] evs x']; simpl;
    [reflexivity | apply app_nil_r].
Qed.

Lemma flashcards_try_answered b x prompt ctx t response :
  EvAnswer prompt ctx t (Ok response) ∈ events (flashcards_try env b x) ->
  result (flashcards_try env b x)
  = Ok (jsonify [ (Lit.flashcards,
                   match json_loads env response with
                   | Some parsed => parsed
                   | None => VList (scan_lines (split nl response) [])
                   end) ] 200).
Proof.
  destruct (flashcards_try env b x) as [res evs x'] eqn:H. simpl.
  intros Hin. unfold flashcards_try in H.
  destruct b as [body|]; simpl get_json in H;
    [|inversion H; subst; no_such_event Hin].
  rewrite bind_ret in H.
  do 3 (lift_step H; [|inversion H; subst; no_such_event Hin]).
  destruct (negb (Py.truthy a) || is_empty a0).
  { inversion H; subst; no_such_event Hin. }
  unfold query in H. call_step H;
    [|inversion H; subst; no_such_event Hin].
  do 2 (lift_step H; [|inversion H; subst; simpl in Hin; no_such_event Hin]).
  unfold generate in H. call_step H;
    [|inversion H; subst; simpl in Hin; no_such_event Hin].
  inversion H; subst. simpl in Hin.
  apply elem_of_cons in Hin as [Hin|Hin]; [discriminate Hin|].
  apply list_elem_of_singleton in Hin. now inversion Hin; subst.
Qed.

(** C5.  In a /flashcards run in which the answer generator returned
    [response]: if [json.loads] accepts it, the parsed value is returned
    unchanged under [flashcards]; if not, the flashcards are exactly the
    lines of the response that contain a question mark, in order, each
    stripped and paired with an empty answer. *)
Theorem flashcards_parse (b : option value) (x : X) prompt ctx t response :
  EvAnswer prompt ctx t (Ok response)
    ∈ events (handler env (PostFlashcards b) x) ->
  (forall parsed, json_loads env response = Some parsed ->
     serve env (PostFlashcards b) x
       = jsonify [ (Lit.flashcards, parsed) ] 200)
  /\ (json_loads env response = None ->
      serve env (PostFlashcards b) x
        = jsonify [ (Lit.flashcards, VList (question_lines response)) ] 200).
Proof.
  simpl handler. rewrite flashcards_events. intros Hin.
  apply flashcards_try_answered in Hin.
  unfold serve. simpl handler. unfold flashcards, catch.
  destruct (flashcards_try env b x) as [res evs x']. simpl in *. subst res.
  simpl. split.
  - now intros parsed ->.
  - intros ->. unfold question_lines. now rewrite scan_lines_spec.
Qed.

(** C6, as amended.  For a valid /flashcards request whose index query
    returns zero matches, the handler does not stop: it calls the answer
    generator, and the context it passes is the placeholder
    "General notes about " followed by the stripped topic (capital G). *)
Theorem flashcards_placeholder (body : value) (x : X) sid topic k r x1 :
  flashcards_fields env body = Ok (sid, topic, k) ->
  Py.truthy sid = true ->
  is_empty topic = false ->
  query_chunks env sid topic k x = (Ok r, x1) ->
  no_matches r = true ->
  let ctx := u "General notes about " ++ topic in
  events (flashcards env (Some body) x)
    = [ EvQuery sid topic k (Ok r);
        EvAnswer (flashcards_prompt topic ctx) ctx temperature_0_3
                 (answer_with_context env (flashcards_prompt topic ctx) ctx
                    temperature_0_3 x1).1 ].
Proof.
  intros Hf Hs Hq Hr Hn ctx.
  apply flashcards_fields_inv in Hf as (H1 & H2 & H3).
  unfold flashcards, catch, flashcards_try. simpl get_json.
  rewrite bind_ret.
  rewrite H1, bind_lift_Ok; cbv beta.
  rewrite H2, bind_lift_Ok; cbv beta.
  rewrite H3, bind_lift_Ok; cbv beta.
  rewrite Hs, Hq. cbn [negb orb].
  unfold query. rewrite bind_call, Hr. cbn [fst snd].
  unfold no_matches in Hn.
  destruct (Py.get r Lit.matches (VList [])) as [m|]; [|discriminate].
  rewrite bind_lift_Ok; cbv beta.
  apply negb_true_iff in Hn. rewrite Hn.
  rewrite bind_lift_Ok; cbv beta. fold ctx.
  unfold generate. rewrite bind_call.
  destruct (answer_with_context env (flashcards_prompt topic ctx) ctx
              temperature_0_3 x1) as [[response|e] x2]; reflexivity.
Qed.

End FlashcardFacts.

Section UploadFacts.

Context {X : Type} (env : Env X).

Lemma numbered_nil fid fname : numbered fid fname [].
Proof. intros i r H. discriminate H. Qed.

Lemma numbered_snoc fid fname recs text vec :
  numbered fid fname recs ->
  numbered fid fname
    (recs ++ [upsert_record fid fname (Z.of_nat (length recs)) text vec]).
Proof.
  intros Hn i r Hi. apply lookup_snoc_Some in Hi as [[_ Hi]|[-> <-]].
  - now apply Hn.
  - eauto.
Qed.

Lemma append_chunks_numbered fid fname pairs :
  forall acc c,
    numbered fid fname acc -> c = Z.of_nat (length acc) ->
    numbered fid fname (append_chunks fid fname pairs acc c).1
    /\ (append_chunks fid fname pairs acc c).2
       = Z.of_nat (length (append_chunks fid fname pairs acc c).1).
Proof.
  induction pairs as [|[[cid text] vec] rest IH]; intros acc c Hn Hc; simpl.
  - auto.
  - apply IH.
    + subst c. now apply numbered_snoc.
    + rewrite length_app. simpl. lia.
Qed.

Lemma each_page_numbered fid fname page_texts :
  forall acc c x acc' c',
    numbered fid fname acc -> c = Z.of_nat (length acc) ->
    result (each_page env fid fname page_texts acc c x) = Ok (acc', c') ->
    numbered fid fname acc' /\ c' = Z.of_nat (length acc').
Proof.
  induction page_texts as [|page rest IH]; intros acc c x acc' c' Hn Hc H.
  - simpl in H. injection H as <- <-. auto.
  - simpl in H. unfold chunk_page, embed in H.
    rewrite bind_call in H.
    destruct (split_text env page 1000 200 x) as [[chunks|e] x1];
      cbn [fst snd] in H; [|discriminate H].
    unfold preceded in H; cbn [result] in H.
    rewrite bind_call in H.
    destruct (embed_texts env (snd <$> chunks) Lit.retrieval_document x1)
      as [[vectors|e] x2]; cbn [fst snd] in H; [|discriminate H].
    unfold preceded in H; cbn [result] in H.
    destruct (append_chunks fid fname (zip chunks vectors) acc c)
      as [acc1 c1] eqn:Ha.
    pose proof (append_chunks_numbered fid fname (zip chunks vectors)
                  acc c Hn Hc) as [Hn1 Hc1].
    rewrite Ha in Hn1, Hc1. simpl in Hn1, Hc1.
    eapply IH; eauto.
Qed.

Lemma zip_texts (chunks : list (value * str)) :
  forall vectors : list value,
    (fun p : value * str * value => p.1.2) <$> zip chunks vectors
    = take (length vectors) (snd <$> chunks).
Proof.
  induction chunks as [|[cid text] chunks IH]; intros [|v vectors]; simpl;
    try reflexivity.
  now rewrite IH.
Qed.

Lemma append_chunks_stored fid fname pairs :
  forall acc c,
    omap stored_text (append_chunks fid fname pairs acc c).1
    = omap stored_text acc
      ++ (take 1200 <$> ((fun p : value * str * value => p.1.2) <$> pairs)).
Proof.
  induction pairs as [|[[cid text] vec] rest IH]; intros acc c; simpl.
  - now rewrite app_nil_r.
  - rewrite IH, omap_app. simpl. now rewrite <- app_assoc.
Qed.

Lemma each_page_stored fid fname page_texts :
  forall acc c x acc' c',
    result (each_page env fid fname page_texts acc c x) = Ok (acc', c') ->
    omap stored_text acc'
    = omap stored_text acc
      ++ (take 1200
            <$> embedded (events (each_page env fid fname page_texts acc c x))).
Proof.
  induction page_texts as [|page rest IH]; intros acc c x acc' c' H.
  - simpl in H. injection H as <- <-. simpl. now rewrite app_nil_r.
  - simpl in H |- *. unfold chunk_page, embed in H |- *.
    rewrite bind_call in H |- *.
    destruct (split_text env page 1000 200 x) as [[chunks|e] x1];
      cbn [fst snd] in H |- *; [|discriminate H].
    unfold preceded in H |- *; cbn [result events] in H |- *.
    rewrite bind_call in H |- *.
    destruct (embed_texts env (snd <$> chunks) Lit.retrieval_document x1)
      as [[vectors|e] x2]; cbn [fst snd] in H |- *; [|discriminate H].
    unfold preceded in H |- *; cbn [result events] in H |- *.
    pose proof (append_chunks_stored fid fname (zip chunks vectors) acc c)
      as Ha.
    destruct (append_chunks fid fname (zip chunks vectors) acc c)
      as [acc1 c1].
    rewrite (IH _ _ _ _ _ H). simpl in Ha. rewrite Ha, zip_texts.
    simpl. unfold embedded. simpl.
    now rewrite fmap_app, app_assoc.
Qed.

Lemma each_page_no_upsert fid fname page_texts :
  forall acc c x,
    upserted (events (each_page env fid fname page_texts acc c x)) = [].
Proof.
  induction page_texts as [|page rest IH]; intros acc c x.
  - reflexivity.
  - simpl. unfold chunk_page, embed.
    rewrite bind_call.
    destruct (split_text env page 1000 200 x) as [[chunks|e] x1];
      cbn [fst snd]; [|reflexivity].
    rewrite bind_call.
    destruct (embed_texts env (snd <$> chunks) Lit.retrieval_document x1)
      as [[vectors|e] x2]; cbn [fst snd]; [|reflexivity].
    destruct (append_chunks fid fname (zip chunks vectors) acc c)
      as [acc1 c1].
    simpl. apply IH.
Qed.

Lemma embedded_app evs1 evs2 :
  embedded (evs1 ++ evs2) = embedded evs1 ++ embedded evs2.
Proof. apply bind_app. Qed.

Lemma upserted_app evs1 evs2 :
  upserted (evs1 ++ evs2) = upserted evs1 ++ upserted evs2.
Proof. apply omap_app. Qed.

(** The three ways a run of [upload_file] can go: it raises before the
    upsert; it ends without records and without upsert; or it makes one
    upsert call, with numbered records, as its last call. *)
Lemma upload_file_run sid f name x :
  let fname := secure_filename env name in
  let o := upload_file env sid f name x in
  exists fid pre,
    upserted pre = []
    /\ ((exists e, result o = Raise e /\ events o = EvUuid fid :: pre)
        \/ (result o = Ok (upload_ok fid 0 fname)
            /\ embedded pre = []
            /\ events o = EvUuid fid :: pre)
        \/ (exists recs r,
              recs <> [] /\ numbered fid fname recs
              /\ omap stored_text recs = take 1200 <$> embedded pre
              /\ events o = EvUuid fid :: pre ++ [EvUpsert recs sid r]
              /\ result o
                 = match r with
                   | Ok _ => Ok (upload_ok fid (Z.of_nat (length recs)) fname)
                   | Raise e => Raise e
                   end)).
Proof.
  intros fname o. subst o. unfold upload_file. fold fname.
  unfold new_uuid. rewrite bind_call_total.
  destruct (uuid4 env x) as [fid x0]. cbn [fst snd].
  exists fid.
  unfold save_file. rewrite bind_call.
  set (path := path_join (UPLOAD_DIR env) (fid ++ u "_" ++ fname)).
  destruct (save env f path x0) as [[[]|e] x1]; cbn [fst snd].
  2:{ exists [EvSave f path (Raise e)]. split; [reflexivity|].
      left. exists e. split; reflexivity. }
  unfold parse_pages. rewrite bind_call_total.
  destruct (extract_text env path x1) as [stream x2]. cbn [fst snd].
  rewrite (bind_run (each_page env fid fname (pages stream) [] 0)).
  pose proof (each_page_no_upsert fid fname (pages stream) [] 0 x2) as Hno.
  pose proof (each_page_numbered fid fname (pages stream) [] 0 x2) as Hnum.
  pose proof (each_page_stored fid fname (pages stream) [] 0 x2) as Hsto.
  destruct (each_page env fid fname (pages stream) [] 0 x2)
    as [[[recs c]|e] evs x3]; cbn [result events final] in *.
  2:{ exists (EvSave f path (Ok ()) :: EvExtract path stream :: evs).
      split; [exact Hno|]. left. exists e. split; reflexivity. }
  destruct (Hnum recs c (numbered_nil _ _) eq_refl eq_refl) as [Hn ->].
  destruct (failure stream) as [e|].
  { rewrite bind_raise.
    exists (EvSave f path (Ok ()) :: EvExtract path stream :: evs).
    split; [exact Hno|]. left. exists e. unfold preceded; simpl.
    now rewrite app_nil_r. }
  rewrite bind_ret.
  destruct recs as [|r0 recs].
  - rewrite bind_ret.
    exists (EvSave f path (Ok ()) :: EvExtract path stream :: evs).
    split; [exact Hno|]. right; left. unfold preceded, ret; simpl.
    rewrite app_nil_r. repeat split.
    specialize (Hsto _ _ eq_refl). simpl in Hsto.
    symmetry in Hsto. now apply fmap_nil_inv in Hsto.
  - unfold upsert. rewrite bind_call.
    exists (EvSave f path (Ok ()) :: EvExtract path stream :: evs).
    split; [exact Hno|]. right; right.
    destruct (index_upsert env (r0 :: recs) sid x3) as [[[]|e] x4];
      cbn [fst snd].
    + exists (r0 :: recs), (Ok ()).
      split; [discriminate|]. split; [exact Hn|].
      split; [exact (Hsto _ _ eq_refl)|]. split; reflexivity.
    + exists (r0 :: recs), (Raise e).
      split; [discriminate|]. split; [exact Hn|].
      split; [exact (Hsto _ _ eq_refl)|]. split; reflexivity.
Qed.

Lemma upsert_in_upserted evs vectors ns r :
  EvUpsert vectors ns r ∈ evs -> vectors ∈ upserted evs.
Proof.
  intros H. apply list_elem_of_omap. eexists. split; [exact H|reflexivity].
Qed.

(** A run of [upload] either rejects the form, with no call at all, or
    is a run of [upload_file]. *)
Lemma upload_cases req x :
  upload env req x = Outcome (Ok upload_missing) [] x
  \/ exists sid f name,
       form_student_id req = Some sid /\ files_file req = Some f
       /\ fs_filename f = Some name
       /\ is_empty sid = false /\ is_empty name = false
       /\ upload env req x = upload_file env sid f name x.
Proof.
  unfold upload.
  destruct (form_student_id req) as [sid|]; [|now left].
  destruct (files_file req) as [f|]; [|now left].
  destruct (fs_filename f) as [name|] eqn:Hf; [|now left].
  destruct (is_empty sid) eqn:Hs; [now left|].
  destruct (is_empty name) eqn:Hn; [now left|].
  right. exists sid, f, name. simpl. auto 10.
Qed.

(** C7.  After a successful /upload (HTTP 200) the records handed to the
    index are numbered by one counter for the whole document: the record
    at position [i] has chunk_id [i], starting at 0 and running across the
    pages in the order the chunks were embedded, its vector id is the
    document id, a dash and [i], and num_chunks is the number of records.
    The records are written by a single upsert call, or by none when
    there are no records. *)
Theorem upload_chunk_numbering (req : upload_request) (x : X) resp :
  result (upload env req x) = Ok resp ->
  status resp = 200 ->
  exists file_id filename recs,
    resp = jsonify [ (Lit.ok, VBool true);
                     (Lit.doc_id, VStr file_id);
                     (Lit.num_chunks, VInt (Z.of_nat (length recs)));
                     (Lit.filename, VStr filename) ] 200
    /\ upserted (events (upload env req x))
       = match recs with [] => [] | _ => [recs] end
    /\ omap stored_text recs
       = take 1200 <$> embedded (events (upload env req x))
    /\ forall (i : nat) r,
         recs !! i = Some r ->
         field Lit.id r = Some (VStr (file_id ++ u "-" ++ of_Z (Z.of_nat i)))
         /\ (field Lit.metadata r ≫= field Lit.chunk_id)
            = Some (VInt (Z.of_nat i))
         /\ (field Lit.metadata r ≫= field Lit.doc_id)
            = Some (VStr file_id).
Proof.
  intros Hres Hst.
  destruct (upload_cases req x) as [E|(sid & f & name & _ & _ & _ & _ & _ & E)];
    rewrite E in *.
  { simpl in Hres. injection Hres as <-. discriminate Hst. }
  destruct (upload_file_run sid f name x)
    as (fid & pre & Hpre
        & [(e & He & _)|[(Hr & Hemb & Hev)
                        |(recs & r & Hne & Hnum & Hsto & Hev & Hr)]]).
  - rewrite He in Hres. discriminate Hres.
  - rewrite Hr in Hres. injection Hres as <-.
    exists fid, (secure_filename env name), []. split; [reflexivity|].
    split; [rewrite Hev; exact Hpre|]. split.
    + rewrite Hev. change (embedded (EvUuid fid :: pre)) with (embedded pre).
      now rewrite Hemb.
    + intros i r Hi. discriminate Hi.
  - rewrite Hr in Hres. destruct r as [[]|e]; [|discriminate Hres].
    injection Hres as <-.
    exists fid, (secure_filename env name), recs. split; [reflexivity|].
    split.
    + rewrite Hev. change (EvUuid fid :: pre ++ [EvUpsert recs sid (Ok ())])
        with ((EvUuid fid :: pre) ++ [EvUpsert recs sid (Ok ())]).
      rewrite upserted_app.
      change (upserted (EvUuid fid :: pre)) with (upserted pre).
      rewrite Hpre. simpl. now destruct recs.
    + split.
      * rewrite Hev, Hsto.
        change (EvUuid fid :: pre ++ [EvUpsert recs sid (Ok ())])
          with ((EvUuid fid :: pre) ++ [EvUpsert recs sid (Ok ())]).
        rewrite embedded_app.
        change (embedded (EvUuid fid :: pre)) with (embedded pre).
        simpl. now rewrite app_nil_r.
      * intros i r Hi. destruct (Hnum i r Hi) as (text & vec & ->).
        repeat split.
Qed.

(** C8.  Every record that /upload hands to the vector index stores, in
    its metadata, a text of at most 1200 characters. *)
Theorem stored_text_bounded (req : upload_request) (x : X)
    vectors ns r (rec : value) :
  EvUpsert vectors ns r ∈ events (upload env req x) ->
  rec ∈ vectors ->
  exists t, (field Lit.metadata rec ≫= field Lit.text) = Some (VStr t)
            /\ (length t <= 1200)%nat.
Proof.
  intros Hin Hrec.
  destruct (upload_cases req x) as [E|(sid & f & name & _ & _ & _ & _ & _ & E)];
    rewrite E in *.
  { simpl in Hin. now apply elem_of_nil in Hin. }
  assert (exists fid, numbered fid (secure_filename env name) vectors)
    as (fid & Hnum).
  { destruct (upload_file_run sid f name x)
      as (fid & pre & Hpre
          & [(e & _ & Hev)|[(_ & _ & Hev)
                          |(recs & r' & _ & Hnum & _ & Hev & _)]]);
      rewrite Hev in Hin; apply upsert_in_upserted in Hin.
    - change (upserted (EvUuid fid :: pre)) with (upserted pre) in Hin.
      rewrite Hpre in Hin. now apply elem_of_nil in Hin.
    - change (upserted (EvUuid fid :: pre)) with (upserted pre) in Hin.
      rewrite Hpre in Hin. now apply elem_of_nil in Hin.
    - change (EvUuid fid :: pre ++ [EvUpsert recs sid r'])
        with ((EvUuid fid :: pre) ++ [EvUpsert recs sid r']) in Hin.
      rewrite upserted_app in Hin.
      change (upserted (EvUuid fid :: pre)) with (upserted pre) in Hin.
      rewrite Hpre in Hin. simpl in Hin.
      apply list_elem_of_singleton in Hin. subst. eauto. }
  apply list_elem_of_lookup_1 in Hrec as (i & Hi).
  destruct (Hnum i rec Hi) as (text & vec & ->).
  exists (take 1200 text). split; [reflexivity|].
  rewrite length_take. lia.
Qed.

Lemma all_ok_spec evs :
  all_ok evs = true -> forall ev, ev ∈ evs -> failed ev = false.
Proof.
  unfold all_ok. intros H ev Hev. apply list_elem_of_In in Hev.
  rewrite forallb_forall in H. apply H in Hev. now apply negb_true_iff.
Qed.

Lemma no_chunks_spec evs :
  no_chunks evs = true ->
  forall t a b cs, EvSplit t a b (Ok cs) ∈ evs -> cs = [].
Proof.
  unfold no_chunks. intros H t a b cs Hev. apply list_elem_of_In in Hev.
  rewrite forallb_forall in H. apply H in Hev. now destruct cs.
Qed.

Lemma each_page_quiet fid fname page_texts :
  forall acc c x,
    let o := each_page env fid fname page_texts acc c x in
    (forall ev, ev ∈ events o -> failed ev = false) ->
    (forall t a b cs, EvSplit t a b (Ok cs) ∈ events o -> cs = []) ->
    result o = Ok (acc, c).
Proof.
  induction page_texts as [|page rest IH]; intros acc c x o Hok Hempty.
  - reflexivity.
  - subst o. simpl in *. unfold chunk_page, embed in *.
    rewrite bind_call in *.
    destruct (split_text env page 1000 200 x) as [[chunks|e] x1];
      cbn [fst snd] in *.
    2:{ specialize (Hok _ (list_elem_of_here _ _)). discriminate Hok. }
    unfold preceded in *; cbn [result events] in *.
    assert (chunks = []) as -> by (eapply Hempty; apply list_elem_of_here).
    rewrite bind_call in *.
    destruct (embed_texts env (snd <$> []) Lit.retrieval_document x1)
      as [[vectors|e] x2]; cbn [fst snd] in *.
    2:{ specialize (Hok _ (list_elem_of_further _ _ _ (list_elem_of_here _ _))).
        discriminate Hok. }
    unfold preceded in *; cbn [result events] in *.
    simpl in *. apply IH.
    + intros ev Hev. apply Hok. now do 2 apply list_elem_of_further.
    + intros t a b cs Hev. eapply Hempty. do 2 apply list_elem_of_further.
      exact Hev.
Qed.

(** C10.  When a well-formed /upload runs without any collaborator
    failure and every chunker call returns no chunk, no upsert call is
    made, and the answer is HTTP 200 with ok true, num_chunks 0 and the
    doc_id that the run's first call, the uuid generator, produced. *)
Theorem upload_zero_chunks (req : upload_request) (x : X) sid f name :
  form_student_id req = Some sid ->
  files_file req = Some f ->
  fs_filename f = Some name ->
  is_empty sid = false ->
  is_empty name = false ->
  all_ok (events (upload env req x)) = true ->
  no_chunks (events (upload env req x)) = true ->
  exists file_id,
    head (events (upload env req x)) = Some (EvUuid file_id)
    /\ result (upload env req x)
       = Ok (jsonify [ (Lit.ok, VBool true);
                       (Lit.doc_id, VStr file_id);
                       (Lit.num_chunks, VInt 0);
                       (Lit.filename, VStr (secure_filename env name)) ] 200)
    /\ upserted (events (upload env req x)) = [].
Proof.
  intros H1 H2 H3 Hs Hn. unfold upload. rewrite H1, H2, H3, Hs, Hn.
  cbn [orb]. unfold upload_file.
  set (fname := secure_filename env name).
  unfold new_uuid. rewrite bind_call_total.
  destruct (uuid4 env x) as [fid x0]. cbn [fst snd].
  unfold save_file. rewrite bind_call.
  set (path := path_join (UPLOAD_DIR env) (fid ++ u "_" ++ fname)).
  destruct (save env f path x0) as [[[]|e] x1]; cbn [fst snd].
  2:{ intros Hok _. discriminate Hok. }
  unfold parse_pages. rewrite bind_call_total.
  destruct (extract_text env path x1) as [[pgs fail] x2]. cbn [fst snd].
  rewrite (bind_run (each_page env fid fname _ [] 0)).
  cbn [pages failure].
  pose proof (each_page_quiet fid fname pgs [] 0 x2) as Hq.
  pose proof (each_page_no_upsert fid fname pgs [] 0 x2) as Hno.
  destruct (each_page env fid fname pgs [] 0 x2) as [res evs x3].
  cbn [result events final] in *.
  intros Hok Hempty.
  pose proof (all_ok_spec _ Hok) as Hok'. clear Hok. rename Hok' into Hok.
  pose proof (no_chunks_spec _ Hempty) as Hempty'. clear Hempty.
  rename Hempty' into Hempty.
  assert (res = Ok ([], 0)) as ->.
  { apply Hq.
    - intros ev Hev. apply Hok. unfold preceded; simpl.
      do 3 apply list_elem_of_further.
      destruct res; simpl; [apply elem_of_app; now left | exact Hev].
    - intros t a b cs Hev. apply (Hempty t a b). unfold preceded; simpl.
      do 3 apply list_elem_of_further.
      destruct res; simpl; [apply elem_of_app; now left | exact Hev]. }
  assert (fail = None) as ->.
  { destruct fail as [e|]; [|reflexivity].
    specialize (Hok (EvExtract path (PageStream pgs (Some e)))).
    simpl in Hok. discriminate Hok.
    do 2 apply list_elem_of_further. apply list_elem_of_here. }
  rewrite bind_ret, bind_ret. exists fid. unfold preceded, ret; simpl.
  rewrite app_nil_r. repeat split. exact Hno.
Qed.

(** Whatever the name of the file, and so whatever its extension, a
    well-formed upload generates an id and saves the file under it:
    [_allowed] takes no part in the run. *)
Lemma upload_saves_any_name (req : upload_request) (x : X) sid f name :
  form_student_id req = Some sid ->
  files_file req = Some f ->
  fs_filename f = Some name ->
  is_empty sid = false ->
  is_empty name = false ->
  exists file_id r rest,
    events (upload env req x)
    = EvUuid file_id
      :: EvSave f (path_join (UPLOAD_DIR env)
                     (file_id ++ u "_" ++ secure_filename env name)) r
      :: rest.
Proof.
  intros H1 H2 H3 Hs Hn. unfold upload. rewrite H1, H2, H3, Hs, Hn.
  cbn [orb]. unfold upload_file, new_uuid, save_file.
  rewrite bind_call_total.
  destruct (uuid4 env x) as [fid x0]. cbn [fst snd].
  rewrite bind_call.
  match goal with
  | |- context [ save env f ?p x0 ] =>
      destruct (save env f p x0) as [[[]|e] x1]; cbn [fst snd]
  end.
  - eexists fid, (Ok ()), _. unfold preceded. simpl. reflexivity.
  - exists fid, (Raise e), []. reflexivity.
Qed.

End UploadFacts.

Section ContextFacts.

Context {X : Type} (env : Env X).

Lemma has_metadata_inv m :
  has_metadata m = true ->
  exists d md, m = VDict d /\ d !! Lit.metadata = Some (VDict md).
Proof.
  unfold has_metadata. destruct m; simpl; try discriminate.
  destruct (d !! Lit.metadata) as [[]|] eqn:E; try discriminate. eauto.
Qed.

Lemma ask_context_blocks_spec ms :
  Forall (fun m => has_metadata m = true) ms ->
  forall acc, ask_context_blocks env ms acc = Ok (acc ++ (block env <$> ms)).
Proof.
  induction 1 as [|m ms Hm _ IH]; intros acc; simpl.
  - now rewrite app_nil_r.
  - apply has_metadata_inv in Hm as (d & md & -> & Hd).
    unfold block, meta. simpl. rewrite Hd. simpl.
    rewrite IH. now rewrite <- app_assoc.
Qed.

Lemma citations_spec ms :
  Forall (fun m => has_metadata m = true) ms ->
  mapM citation ms = Ok (cite <$> ms).
Proof.
  induction 1 as [|m ms Hm _ IH]; simpl.
  - reflexivity.
  - rewrite IH. apply has_metadata_inv in Hm as (d & md & -> & Hd).
    unfold citation, cite, meta, top. simpl. rewrite Hd. reflexivity.
Qed.

(** C9.  For a valid /ask request whose index query returns a non-empty
    list of matches (objects with a metadata object), the context passed
    to the answer generator is the blocks of the matches, joined by blank
    lines in the order the index returned them, each block being the
    match's text tagged with its chunk index and file name; and when the
    generator answers, the response lists one citation per match, in the
    same order, with doc_id, filename, chunk_id and score. *)
Theorem ask_context_and_citations (body : value) (x : X)
    sid question k r x1 (ms : list value) :
  ask_fields env body = Ok (sid, question, k) ->
  Py.truthy sid = true ->
  is_empty question = false ->
  query_chunks env sid question k x = (Ok r, x1) ->
  Py.get r Lit.matches (VList []) = Ok (VList ms) ->
  ms <> [] ->
  Forall (fun m => has_metadata m = true) ms ->
  let context := join Lit.blank_line (block env <$> ms) in
  let out := (answer_with_context env question context temperature_0_2 x1).1 in
  events (ask env (Some body) x)
    = [ EvQuery sid question k (Ok r);
        EvAnswer question context temperature_0_2 out ]
  /\ forall answer,
       out = Ok answer ->
       result (ask env (Some body) x)
       = Ok (jsonify [ (Lit.answer, VStr answer);
                       (Lit.context_used, VList (cite <$> ms)) ] 200).
Proof.
  intros Hf Hs Hq Hr Hm Hne Hwf context out.
  apply ask_fields_inv in Hf as (H1 & H2 & H3).
  unfold ask. simpl get_json. rewrite bind_ret.
  rewrite H1, bind_lift_Ok; cbv beta.
  rewrite H2, bind_lift_Ok; cbv beta.
  rewrite H3, bind_lift_Ok; cbv beta.
  rewrite Hs, Hq. cbn [negb orb].
  unfold query. rewrite bind_call, Hr. cbn [fst snd].
  rewrite Hm, bind_lift_Ok; cbv beta.
  assert (Py.truthy (VList ms) = true) as -> by now destruct ms.
  cbn [negb]. simpl Py.iter. cbn [mbind res_mbind res_bind].
  rewrite (ask_context_blocks_spec ms Hwf []), app_nil_l.
  rewrite bind_lift_Ok; cbv beta. fold context.
  unfold generate. rewrite bind_call.
  subst out.
  destruct (answer_with_context env question context temperature_0_2 x1)
    as [[answer|e] x2]; cbn [fst snd].
  - rewrite (citations_spec ms Hwf), bind_lift_Ok; cbv beta.
    split; [reflexivity|]. now intros ? [= <-].
  - split; [reflexivity|]. discriminate.
Qed.

End ContextFacts.

Section SummarizeFacts.

Context {X : Type} (env : Env X).

Lemma summarize_fields_inv body sid topic k :
  summarize_fields env body = Ok (sid, topic, k) ->
  Py.get body Lit.student_id VNone = Ok sid
  /\ (t ← Py.get body Lit.topic (VStr []); Py.strip t) = Ok topic
  /\ (k ← Py.get body Lit.top_k (VInt 12); py_int env k) = Ok k.
Proof.
  unfold summarize_fields.
  destruct (Py.get body Lit.student_id VNone) as [a|]; [|discriminate].
  destruct (t ← Py.get body Lit.topic (VStr []); Py.strip t) as [b|];
    [|discriminate].
  destruct (k ← Py.get body Lit.top_k (VInt 12); py_int env k) as [c|];
    [|discriminate].
  now intros [= -> -> ->].
Qed.

Lemma summarize_parts_as_ask ms :
  forall acc, summarize_parts env ms acc = ask_context_blocks env ms acc.
Proof.
  induction ms as [|m ms IH]; intros acc; simpl; [reflexivity|].
  destruct (Py.getitem m Lit.metadata) as [md|e]; simpl; [|reflexivity].
  destruct md; simpl; try reflexivity. apply IH.
Qed.

(** C3, as amended.  Whenever /summarize answers HTTP 200, the index was
    queried once and returned a result, and the body is a JSON object with
    a [summary] key; it has a [topic] key as well exactly when the index
    returned at least one match.  Every valid request (student_id truthy,
    topic not blank, top_k readable) whose index query returns zero
    matches is answered: the response is HTTP 200 with the fixed object
    whose only key is [summary], and the query is the only collaborator
    call of the run, so the answer generator is not invoked.  Every valid
    request whose query returns matches with a metadata object, and for
    which the generator answers, gets HTTP 200 with the stripped topic
    under [topic] and the generator's answer under [summary]. *)
Theorem summarize_200_keys (b : option value) (x : X) :
  (status (serve env (PostSummarize b) x) = 200 ->
   exists sid topic k r rest,
     events (handler env (PostSummarize b) x)
       = EvQuery sid topic k (Ok r) :: rest
     /\ has_key Lit.summary (serve env (PostSummarize b) x) = true
     /\ has_key Lit.topic (serve env (PostSummarize b) x)
        = negb (no_matches r)
     /\ (no_matches r = true ->
         rest = []
         /\ serve env (PostSummarize b) x
            = jsonify [ (Lit.summary, VStr Lit.no_notes) ] 200))
  /\ (forall body sid topic k r x1,
        b = Some body ->
        summarize_fields env body = Ok (sid, topic, k) ->
        Py.truthy sid = true ->
        is_empty topic = false ->
        query_chunks env sid topic k x = (Ok r, x1) ->
        (no_matches r = true ->
         handler env (PostSummarize b) x
         = Outcome (Ok (jsonify [ (Lit.summary, VStr Lit.no_notes) ] 200))
             [ EvQuery sid topic k (Ok r) ] x1)
        /\ (forall ms summary x2,
              Py.get r Lit.matches (VList []) = Ok (VList ms) ->
              ms <> [] ->
              Forall (fun m => has_metadata m = true) ms ->
              answer_with_context env (summarize_prompt topic)
                (join Lit.blank_line (block env <$> ms)) temperature_0_2 x1
              = (Ok summary, x2) ->
              handler env (PostSummarize b) x
              = Outcome (Ok (jsonify [ (Lit.topic, VStr topic);
                                       (Lit.summary, VStr summary) ] 200))
                  [ EvQuery sid topic k (Ok r);
                    EvAnswer (summarize_prompt topic)
                      (join Lit.blank_line (block env <$> ms))
                      temperature_0_2 (Ok summary) ] x2)).
Proof.
  split.
  - unfold serve. simpl handler.
    destruct (summarize env b x) as [res evs x'] eqn:H. simpl.
    destruct res as [resp|e]; [|destruct e; discriminate].
    intros Hst. unfold summarize in H.
    destruct b as [body|]; simpl get_json in H; [|discriminate H].
    rewrite bind_ret in H.
    do 3 lift_step H.
    destruct (negb (Py.truthy a) || is_empty a0).
    { inversion H; subst. discriminate Hst. }
    unfold query in H. call_step H. lift_step H.
    exists a, a0, a1, a2, es. split; [reflexivity|].
    unfold no_matches. rewrite E3.
    destruct (Py.truthy a3); cbn [negb] in *.
    + lift_step H. unfold generate in H. call_step H.
      inversion H; subst. split; [reflexivity|]. split; [reflexivity|].
      discriminate.
    + inversion H; subst. repeat split.
  - intros body sid topic k r x1 -> Hf Hs Hq Hr.
    apply summarize_fields_inv in Hf as (H1 & H2 & H3).
    cbn [handler]. unfold summarize. pass_reads H1 H2 H3.
    rewrite Hs, Hq. cbn [negb orb].
    unfold query. rewrite bind_call, Hr. cbn [fst snd].
    split.
    + intros Hn. unfold no_matches in Hn.
      destruct (Py.get r Lit.matches (VList [])) as [m|]; [|discriminate].
      rewrite bind_lift_Ok; cbv beta. rewrite Hn. reflexivity.
    + intros ms summary x2 Hm Hne Hwf Ha.
      rewrite Hm, bind_lift_Ok; cbv beta.
      assert (Py.truthy (VList ms) = true) as -> by now destruct ms.
      cbn [negb]. simpl Py.iter. cbn [mbind res_mbind res_bind].
      rewrite summarize_parts_as_ask.
      rewrite (ask_context_blocks_spec env ms Hwf []), app_nil_l.
      rewrite bind_lift_Ok; cbv beta.
      unfold generate. rewrite bind_call, Ha. reflexivity.
Qed.

End SummarizeFacts.

(** ** The theorems at concrete requests *)

Section Instances.

#[local] Open Scope nat_scope.

Lemma missing_field_is_400_witness :
  missing_required (PostAsk Demo.question_only) = true
  /\ readable (Stub.env Demo.quiet) (PostAsk Demo.question_only) = true
  /\ (status (serve (Stub.env Demo.quiet) (PostAsk Demo.question_only) 0)
       = 400%Z
      /\ has_key Lit.error
           (serve (Stub.env Demo.quiet) (PostAsk Demo.question_only) 0) = true
      /\ events (handler (Stub.env Demo.quiet) (PostAsk Demo.question_only) 0)
         = []).
Proof.
  split; [reflexivity|]. split; [reflexivity|].
  apply (missing_field_is_400 (Stub.env Demo.quiet)
           (PostAsk Demo.question_only) 0); reflexivity.
Defined.

(** C1 as stated fails: /ask reads [top_k] with [int()] before it checks
    the required fields, so a request without student_id whose [top_k] is
    null is answered with HTTP 500. *)
Lemma ask_null_top_k_is_500 :
  missing_required (PostAsk Demo.null_top_k) = true
  /\ status (serve (Stub.env Demo.quiet) (PostAsk Demo.null_top_k) 0) = 500%Z.
Proof. split; reflexivity. Qed.

(** A body that is not JSON is refused by [get_json] itself: /ask answers
    with werkzeug's 400 page, which has no [error] key, and /flashcards,
    which catches every exception, with a JSON 500. *)
Example not_json_bodies :
  serve (Stub.env Demo.quiet) (PostAsk None) 0 = Response 400 ErrorPage
  /\ status (serve (Stub.env Demo.quiet) (PostFlashcards None) 0) = 500%Z
  /\ has_key Lit.error (serve (Stub.env Demo.quiet) (PostFlashcards None) 0)
     = true.
Proof. repeat split. Qed.

(** C2: the code never consults [_allowed].  A file named notes.exe,
    which [_allowed] rejects, is saved, chunked and upserted, and the
    upload is answered with HTTP 200. *)
Theorem upload_ignores_extension :
  _allowed (u "notes.exe") = false
  /\ result (upload (Stub.env Demo.three_pages) Demo.upload_exe 0)
     = Ok (jsonify [ (Lit.ok, VBool true);
                     (Lit.doc_id, VStr (u "doc0"));
                     (Lit.num_chunks, VInt 2);
                     (Lit.filename, VStr (u "notes.exe")) ] 200)
  /\ length (upserted (events (upload (Stub.env Demo.three_pages)
                                      Demo.upload_exe 0))) = 1.
Proof. repeat split; vm_compute; reflexivity. Qed.

Lemma summarize_200_keys_witness :
  (status (serve (Stub.env Demo.with_matches)
             (PostSummarize (Some Demo.topic_diabetes)) 0) = 200%Z
   /\ exists sid topic k r rest,
       events (handler (Stub.env Demo.with_matches)
                 (PostSummarize (Some Demo.topic_diabetes)) 0)
         = EvQuery sid topic k (Ok r) :: rest
       /\ has_key Lit.summary
            (serve (Stub.env Demo.with_matches)
               (PostSummarize (Some Demo.topic_diabetes)) 0) = true
       /\ has_key Lit.topic
            (serve (Stub.env Demo.with_matches)
               (PostSummarize (Some Demo.topic_diabetes)) 0)
          = negb (no_matches r)
       /\ (no_matches r = true ->
           rest = []
           /\ serve (Stub.env Demo.with_matches)
                (PostSummarize (Some Demo.topic_diabetes)) 0
              = jsonify [ (Lit.summary, VStr Lit.no_notes) ] 200))
  /\ (summarize_fields (Stub.env Demo.quiet) Demo.topic_diabetes
        = Ok (VStr (u "s1"), u "diabetes", 12%Z)
      /\ Py.truthy (VStr (u "s1")) = true
      /\ is_empty (u "diabetes") = false
      /\ query_chunks (Stub.env Demo.quiet) (VStr (u "s1")) (u "diabetes")
           12 0
         = (Ok (Stub.matches_of []), 0)
      /\ no_matches (Stub.matches_of []) = true
      /\ handler (Stub.env Demo.quiet)
           (PostSummarize (Some Demo.topic_diabetes)) 0
         = Outcome (Ok (jsonify [ (Lit.summary, VStr Lit.no_notes) ] 200))
             [ EvQuery (VStr (u "s1")) (u "diabetes") 12
                 (Ok (Stub.matches_of [])) ] 0)
  /\ (query_chunks (Stub.env Demo.with_matches) (VStr (u "s1"))
        (u "diabetes") 12 0
      = (Ok (Stub.matches_of Demo.two_matches), 0)
      /\ Py.get (Stub.matches_of Demo.two_matches) Lit.matches (VList [])
         = Ok (VList Demo.two_matches)
      /\ Forall (fun m => has_metadata m = true) Demo.two_matches
      /\ answer_with_context (Stub.env Demo.with_matches)
           (summarize_prompt (u "diabetes"))
           (join Lit.blank_line
              (block (Stub.env Demo.with_matches) <$> Demo.two_matches))
           temperature_0_2 0
         = (Ok (u "It inhibits COX-1."), 0)
      /\ handler (Stub.env Demo.with_matches)
           (PostSummarize (Some Demo.topic_diabetes)) 0
         = Outcome
             (Ok (jsonify [ (Lit.topic, VStr (u "diabetes"));
                            (Lit.summary, VStr (u "It inhibits COX-1.")) ]
                    200))
             [ EvQuery (VStr (u "s1")) (u "diabetes") 12
                 (Ok (Stub.matches_of Demo.two_matches));
               EvAnswer (summarize_prompt (u "diabetes"))
                 (join Lit.blank_line
                    (block (Stub.env Demo.with_matches)
                       <$> Demo.two_matches))
                 temperature_0_2 (Ok (u "It inhibits COX-1.")) ] 0).
Proof.
  split; [|split].
  - split; [reflexivity|].
    apply (summarize_200_keys (Stub.env Demo.with_matches)
             (Some Demo.topic_diabetes) 0).
    reflexivity.
  - do 5 (split; [reflexivity|]).
    apply (proj2 (summarize_200_keys (Stub.env Demo.quiet)
                    (Some Demo.topic_diabetes) 0)
             Demo.topic_diabetes (VStr (u "s1")) (u "diabetes") 12%Z
             (Stub.matches_of []) 0);
      reflexivity.
  - do 2 (split; [reflexivity|]). split; [repeat constructor|].
    split; [reflexivity|].
    apply (proj2 (summarize_200_keys (Stub.env Demo.with_matches)
                    (Some Demo.topic_diabetes) 0)
             Demo.topic_diabetes (VStr (u "s1")) (u "diabetes") 12%Z
             (Stub.matches_of Demo.two_matches) 0);
      try reflexivity; [discriminate | repeat constructor].
Defined.

(** C3 as stated fails: with zero matches /summarize answers HTTP 200
    with a body that has no [topic] key. *)
Lemma summarize_zero_matches_lacks_topic :
  status (serve (Stub.env Demo.quiet)
            (PostSummarize (Some Demo.topic_diabetes)) 0) = 200%Z
  /\ has_key Lit.topic
       (serve (Stub.env Demo.quiet)
          (PostSummarize (Some Demo.topic_diabetes)) 0) = false
  /\ serve (Stub.env Demo.quiet) (PostSummarize (Some Demo.topic_diabetes)) 0
     = jsonify [ (Lit.summary, VStr Lit.no_notes) ] 200.
Proof. repeat split; vm_compute; reflexivity. Qed.

Lemma ask_zero_matches_witness :
  ask_fields (Stub.env Demo.quiet) Demo.ask_aspirin
    = Ok (VStr (u "s1"), u "How does aspirin work?", 6%Z)
  /\ Py.truthy (VStr (u "s1")) = true
  /\ is_empty (u "How does aspirin work?") = false
  /\ query_chunks (Stub.env Demo.quiet) (VStr (u "s1"))
       (u "How does aspirin work?") 6 0
     = (Ok (Stub.matches_of []), 0)
  /\ no_matches (Stub.matches_of []) = true
  /\ ask (Stub.env Demo.quiet) (Some Demo.ask_aspirin) 0
     = Outcome (Ok (jsonify [ (Lit.answer, VStr Lit.not_found);
                              (Lit.context_used, VList []) ] 200))
         [ EvQuery (VStr (u "s1")) (u "How does aspirin work?") 6
             (Ok (Stub.matches_of [])) ] 0.
Proof.
  do 5 (split; [reflexivity|]).
  apply (ask_zero_matches (Stub.env Demo.quiet) Demo.ask_aspirin 0
           (VStr (u "s1")) (u "How does aspirin work?") 6%Z
           (Stub.matches_of []) 0); reflexivity.
Defined.

Lemma flashcards_parse_witness :
  EvAnswer
    (flashcards_prompt (u "diabetes") (u "General notes about diabetes"))
    (u "General notes about diabetes") temperature_0_3 (Ok Demo.prose)
    ∈ events (handler (Stub.env Demo.prose_answer)
                (PostFlashcards (Some Demo.topic_diabetes)) 0)
  /\ (forall parsed,
        json_loads (Stub.env Demo.prose_answer) Demo.prose = Some parsed ->
        serve (Stub.env Demo.prose_answer)
          (PostFlashcards (Some Demo.topic_diabetes)) 0
        = jsonify [ (Lit.flashcards, parsed) ] 200)
  /\ (json_loads (Stub.env Demo.prose_answer) Demo.prose = None ->
      serve (Stub.env Demo.prose_answer)
        (PostFlashcards (Some Demo.topic_diabetes)) 0
      = jsonify [ (Lit.flashcards, VList (question_lines Demo.prose)) ] 200).
Proof.
  assert (EvAnswer
            (flashcards_prompt (u "diabetes")
               (u "General notes about diabetes"))
            (u "General notes about diabetes") temperature_0_3
            (Ok Demo.prose)
            ∈ events (handler (Stub.env Demo.prose_answer)
                        (PostFlashcards (Some Demo.topic_diabetes)) 0)) as H.
  { vm_compute. apply list_elem_of_further, list_elem_of_here. }
  split; [exact H|].
  exact (flashcards_parse (Stub.env Demo.prose_answer)
           (Some Demo.topic_diabetes) 0 _ _ _ _ H).
Defined.

(** The two responses of the specification's examples. *)
Example flashcards_of_prose :
  serve (Stub.env Demo.prose_answer)
    (PostFlashcards (Some Demo.topic_diabetes)) 0
  = jsonify [ (Lit.flashcards,
               VList [ dict [ (Lit.question, VStr (u "What is X?"));
                              (Lit.answer, VStr []) ] ]) ] 200.
Proof. vm_compute. reflexivity. Qed.

Example flashcards_of_json :
  serve (Stub.env Demo.json_answer)
    (PostFlashcards (Some Demo.topic_diabetes)) 0
  = jsonify [ (Lit.flashcards, Demo.one_card) ] 200.
Proof. vm_compute. reflexivity. Qed.

Lemma flashcards_placeholder_witness :
  flashcards_fields (Stub.env Demo.quiet) Demo.topic_diabetes
    = Ok (VStr (u "s1"), u "diabetes", 10%Z)
  /\ Py.truthy (VStr (u "s1")) = true
  /\ is_empty (u "diabetes") = false
  /\ query_chunks (Stub.env Demo.quiet) (VStr (u "s1")) (u "diabetes") 10 0
     = (Ok (Stub.matches_of []), 0)
  /\ no_matches (Stub.matches_of []) = true
  /\ events (flashcards (Stub.env Demo.quiet) (Some Demo.topic_diabetes) 0)
     = [ EvQuery (VStr (u "s1")) (u "diabetes") 10 (Ok (Stub.matches_of []));
         EvAnswer
           (flashcards_prompt (u "diabetes")
              (u "General notes about " ++ u "diabetes"))
           (u "General notes about " ++ u "diabetes") temperature_0_3
           (answer_with_context (Stub.env Demo.quiet)
              (flashcards_prompt (u "diabetes")
                 (u "General notes about " ++ u "diabetes"))
              (u "General notes about " ++ u "diabetes")
              temperature_0_3 0).1 ].
Proof.
  do 5 (split; [reflexivity|]).
  apply (flashcards_placeholder (Stub.env Demo.quiet) Demo.topic_diabetes 0
           (VStr (u "s1")) (u "diabetes") 10%Z (Stub.matches_of []) 0);
    reflexivity.
Defined.

(** C6 as stated fails: the placeholder the code passes starts with a
    capital G, so it is not the string "general notes about diabetes". *)
Lemma flashcards_placeholder_is_capitalised :
  no_matches (Stub.matches_of []) = true
  /\ contexts (events (handler (Stub.env Demo.quiet)
                         (PostFlashcards (Some Demo.topic_diabetes)) 0))
     = [ u "General notes about diabetes" ]
  /\ contexts (events (handler (Stub.env Demo.quiet)
                         (PostFlashcards (Some Demo.topic_diabetes)) 0))
     <> [ u "general notes about diabetes" ].
Proof.
  split; [reflexivity|]. split; [vm_compute; reflexivity|].
  vm_compute. discriminate.
Qed.

Ltac find_event :=
  vm_compute;
  repeat first [ apply list_elem_of_here | apply list_elem_of_further ].

Lemma upload_chunk_numbering_witness :
  result (upload (Stub.env Demo.three_pages) Demo.upload_pdf 0)
    = Ok (upload_ok (u "doc0") 2 (u "notes.pdf"))
  /\ status (upload_ok (u "doc0") 2 (u "notes.pdf")) = 200%Z
  /\ exists file_id filename recs,
      upload_ok (u "doc0") 2 (u "notes.pdf")
      = jsonify [ (Lit.ok, VBool true);
                  (Lit.doc_id, VStr file_id);
                  (Lit.num_chunks, VInt (Z.of_nat (length recs)));
                  (Lit.filename, VStr filename) ] 200
      /\ upserted (events (upload (Stub.env Demo.three_pages)
                             Demo.upload_pdf 0))
         = match recs with [] => [] | _ => [recs] end
      /\ omap stored_text recs
         = take 1200
             <$> embedded (events (upload (Stub.env Demo.three_pages)
                                     Demo.upload_pdf 0))
      /\ forall (i : nat) r,
           recs !! i = Some r ->
           field Lit.id r
             = Some (VStr (file_id ++ u "-" ++ of_Z (Z.of_nat i)))
           /\ (field Lit.metadata r ≫= field Lit.chunk_id)
              = Some (VInt (Z.of_nat i))
           /\ (field Lit.metadata r ≫= field Lit.doc_id)
              = Some (VStr file_id).
Proof.
  split; [vm_compute; reflexivity|]. split; [reflexivity|].
  apply (upload_chunk_numbering (Stub.env Demo.three_pages)
           Demo.upload_pdf 0 (upload_ok (u "doc0") 2 (u "notes.pdf")));
    vm_compute; reflexivity.
Defined.

(** The counter runs across the empty second page: the records of the
    run are those of chunks 0 and 1. *)
Example upload_three_pages_records :
  upserted (events (upload (Stub.env Demo.three_pages) Demo.upload_pdf 0))
  = [ Demo.stored_records ].
Proof. vm_compute. reflexivity. Qed.

Lemma stored_text_bounded_witness :
  EvUpsert Demo.stored_records (u "s1") (Ok ())
    ∈ events (upload (Stub.env Demo.three_pages) Demo.upload_pdf 0)
  /\ Demo.long_record ∈ Demo.stored_records
  /\ exists t,
      (field Lit.metadata Demo.long_record ≫= field Lit.text) = Some (VStr t)
      /\ length t <= 1200.
Proof.
  assert (EvUpsert Demo.stored_records (u "s1") (Ok ())
            ∈ events (upload (Stub.env Demo.three_pages) Demo.upload_pdf 0))
    as H1 by find_event.
  assert (Demo.long_record ∈ Demo.stored_records) as H2 by find_event.
  split; [exact H1|]. split; [exact H2|].
  exact (stored_text_bounded (Stub.env Demo.three_pages) Demo.upload_pdf 0
           _ _ _ _ H1 H2).
Defined.

(** The page of 1500 characters is stored as its first 1200. *)
Example long_record_truncated :
  stored_text Demo.long_record = Some (replicate 1200 97%Z).
Proof. vm_compute. reflexivity. Qed.

Lemma ask_context_and_citations_witness :
  ask_fields (Stub.env Demo.with_matches) Demo.ask_aspirin
    = Ok (VStr (u "s1"), u "How does aspirin work?", 6%Z)
  /\ Py.truthy (VStr (u "s1")) = true
  /\ is_empty (u "How does aspirin work?") = false
  /\ query_chunks (Stub.env Demo.with_matches) (VStr (u "s1"))
       (u "How does aspirin work?") 6 0
     = (Ok (Stub.matches_of Demo.two_matches), 0)
  /\ Py.get (Stub.matches_of Demo.two_matches) Lit.matches (VList [])
     = Ok (VList Demo.two_matches)
  /\ Demo.two_matches <> []
  /\ Forall (fun m => has_metadata m = true) Demo.two_matches
  /\ (events (ask (Stub.env Demo.with_matches) (Some Demo.ask_aspirin) 0)
      = [ EvQuery (VStr (u "s1")) (u "How does aspirin work?") 6
            (Ok (Stub.matches_of Demo.two_matches));
          EvAnswer (u "How does aspirin work?")
            (join Lit.blank_line
               (block (Stub.env Demo.with_matches) <$> Demo.two_matches))
            temperature_0_2
            (answer_with_context (Stub.env Demo.with_matches)
               (u "How does aspirin work?")
               (join Lit.blank_line
                  (block (Stub.env Demo.with_matches) <$> Demo.two_matches))
               temperature_0_2 0).1 ]
      /\ forall answer,
           (answer_with_context (Stub.env Demo.with_matches)
              (u "How does aspirin work?")
              (join Lit.blank_line
                 (block (Stub.env Demo.with_matches) <$> Demo.two_matches))
              temperature_0_2 0).1 = Ok answer ->
           result (ask (Stub.env Demo.with_matches) (Some Demo.ask_aspirin) 0)
           = Ok (jsonify [ (Lit.answer, VStr answer);
                           (Lit.context_used,
                            VList (cite <$> Demo.two_matches)) ] 200)).
Proof.
  do 5 (split; [reflexivity|]). split; [discriminate|].
  split; [repeat constructor|].
  apply (ask_context_and_citations (Stub.env Demo.with_matches)
           Demo.ask_aspirin 0 (VStr (u "s1")) (u "How does aspirin work?")
           6%Z (Stub.matches_of Demo.two_matches) 0 Demo.two_matches);
    try reflexivity; [discriminate | repeat constructor].
Defined.

(** The context of that run, spelled out. *)
Example ask_aspirin_context :
  contexts (events (ask (Stub.env Demo.with_matches)
                      (Some Demo.ask_aspirin) 0))
  = [ u "[chunk 0 from notes.pdf] Aspirin inhibits COX-1." ++ [nl; nl]
      ++ u "[chunk 3 from notes.pdf] NSAIDs lower prostaglandins." ].
Proof. vm_compute. reflexivity. Qed.

Lemma upload_zero_chunks_witness :
  form_student_id Demo.upload_pdf = Some (u "s1")
  /\ files_file Demo.upload_pdf = Some (FileStorage (Some (u "notes.pdf")))
  /\ fs_filename (FileStorage (Some (u "notes.pdf"))) = Some (u "notes.pdf")
  /\ is_empty (u "s1") = false
  /\ is_empty (u "notes.pdf") = false
  /\ all_ok (events (upload (Stub.env Demo.blank_pages) Demo.upload_pdf 0))
     = true
  /\ no_chunks (events (upload (Stub.env Demo.blank_pages) Demo.upload_pdf 0))
     = true
  /\ exists file_id,
      head (events (upload (Stub.env Demo.blank_pages) Demo.upload_pdf 0))
        = Some (EvUuid file_id)
      /\ result (upload (Stub.env Demo.blank_pages) Demo.upload_pdf 0)
         = Ok (jsonify
                 [ (Lit.ok, VBool true);
                   (Lit.doc_id, VStr file_id);
                   (Lit.num_chunks, VInt 0);
                   (Lit.filename,
                    VStr (secure_filename (Stub.env Demo.blank_pages)
                            (u "notes.pdf"))) ] 200)
      /\ upserted (events (upload (Stub.env Demo.blank_pages)
                             Demo.upload_pdf 0)) = [].
Proof.
  do 5 (split; [reflexivity|]).
  split; [vm_compute; reflexivity|]. split; [vm_compute; reflexivity|].
  apply (upload_zero_chunks (Stub.env Demo.blank_pages) Demo.upload_pdf 0
           (u "s1") (FileStorage (Some (u "notes.pdf"))) (u "notes.pdf"));
    vm_compute; reflexivity.
Defined.

End Instances.

(** * Further properties of the handlers *)

Section ValidationFacts.

Context {X : Type} (env : Env X).

(** X1.  A JSON endpoint whose reads succeed but whose student_id is
    falsy (absent, null, empty, zero) or whose question or topic is blank
    after stripping answers HTTP 400 with its error message and calls no
    collaborator. *)
Theorem blank_fields_are_400 (e : endpoint) (body : value) (x : X) sid q k :
  fields env e body = Ok (sid, q, k) ->
  Py.truthy sid = false \/ is_empty q = true ->
  handler env (post e (Some body)) x = Outcome (Ok (missing_response e)) [] x.
Proof.
  intros Hf Hb.
  assert (negb (Py.truthy sid) || is_empty q = true) as Hc.
  { destruct Hb as [-> | ->]; [reflexivity | apply orb_true_r]. }
  destruct e; cbn [post handler fields] in Hf |- *.
  - apply ask_fields_inv in Hf as (H1 & H2 & H3).
    unfold ask. pass_reads H1 H2 H3. now rewrite Hc.
  - apply summarize_fields_inv in Hf as (H1 & H2 & H3).
    unfold summarize. pass_reads H1 H2 H3. now rewrite Hc.
  - apply flashcards_fields_inv in Hf as (H1 & H2 & H3).
    unfold flashcards, catch, flashcards_try. pass_reads H1 H2 H3.
    now rewrite Hc.
Qed.

(** X2.  A JSON endpoint whose reads succeed with a truthy student_id and
    a non-blank question or topic passes validation: its first collaborator
    call is the index query, with the student_id as given, the stripped
    text and the converted top_k. *)
Theorem valid_request_queries_index (e : endpoint) (body : value) (x : X)
    sid q k :
  fields env e body = Ok (sid, q, k) ->
  Py.truthy sid = true ->
  is_empty q = false ->
  exists rest,
    events (handler env (post e (Some body)) x)
    = EvQuery sid q k (query_chunks env sid q k x).1 :: rest.
Proof.
  intros Hf Hs Hq.
  destruct e; cbn [post handler fields] in Hf |- *.
  - apply ask_fields_inv in Hf as (H1 & H2 & H3).
    unfold ask. pass_reads H1 H2 H3. rewrite Hs, Hq. cbn [negb orb].
    unfold query. rewrite bind_call.
    destruct (query_chunks env sid q k x) as [[r|err] x1]; cbn [fst snd];
      eexists; reflexivity.
  - apply summarize_fields_inv in Hf as (H1 & H2 & H3).
    unfold summarize. pass_reads H1 H2 H3. rewrite Hs, Hq. cbn [negb orb].
    unfold query. rewrite bind_call.
    destruct (query_chunks env sid q k x) as [[r|err] x1]; cbn [fst snd];
      eexists; reflexivity.
  - apply flashcards_fields_inv in Hf as (H1 & H2 & H3).
    rewrite flashcards_events.
    unfold flashcards_try. pass_reads H1 H2 H3. rewrite Hs, Hq.
    cbn [negb orb].
    unfold query. rewrite bind_call.
    destruct (query_chunks env sid q k x) as [[r|err] x1]; cbn [fst snd];
      eexists; reflexivity.
Qed.

(** X3.  When the question of /ask, or the topic of /summarize or
    /flashcards, is present but not a string (for /flashcards: and truthy),
    the [.strip()] call raises before validation.  No collaborator is
    called and the status is 500; only /flashcards, which catches the
    exception, answers with a JSON [error]. *)
Theorem non_string_text_is_500 (e : endpoint) (d : gmap str value) (x : X) v :
  d !! text_key e = Some v ->
  is_str v = false ->
  (e = Flashcards -> Py.truthy v = true) ->
  status (serve env (post e (Some (VDict d))) x) = 500
  /\ has_key Lit.error (serve env (post e (Some (VDict d))) x)
     = match e with Flashcards => true | _ => false end
  /\ events (handler env (post e (Some (VDict d))) x) = [].
Proof.
  intros Hv Hs Ht. unfold serve.
  destruct e; cbn [post handler text_key] in Hv |- *.
  - unfold ask. simpl get_json. rewrite bind_ret.
    change (Py.get (VDict d) Lit.student_id VNone)
      with (Ok (default VNone (d !! Lit.student_id))).
    rewrite bind_lift_Ok; cbv beta.
    assert ((q ← Py.get (VDict d) Lit.question (VStr []); Py.strip q)
            = Raise AttributeError) as ->.
    { simpl. rewrite Hv. now destruct v. }
    rewrite bind_lift_Raise. repeat split.
  - unfold summarize. simpl get_json. rewrite bind_ret.
    change (Py.get (VDict d) Lit.student_id VNone)
      with (Ok (default VNone (d !! Lit.student_id))).
    rewrite bind_lift_Ok; cbv beta.
    assert ((t ← Py.get (VDict d) Lit.topic (VStr []); Py.strip t)
            = Raise AttributeError) as ->.
    { simpl. rewrite Hv. now destruct v. }
    rewrite bind_lift_Raise. repeat split.
  - unfold flashcards, catch, flashcards_try. simpl get_json.
    rewrite bind_ret.
    change (Py.get (VDict d) Lit.student_id VNone)
      with (Ok (default VNone (d !! Lit.student_id))).
    rewrite bind_lift_Ok; cbv beta.
    assert ((t ← Py.get (VDict d) Lit.topic VNone;
             Py.strip (Py.or t (VStr []))) = Raise AttributeError) as ->.
    { simpl. rewrite Hv. simpl. unfold Py.or. rewrite (Ht eq_refl).
      now destruct v. }
    rewrite bind_lift_Raise. repeat split.
Qed.

End ValidationFacts.

Section ResponseFacts.

Context {X : Type} (env : Env X).

(** X4.  Whenever /ask answers HTTP 200, the index was queried once and
    answered, and the body is a JSON object with a string [answer] and a
    list [context_used].  With zero matches the list is empty and nothing
    else was called; otherwise the answer generator was called exactly
    once, after the query, and [answer] is what it returned. *)
Theorem ask_200_keys (b : option value) (x : X) :
  status (serve env (PostAsk b) x) = 200 ->
  exists sid q k r rest answer citations,
    events (handler env (PostAsk b) x) = EvQuery sid q k (Ok r) :: rest
    /\ serve env (PostAsk b) x
       = jsonify [ (Lit.answer, VStr answer);
                   (Lit.context_used, VList citations) ] 200
    /\ (no_matches r = true -> rest = [] /\ citations = [])
    /\ (no_matches r = false ->
        exists context,
          rest = [ EvAnswer q context temperature_0_2 (Ok answer) ]).
Proof.
  unfold serve. simpl handler.
  destruct (ask env b x) as [res evs x'] eqn:H. simpl.
  destruct res as [resp|e]; [|destruct e; discriminate].
  intros Hst. unfold ask in H.
  destruct b as [body|]; simpl get_json in H; [|discriminate H].
  rewrite bind_ret in H.
  do 3 lift_step H.
  destruct (negb (Py.truthy a) || is_empty a0).
  { inversion H; subst. discriminate Hst. }
  unfold query in H. call_step H. lift_step H.
  destruct (Py.truthy a3) eqn:Ht; cbn [negb] in *.
  - lift_step H. unfold generate in H. call_step H. lift_step H.
    inversion H; subst.
    eexists a, a0, a1, a2, _, _, _. split; [reflexivity|].
    split; [reflexivity|]. unfold no_matches. rewrite E3, Ht.
    split; [discriminate|]. eauto.
  - inversion H; subst.
    eexists a, a0, a1, a2, _, _, _. split; [reflexivity|].
    split; [reflexivity|]. unfold no_matches. rewrite E3, Ht.
    split; [auto | discriminate].
Qed.

Lemma ask_ok_all_ok b x resp :
  result (ask env b x) = Ok resp -> all_ok (events (ask env b x)) = true.
Proof.
  destruct (ask env b x) as [res evs x'] eqn:H. simpl. intros ->.
  unfold ask in H.
  destruct b as [body|]; simpl get_json in H; [|discriminate H].
  rewrite bind_ret in H.
  do 3 lift_step H.
  destruct (negb (Py.truthy a) || is_empty a0).
  { now inversion H. }
  unfold query in H. call_step H. lift_step H.
  destruct (negb (Py.truthy a3)).
  { now inversion H. }
  lift_step H. unfold generate in H. call_step H. lift_step H.
  now inversion H.
Qed.

Lemma summarize_ok_all_ok b x resp :
  result (summarize env b x) = Ok resp ->
  all_ok (events (summarize env b x)) = true.
Proof.
  destruct (summarize env b x) as [res evs x'] eqn:H. simpl. intros ->.
  unfold summarize in H.
  destruct b as [body|]; simpl get_json in H; [|discriminate H].
  rewrite bind_ret in H.
  do 3 lift_step H.
  destruct (negb (Py.truthy a) || is_empty a0).
  { now inversion H. }
  unfold query in H. call_step H. lift_step H.
  destruct (negb (Py.truthy a3)).
  { now inversion H. }
  lift_step H. unfold generate in H. call_step H.
  now inversion H.
Qed.

(** The outcomes of the [try] body of [flashcards] that do not raise. *)
Lemma flashcards_try_ok b x resp :
  result (flashcards_try env b x) = Ok resp ->
  all_ok (events (flashcards_try env b x)) = true
  /\ (resp = flashcards_missing
      \/ exists cards, resp = jsonify [ (Lit.flashcards, cards) ] 200).
Proof.
  destruct (flashcards_try env b x) as [res evs x'] eqn:H. simpl. intros ->.
  unfold flashcards_try in H.
  destruct b as [body|]; simpl get_json in H; [|discriminate H].
  rewrite bind_ret in H.
  do 3 lift_step H.
  destruct (negb (Py.truthy a) || is_empty a0).
  { inversion H. auto. }
  unfold query in H. call_step H. do 2 lift_step H.
  unfold generate in H. call_step H.
  inversion H. split; [reflexivity|]. right. eauto.
Qed.

(** X5.  /flashcards never lets an exception reach Flask: every run
    returns a JSON response, which is a 200 with a [flashcards] key, or a
    400 or 500 with an [error] key. *)
Theorem flashcards_always_answers (b : option value) (x : X) :
  exists resp,
    result (flashcards env b x) = Ok resp
    /\ ((status resp = 200 /\ has_key Lit.flashcards resp = true)
        \/ ((status resp = 400 \/ status resp = 500)
            /\ has_key Lit.error resp = true)).
Proof.
  unfold flashcards, catch.
  pose proof (flashcards_try_ok b x) as Hok.
  destruct (flashcards_try env b x) as [[resp|e] evs x']; simpl in *.
  - exists resp. split; [reflexivity|].
    destruct (Hok resp eq_refl) as [_ [->|[cards ->]]].
    + right. split; [now left | reflexivity].
    + left. split; reflexivity.
  - eexists. split; [reflexivity|]. right. split; [now right | reflexivity].
Qed.

End ResponseFacts.

Section UploadTraceFacts.

Context {X : Type} (env : Env X).

Lemma each_page_ok_trace fid fname page_texts :
  forall acc c x acc' c',
    result (each_page env fid fname page_texts acc c x) = Ok (acc', c') ->
    all_ok (events (each_page env fid fname page_texts acc c x)) = true
    /\ chunked (events (each_page env fid fname page_texts acc c x))
       = page_texts
    /\ embed_inputs (events (each_page env fid fname page_texts acc c x))
       = split_outputs (events (each_page env fid fname page_texts acc c x))
    /\ parsed (events (each_page env fid fname page_texts acc c x)) = [].
Proof.
  induction page_texts as [|page rest IH]; intros acc c x acc' c' H.
  - repeat split.
  - simpl in H |- *. unfold chunk_page, embed in H |- *.
    rewrite bind_call in H |- *.
    destruct (split_text env page 1000 200 x) as [[chunks|e] x1];
      cbn [fst snd] in H |- *; [|discriminate H].
    unfold preceded in H |- *; cbn [result events] in H |- *.
    rewrite bind_call in H |- *.
    destruct (embed_texts env (snd <$> chunks) Lit.retrieval_document x1)
      as [[vectors|e] x2]; cbn [fst snd] in H |- *; [|discriminate H].
    unfold preceded in H |- *; cbn [result events] in H |- *.
    destruct (append_chunks fid fname (zip chunks vectors) acc c)
      as [acc1 c1].
    destruct (IH _ _ _ _ _ H) as (I1 & I2 & I3 & I4).
    simpl. rewrite I1, I4.
    unfold chunked, embed_inputs, split_outputs in *. simpl.
    now rewrite I2, I3.
Qed.

(** A run of [upload_file] either raises without any upsert, or gets
    through every page: then its trace is the id, the save, the parse, one
    chunker and one embedding call per page, and at most one upsert. *)
Lemma upload_file_trace sid f name x :
  let fname := secure_filename env name in
  let o := upload_file env sid f name x in
  (upserted (events o) = [] /\ exists e, result o = Raise e)
  \/ exists fid stream evs tail,
       events o
       = EvUuid fid
         :: EvSave f (path_join (UPLOAD_DIR env) (fid ++ u "_" ++ fname))
              (Ok ())
         :: EvExtract (path_join (UPLOAD_DIR env) (fid ++ u "_" ++ fname))
              stream
         :: evs ++ tail
       /\ failure stream = None
       /\ all_ok evs = true /\ upserted evs = [] /\ parsed evs = []
       /\ chunked evs = pages stream
       /\ embed_inputs evs = split_outputs evs
       /\ ((tail = [] /\ embedded evs = []
            /\ result o = Ok (upload_ok fid 0 fname))
           \/ exists recs r,
                tail = [EvUpsert recs sid r] /\ recs <> []
                /\ omap stored_text recs = take 1200 <$> embedded evs
                /\ result o
                   = match r with
                     | Ok _ =>
                         Ok (upload_ok fid (Z.of_nat (length recs)) fname)
                     | Raise e => Raise e
                     end).
Proof.
  intros fname o. subst o. unfold upload_file. fold fname.
  unfold new_uuid. rewrite bind_call_total.
  destruct (uuid4 env x) as [fid x0]. cbn [fst snd].
  unfold save_file. rewrite bind_call.
  set (path := path_join (UPLOAD_DIR env) (fid ++ u "_" ++ fname)).
  destruct (save env f path x0) as [[[]|e] x1]; cbn [fst snd].
  2:{ left. split; [reflexivity | eauto]. }
  unfold parse_pages. rewrite bind_call_total.
  destruct (extract_text env path x1) as [stream x2]. cbn [fst snd].
  rewrite (bind_run (each_page env fid fname (pages stream) [] 0)).
  pose proof (each_page_no_upsert env fid fname (pages stream) [] 0 x2) as Hno.
  pose proof (each_page_numbered env fid fname (pages stream) [] 0 x2) as Hnum.
  pose proof (each_page_stored env fid fname (pages stream) [] 0 x2) as Hsto.
  pose proof (each_page_ok_trace fid fname (pages stream) [] 0 x2) as Htr.
  destruct (each_page env fid fname (pages stream) [] 0 x2)
    as [[[recs c]|e] evs x3]; cbn [result events final] in *.
  2:{ left. split; [exact Hno | eauto]. }
  destruct (Hnum recs c (numbered_nil _ _) eq_refl eq_refl) as [Hn ->].
  destruct (Htr _ _ eq_refl) as (T1 & T2 & T3 & T4).
  specialize (Hsto _ _ eq_refl). simpl in Hsto.
  destruct (failure stream) as [e|] eqn:Hfail.
  { rewrite bind_raise. left. split; [|eauto].
    unfold preceded; simpl. rewrite app_nil_r. exact Hno. }
  rewrite bind_ret. right. exists fid, stream, evs.
  destruct recs as [|r0 recs].
  - rewrite bind_ret. exists []. unfold preceded, ret; simpl.
    split; [reflexivity|]. repeat (split; [assumption|]).
    left. repeat split.
    symmetry in Hsto. now apply fmap_nil_inv in Hsto.
  - unfold upsert. rewrite bind_call.
    destruct (index_upsert env (r0 :: recs) sid x3) as [[[]|e] x4];
      cbn [fst snd].
    + exists [EvUpsert (r0 :: recs) sid (Ok ())]. unfold preceded; simpl.
      split; [reflexivity|]. repeat (split; [assumption|]).
      right. exists (r0 :: recs), (Ok ()).
      repeat split; [discriminate | exact Hsto].
    + exists [EvUpsert (r0 :: recs) sid (Raise e)]. unfold preceded; simpl.
      split; [reflexivity|]. repeat (split; [assumption|]).
      right. exists (r0 :: recs), (Raise e).
      repeat split; [discriminate | exact Hsto].
Qed.

Lemma all_ok_app evs1 evs2 :
  all_ok (evs1 ++ evs2) = all_ok evs1 && all_ok evs2.
Proof. apply forallb_app. Qed.

Lemma chunked_app evs1 evs2 :
  chunked (evs1 ++ evs2) = chunked evs1 ++ chunked evs2.
Proof. apply omap_app. Qed.

Lemma embed_inputs_app evs1 evs2 :
  embed_inputs (evs1 ++ evs2) = embed_inputs evs1 ++ embed_inputs evs2.
Proof. apply omap_app. Qed.

Lemma split_outputs_app evs1 evs2 :
  split_outputs (evs1 ++ evs2) = split_outputs evs1 ++ split_outputs evs2.
Proof. apply omap_app. Qed.

(** The calls of the page loop, when it gets through every page: for each
    page in turn, the chunker and then the embedding client. *)
Lemma each_page_calls fid fname page_texts :
  forall acc c x acc' c',
    result (each_page env fid fname page_texts acc c x) = Ok (acc', c') ->
    exists works,
      work_page <$> works = page_texts
      /\ events (each_page env fid fname page_texts acc c x)
         = concat (page_calls <$> works).
Proof.
  induction page_texts as [|page rest IH]; intros acc c x acc' c' H.
  - exists []. split; reflexivity.
  - simpl in H |- *. unfold chunk_page, embed in H |- *.
    rewrite bind_call in H |- *.
    destruct (split_text env page 1000 200 x) as [[chunks|e] x1];
      cbn [fst snd] in H |- *; [|discriminate H].
    unfold preceded in H |- *; cbn [result events] in H |- *.
    rewrite bind_call in H |- *.
    destruct (embed_texts env (snd <$> chunks) Lit.retrieval_document x1)
      as [[vectors|e] x2]; cbn [fst snd] in H |- *; [|discriminate H].
    unfold preceded in H |- *; cbn [result events] in H |- *.
    destruct (append_chunks fid fname (zip chunks vectors) acc c)
      as [acc1 c1].
    destruct (IH _ _ _ _ _ H) as (works & W1 & W2).
    exists (PageWork page chunks vectors :: works). split.
    + rewrite fmap_cons, W1. reflexivity.
    + rewrite W2. reflexivity.
Qed.

(** The whole trace of an upload that returns a response: the id, the
    save, the parse, the calls of the page loop, and at most one
    successful upsert. *)
Lemma upload_file_calls sid f name x resp :
  result (upload_file env sid f name x) = Ok resp ->
  exists fid stream works tail,
    events (upload_file env sid f name x)
    = EvUuid fid
      :: EvSave f (path_join (UPLOAD_DIR env)
                     (fid ++ u "_" ++ secure_filename env name)) (Ok ())
      :: EvExtract (path_join (UPLOAD_DIR env)
                      (fid ++ u "_" ++ secure_filename env name)) stream
      :: concat (page_calls <$> works) ++ tail
    /\ work_page <$> works = pages stream
    /\ (tail = [] \/ exists recs, tail = [EvUpsert recs sid (Ok ())]).
Proof.
  unfold upload_file. set (fname := secure_filename env name).
  unfold new_uuid. rewrite bind_call_total.
  destruct (uuid4 env x) as [fid x0]. cbn [fst snd].
  unfold save_file. rewrite bind_call.
  set (path := path_join (UPLOAD_DIR env) (fid ++ u "_" ++ fname)).
  destruct (save env f path x0) as [[[]|e] x1]; cbn [fst snd];
    [|discriminate].
  unfold parse_pages. rewrite bind_call_total.
  destruct (extract_text env path x1) as [stream x2]. cbn [fst snd].
  rewrite (bind_run (each_page env fid fname (pages stream) [] 0)).
  pose proof (each_page_calls fid fname (pages stream) [] 0 x2) as Hc.
  destruct (each_page env fid fname (pages stream) [] 0 x2)
    as [[[recs c]|e] evs x3]; cbn [result events final] in *;
    [|discriminate].
  destruct (Hc _ _ eq_refl) as (works & W1 & ->).
  destruct (failure stream) as [e|].
  { rewrite bind_raise. discriminate. }
  rewrite bind_ret.
  destruct recs as [|r0 recs].
  - rewrite bind_ret. intros _. exists fid, stream, works, [].
    unfold preceded, ret; simpl. rewrite !app_nil_r. auto.
  - unfold upsert. rewrite bind_call.
    destruct (index_upsert env (r0 :: recs) sid x3) as [[[]|e] x4];
      cbn [fst snd]; [|discriminate].
    intros _. exists fid, stream, works, [EvUpsert (r0 :: recs) sid (Ok ())].
    unfold preceded, ret; simpl. rewrite ?app_nil_r. eauto.
Qed.

(** X6.  A form field that is present but empty counts as missing: an
    empty student_id, or a file part without a file name, is answered with
    HTTP 400 and nothing is generated, saved or parsed. *)
Theorem upload_rejects_empty_fields (req : upload_request) (x : X) :
  form_student_id req = Some []
  \/ (exists f, files_file req = Some f
                /\ (fs_filename f = None \/ fs_filename f = Some [])) ->
  upload env req x
  = Outcome
      (Ok (jsonify [ (Lit.error, VStr (u "student_id and file are required")) ]
             400)) [] x.
Proof.
  unfold upload. intros [Hs|(f & Hf & Hn)].
  - rewrite Hs. destruct (files_file req) as [f|]; [|reflexivity].
    destruct (fs_filename f); reflexivity.
  - rewrite Hf. destruct (form_student_id req) as [sid|]; [|reflexivity].
    destruct Hn as [-> | ->]; [reflexivity|].
    simpl. now rewrite orb_true_r.
Qed.

(** X7.  An upload writes to the index at most once.  The upsert, when
    there is one, is the last call of the run, it is made only after every
    earlier call (save, parse, each chunking and embedding) has succeeded,
    its batch is not empty, and its namespace is the student_id of the
    form. *)
Theorem upload_upserts_once_at_end (req : upload_request) (x : X) :
  upserted (events (upload env req x)) = []
  \/ exists pre recs sid r,
       events (upload env req x) = pre ++ [EvUpsert recs sid r]
       /\ upserted pre = [] /\ all_ok pre = true
       /\ recs <> [] /\ form_student_id req = Some sid.
Proof.
  destruct (upload_cases env req x)
    as [E|(sid & f & name & Hsid & _ & _ & _ & _ & E)]; rewrite E.
  { now left. }
  destruct (upload_file_trace sid f name x)
    as [[Hno _]|(fid & stream & evs & tail & Hev & Hfail & Hok & Hup & _ & _
                 & _ & [(-> & _ & _)|(recs & r & -> & Hne & _ & _)])].
  - now left.
  - left. rewrite Hev, app_nil_r.
    destruct stream as [pgs fl]. exact Hup.
  - right.
    exists (EvUuid fid
            :: EvSave f (path_join (UPLOAD_DIR env)
                           (fid ++ u "_" ++ secure_filename env name)) (Ok ())
            :: EvExtract (path_join (UPLOAD_DIR env)
                            (fid ++ u "_" ++ secure_filename env name)) stream
            :: evs), recs, sid, r.
    split; [exact Hev|]. split; [exact Hup|]. split; [|auto].
    destruct stream as [pgs fl]. simpl in Hfail. subst fl. exact Hok.
Qed.

(** X8.  In a successful upload the file is saved once, under the upload
    directory as the document id, an underscore and the secured name, and
    the parser is called once, on that same path.  The pages the parser
    yields are chunked in order, each exactly once, and each page's chunk
    texts go to the embedding client in one batch.  The trace is exactly:
    one id, the save, the parse, then for each page in turn the chunker
    call on it followed by the embedding call on its chunk texts, both
    answered, and last at most one answered upsert; nothing else is
    called. *)
Theorem upload_pages_in_order (req : upload_request) (x : X) resp :
  result (upload env req x) = Ok resp ->
  status resp = 200 ->
  exists fid f name stream rest works tail,
    files_file req = Some f /\ fs_filename f = Some name
    /\ events (upload env req x)
       = EvUuid fid
         :: EvSave f (path_join (UPLOAD_DIR env)
                        (fid ++ u "_" ++ secure_filename env name)) (Ok ())
         :: EvExtract (path_join (UPLOAD_DIR env)
                         (fid ++ u "_" ++ secure_filename env name)) stream
         :: rest
    /\ parsed rest = []
    /\ chunked (events (upload env req x)) = pages stream
    /\ embed_inputs (events (upload env req x))
       = split_outputs (events (upload env req x))
    /\ rest = concat (page_calls <$> works) ++ tail
    /\ work_page <$> works = pages stream
    /\ (tail = [] \/ exists recs sid, tail = [EvUpsert recs sid (Ok ())]).
Proof.
  intros Hres Hst.
  destruct (upload_cases env req x)
    as [E|(sid & f & name & _ & Hf & Hn & _ & _ & E)]; rewrite E in *.
  { simpl in Hres. injection Hres as <-. discriminate Hst. }
  destruct (upload_file_calls sid f name x resp Hres)
    as (fid' & stream' & works & tail' & Hev' & Hw & Ht).
  destruct (upload_file_trace sid f name x)
    as [[_ [e He]]|(fid & stream & evs & tail & Hev & _ & _ & _ & Hp & Hc
                    & Hemb & Htail)].
  { rewrite He in Hres. discriminate Hres. }
  rewrite Hev in Hev'. injection Hev' as <- _ _ <- Hrest.
  exists fid, f, name, stream, (evs ++ tail), works, tail'.
  split; [exact Hf|]. split; [exact Hn|]. split; [exact Hev|].
  assert (parsed tail = [] /\ chunked tail = [] /\ embed_inputs tail = []
          /\ split_outputs tail = []) as (P1 & P2 & P3 & P4).
  { destruct Htail as [(-> & _)|(recs & r & -> & _)]; repeat split. }
  rewrite Hev. split.
  { unfold parsed in *. rewrite omap_app, Hp, P1. reflexivity. }
  change (chunked (evs ++ tail) = pages stream
          /\ embed_inputs (evs ++ tail) = split_outputs (evs ++ tail)
          /\ evs ++ tail = concat (page_calls <$> works) ++ tail'
          /\ work_page <$> works = pages stream
          /\ (tail' = []
              \/ exists recs sid0, tail' = [EvUpsert recs sid0 (Ok ())])).
  rewrite chunked_app, embed_inputs_app, split_outputs_app.
  rewrite Hc, Hemb, P2, P3, P4, !app_nil_r.
  repeat (split; [reflexivity || assumption|]).
  destruct Ht as [->|[recs ->]]; [now left | right; eauto].
Qed.

(** X9.  Truncation loses nothing when the chunks are short: if every
    chunk that got a vector has at most 1200 characters, the texts stored
    by a successful upload are exactly those chunks, in order. *)
Theorem upload_short_chunks_stored_whole (req : upload_request) (x : X) resp :
  result (upload env req x) = Ok resp ->
  status resp = 200 ->
  Forall (fun t : str => length t <= 1200)%nat
    (embedded (events (upload env req x))) ->
  omap stored_text (concat (upserted (events (upload env req x))))
  = embedded (events (upload env req x)).
Proof.
  intros Hres Hst.
  destruct (upload_cases env req x)
    as [E|(sid & f & name & _ & _ & _ & _ & _ & E)]; rewrite E in *.
  { simpl in Hres. injection Hres as <-. discriminate Hst. }
  destruct (upload_file_trace sid f name x)
    as [[_ [e He]]|(fid & stream & evs & tail & Hev & _ & _ & Hup & _ & _
                    & _ & Htail)].
  { rewrite He in Hres. discriminate Hres. }
  rewrite Hev.
  assert (embedded tail = []) as Het.
  { destruct Htail as [(-> & _)|(recs & r & -> & _)]; reflexivity. }
  change (Forall (fun t : str => (length t <= 1200)%nat) (embedded (evs ++ tail))
          -> omap stored_text (concat (upserted (evs ++ tail)))
             = embedded (evs ++ tail)).
  rewrite embedded_app, upserted_app, Het, Hup, app_nil_r. simpl.
  intros Hshort.
  destruct Htail as [(-> & Hnil & _)|(recs & r & -> & _ & Hsto & _)]; simpl.
  - now rewrite Hnil.
  - rewrite app_nil_r, Hsto.
    clear -Hshort. induction Hshort as [|t l Ht _ IH]; [reflexivity|].
    rewrite fmap_cons. f_equal; [now apply take_ge | exact IH].
Qed.

Lemma upload_ok_all_ok req x resp :
  result (upload env req x) = Ok resp ->
  all_ok (events (upload env req x)) = true.
Proof.
  intros Hres.
  destruct (upload_cases env req x)
    as [E|(sid & f & name & _ & _ & _ & _ & _ & E)]; rewrite E in *.
  { reflexivity. }
  destruct (upload_file_trace sid f name x)
    as [[_ [e He]]|(fid & stream & evs & tail & Hev & Hfail & Hok & _ & _ & _
                    & _ & Htail)].
  { rewrite He in Hres. discriminate Hres. }
  rewrite Hev. destruct stream as [pgs fl]. simpl in Hfail. subst fl.
  change (all_ok (evs ++ tail) = true). rewrite all_ok_app, Hok.
  destruct Htail as [(-> & _)|(recs & r & -> & _ & _ & Hr)]; [reflexivity|].
  rewrite Hr in Hres. now destruct r.
Qed.

End UploadTraceFacts.

Section FailureFacts.

Context {X : Type} (env : Env X).

(** X10.  A run in which a collaborator call raised never answers 200.
    /upload, /ask and /summarize leave the exception to Flask, which
    renders an error page; /flashcards catches it and answers 500 with a
    JSON [error]. *)
Theorem upstream_failure_status (r : request) (x : X) :
  all_ok (events (handler env r x)) = false ->
  status (serve env r x) <> 200
  /\ match r with
     | PostFlashcards _ =>
         status (serve env r x) = 500
         /\ has_key Lit.error (serve env r x) = true
     | _ => body (serve env r x) = ErrorPage
     end.
Proof.
  intros Hbad. unfold serve.
  destruct r as [req|b|b|b]; cbn [handler] in *.
  - pose proof (upload_ok_all_ok env req x) as Hok.
    destruct (result (upload env req x)) as [resp|e].
    + rewrite (Hok resp eq_refl) in Hbad. discriminate Hbad.
    + destruct e; split; (discriminate || reflexivity).
  - pose proof (ask_ok_all_ok env b x) as Hok.
    destruct (result (ask env b x)) as [resp|e].
    + rewrite (Hok resp eq_refl) in Hbad. discriminate Hbad.
    + destruct e; split; (discriminate || reflexivity).
  - pose proof (summarize_ok_all_ok env b x) as Hok.
    destruct (result (summarize env b x)) as [resp|e].
    + rewrite (Hok resp eq_refl) in Hbad. discriminate Hbad.
    + destruct e; split; (discriminate || reflexivity).
  - rewrite flashcards_events in Hbad.
    pose proof (flashcards_try_ok env b x) as Hok.
    unfold flashcards, catch.
    destruct (flashcards_try env b x) as [[resp|e] evs x']; simpl in *.
    + destruct (Hok resp eq_refl) as [Hall _].
      rewrite Hall in Hbad. discriminate Hbad.
    + split; [discriminate | split; reflexivity].
Qed.

End FailureFacts.

Section ContextBuilding.

Context {X : Type} (env : Env X).

(** X11.  For a valid /summarize request whose index query returns a
    non-empty list of matches (objects with a metadata object), the
    generator is called once, with the summarising prompt for the stripped
    topic, the tagged blocks of the matches joined by blank lines in index
    order, and temperature 0.2; when it answers, the response is 200 with
    the stripped topic under [topic] and the answer under [summary]. *)
Theorem summarize_context_and_body (body : value) (x : X)
    sid topic k r x1 (ms : list value) :
  summarize_fields env body = Ok (sid, topic, k) ->
  Py.truthy sid = true ->
  is_empty topic = false ->
  query_chunks env sid topic k x = (Ok r, x1) ->
  Py.get r Lit.matches (VList []) = Ok (VList ms) ->
  ms <> [] ->
  Forall (fun m => has_metadata m = true) ms ->
  let context := join Lit.blank_line (block env <$> ms) in
  let prompt :=
    u "Summarize the topic: " ++ topic ++ u " using ONLY the context below. "
    ++ u "Produce a concise, exam-oriented summary with bullet points and key definitions." in
  let out := (answer_with_context env prompt context temperature_0_2 x1).1 in
  events (summarize env (Some body) x)
    = [ EvQuery sid topic k (Ok r);
        EvAnswer prompt context temperature_0_2 out ]
  /\ forall summary,
       out = Ok summary ->
       result (summarize env (Some body) x)
       = Ok (jsonify [ (Lit.topic, VStr topic);
                       (Lit.summary, VStr summary) ] 200).
Proof.
  intros Hf Hs Hq Hr Hm Hne Hwf context prompt out.
  apply summarize_fields_inv in Hf as (H1 & H2 & H3).
  unfold summarize. pass_reads H1 H2 H3.
  rewrite Hs, Hq. cbn [negb orb].
  unfold query. rewrite bind_call, Hr. cbn [fst snd].
  rewrite Hm, bind_lift_Ok; cbv beta.
  assert (Py.truthy (VList ms) = true) as -> by now destruct ms.
  cbn [negb]. simpl Py.iter. cbn [mbind res_mbind res_bind].
  rewrite summarize_parts_as_ask.
  rewrite (ask_context_blocks_spec env ms Hwf []), app_nil_l.
  rewrite bind_lift_Ok; cbv beta. fold context.
  change (summarize_prompt topic) with prompt.
  unfold generate. rewrite bind_call.
  subst out.
  destruct (answer_with_context env prompt context temperature_0_2 x1)
    as [[summary|e] x2]; cbn [fst snd].
  - split; [reflexivity|]. now intros ? [= <-].
  - split; [reflexivity|]. discriminate.
Qed.

(** X12.  /ask and /summarize ground the generator in the same context:
    for valid requests whose index queries return the same result, the
    contexts passed to the answer generator are equal, whatever the result
    holds, well-formed or not. *)
Theorem summarize_context_same_as_ask (b1 b2 : value) (x y : X)
    sid1 q1 k1 sid2 q2 k2 r x1 y1 :
  ask_fields env b1 = Ok (sid1, q1, k1) ->
  Py.truthy sid1 = true -> is_empty q1 = false ->
  summarize_fields env b2 = Ok (sid2, q2, k2) ->
  Py.truthy sid2 = true -> is_empty q2 = false ->
  query_chunks env sid1 q1 k1 x = (Ok r, x1) ->
  query_chunks env sid2 q2 k2 y = (Ok r, y1) ->
  contexts (events (summarize env (Some b2) y))
  = contexts (events (ask env (Some b1) x)).
Proof.
  intros Ha Hs1 Hq1 Hb Hs2 Hq2 Hr1 Hr2.
  apply ask_fields_inv in Ha as (A1 & A2 & A3).
  apply summarize_fields_inv in Hb as (B1 & B2 & B3).
  unfold summarize. pass_reads B1 B2 B3.
  unfold ask. pass_reads A1 A2 A3.
  rewrite Hs1, Hq1, Hs2, Hq2. cbn [negb orb].
  unfold query. rewrite !bind_call, Hr1, Hr2. cbn [fst snd].
  destruct (Py.get r Lit.matches (VList [])) as [matches|e];
    [|reflexivity].
  rewrite !bind_lift_Ok; cbv beta.
  destruct (Py.truthy matches); cbn [negb]; [|reflexivity].
  destruct (Py.iter matches) as [ms|e]; cbn [mbind res_mbind res_bind];
    [|reflexivity].
  rewrite summarize_parts_as_ask.
  destruct (ask_context_blocks env ms []) as [blocks|e]; [|reflexivity].
  rewrite !bind_lift_Ok; cbv beta.
  unfold generate. rewrite !bind_call.
  destruct (answer_with_context env (summarize_prompt q2)
              (join Lit.blank_line blocks) temperature_0_2 y1)
    as [[s|e] y2];
  destruct (answer_with_context env q1
              (join Lit.blank_line blocks) temperature_0_2 x1)
    as [[a|e'] x2]; cbn [fst snd]; try reflexivity.
  - destruct (mapM citation ms); reflexivity.
  - destruct (mapM citation ms); reflexivity.
Qed.

End ContextBuilding.

Section FlashcardContext.

Context {X : Type} (env : Env X).





End FlashcardContext.

Section StripFacts.

Lemma lstrip_split s :
  exists pre, s = pre ++ lstrip s /\ forallb is_space pre = true.
Proof.
  induction s as [|c s (pre & E & Hp)].
  - exists []. split; reflexivity.
  - simpl. destruct (is_space c) eqn:Hc.
    + exists (c :: pre). split; [simpl; now f_equal|]. simpl. now rewrite Hc.
    + exists []. split; reflexivity.
Qed.

Lemma lstrip_head s c : head (lstrip s) = Some c -> is_space c = false.
Proof.
  induction s as [|a s IH]; simpl; [discriminate|].
  destruct (is_space a) eqn:Ha; [exact IH|].
  simpl. now intros [= <-].
Qed.

Lemma forallb_reverse {A} (f : A -> bool) l :
  forallb f (reverse l) = forallb f l.
Proof.
  induction l as [|a l IH]; [reflexivity|].
  rewrite reverse_cons, forallb_app, IH. simpl.
  rewrite andb_true_r. apply andb_comm.
Qed.

Lemma rstrip_split s :
  exists suf, s = rstrip s ++ suf /\ forallb is_space suf = true.
Proof.
  unfold rstrip. destruct (lstrip_split (reverse s)) as (pre & E & Hp).
  exists (reverse pre). split.
  - rewrite <- reverse_app, <- E. now rewrite reverse_involutive.
  - now rewrite forallb_reverse.
Qed.

Lemma rstrip_last s c : last (rstrip s) = Some c -> is_space c = false.
Proof. unfold rstrip. rewrite last_reverse. apply lstrip_head. Qed.

Lemma contains_app c s t : contains c (s ++ t) = contains c s || contains c t.
Proof. apply existsb_app. Qed.

Lemma contains_spaces c s :
  is_space c = false -> forallb is_space s = true -> contains c s = false.
Proof.
  intros Hc. induction s as [|a s IH]; simpl; [reflexivity|].
  intros [Ha Hs]%andb_true_iff. rewrite (IH Hs), orb_false_r.
  apply Z.eqb_neq. intros ->. congruence.
Qed.

Lemma contains_strip c s :
  is_space c = false -> contains c (strip s) = contains c s.
Proof.
  intros Hc. unfold strip.
  destruct (lstrip_split s) as (pre & E1 & H1).
  destruct (rstrip_split (lstrip s)) as (suf & E2 & H2).
  rewrite E1 at 2. rewrite E2 at 2.
  rewrite !contains_app, (contains_spaces c pre Hc H1),
    (contains_spaces c suf Hc H2).
  now rewrite orb_false_r.
Qed.

Lemma strip_head s c : head (strip s) = Some c -> is_space c = false.
Proof.
  unfold strip. destruct (rstrip_split (lstrip s)) as (suf & E & _).
  intros H. apply (lstrip_head s). rewrite E.
  destruct (rstrip (lstrip s)); [discriminate H | exact H].
Qed.

Lemma strip_last s c : last (strip s) = Some c -> is_space c = false.
Proof. apply rstrip_last. Qed.

Lemma contains_strip_le c s : contains c s = false -> contains c (strip s) = false.
Proof.
  intros H. unfold strip.
  destruct (lstrip_split s) as (pre & E1 & _).
  destruct (rstrip_split (lstrip s)) as (suf & E2 & _).
  rewrite E1, E2, !contains_app in H.
  apply orb_false_iff in H as [_ H]. now apply orb_false_iff in H as [H _].
Qed.

Lemma split_lines_no_sep sep s :
  Forall (fun l => contains sep l = false) (split sep s).
Proof.
  induction s as [|c s IH]; simpl.
  - repeat constructor.
  - destruct (c =? sep) eqn:Hc.
    + constructor; [reflexivity | exact IH].
    + destruct (split sep s) as [|l ls]; [repeat constructor; simpl|].
      * rewrite Z.eqb_sym, Hc. reflexivity.
      * inversion IH; subst. constructor; [|assumption].
        simpl. rewrite Z.eqb_sym, Hc. assumption.
Qed.

Lemma split_lines_without c sep s :
  contains c s = false ->
  Forall (fun l => contains c l = false) (split sep s).
Proof.
  induction s as [|a s IH]; simpl.
  - repeat constructor.
  - intros [Ha Hs]%orb_false_iff. specialize (IH Hs).
    destruct (a =? sep).
    + constructor; [reflexivity | exact IH].
    + destruct (split sep s) as [|l ls]; [repeat constructor; simpl|].
      * now rewrite Ha.
      * inversion IH; subst. constructor; [|assumption].
        simpl. now rewrite Ha.
Qed.

(** X14.  Every flashcard of the line-scan fallback is a question and
    answer object whose answer is empty and whose question is one line of
    the response, contains a question mark, and has no whitespace at
    either end. *)
Theorem fallback_questions_clean (response : str) (card : value) :
  card ∈ scan_lines (split nl response) [] ->
  exists q,
    card = dict [ (Lit.question, VStr q); (Lit.answer, VStr []) ]
    /\ contains 63 q = true
    /\ contains nl q = false
    /\ (forall c, head q = Some c -> is_space c = false)
    /\ (forall c, last q = Some c -> is_space c = false).
Proof.
  rewrite scan_lines_spec, app_nil_l. intros H.
  apply list_elem_of_fmap in H as (line & -> & Hl).
  apply list_elem_of_In, filter_In in Hl as [Hin Hq].
  exists (strip line). split; [reflexivity|].
  split; [now rewrite contains_strip|].
  split.
  - apply contains_strip_le.
    pose proof (split_lines_no_sep nl response) as Hs.
    rewrite Forall_forall in Hs. apply Hs, list_elem_of_In, Hin.
  - split; [apply strip_head | apply strip_last].
Qed.

(** X15.  When the generator's text has no question mark at all, the
    line scan finds nothing: the fallback flashcards list is empty. *)
Theorem fallback_without_question_mark (response : str) :
  contains 63 response = false ->
  scan_lines (split nl response) [] = [].
Proof.
  intros H. rewrite scan_lines_spec, app_nil_l.
  pose proof (split_lines_without 63 nl response H) as Hs.
  induction Hs as [|l ls Hl _ IH]; [reflexivity|].
  simpl. now rewrite Hl.
Qed.

End StripFacts.

Section ExtensionFacts.

Lemma lower_char_eqb x c0 :
  c0 < 65 -> (lower_char x =? c0) = (x =? c0).
Proof.
  intros Hc. unfold lower_char.
  destruct ((65 <=? x) && (x <=? 90)
            || (192 <=? x) && (x <=? 222) && negb (x =? 215)) eqn:E;
    [|reflexivity].
  assert (65 <= x) as Hx.
  { apply orb_true_iff in E as [E|E].
    - apply andb_true_iff in E as [E _]. now apply Z.leb_le in E.
    - apply andb_true_iff in E as [E _]. apply andb_true_iff in E as [E _].
      apply Z.leb_le in E. lia. }
  transitivity false; [apply Z.eqb_neq | symmetry; apply Z.eqb_neq]; lia.
Qed.

Lemma lower_char_idem x : lower_char (lower_char x) = lower_char x.
Proof.
  unfold lower_char.
  destruct ((65 <=? x) && (x <=? 90)
            || (192 <=? x) && (x <=? 222) && negb (x =? 215)) eqn:E;
    [|now rewrite E].
  assert ((65 <= x <= 90) \/ (192 <= x <= 222)) as Hx.
  { apply orb_true_iff in E as [E|E].
    - apply andb_true_iff in E as [E1 E2].
      apply Z.leb_le in E1. apply Z.leb_le in E2. lia.
    - apply andb_true_iff in E as [E _]. apply andb_true_iff in E as [E1 E2].
      apply Z.leb_le in E1. apply Z.leb_le in E2. lia. }
  assert ((65 <=? x + 32) && (x + 32 <=? 90) = false) as ->.
  { apply andb_false_iff. right. apply Z.leb_gt. lia. }
  assert ((192 <=? x + 32) && (x + 32 <=? 222) = false) as ->.
  { apply andb_false_iff.
    destruct Hx; [left | right]; apply Z.leb_gt; lia. }
  reflexivity.
Qed.

Lemma lower_idem s : lower (lower s) = lower s.
Proof.
  unfold lower. rewrite <- list_fmap_compose. apply list_fmap_ext.
  intros ? x _. apply lower_char_idem.
Qed.

Lemma rfind_from_lower c0 s :
  c0 < 65 ->
  forall i found, rfind_from c0 (lower s) i found = rfind_from c0 s i found.
Proof.
  intros Hc. induction s as [|x s IH]; intros i found; [reflexivity|].
  unfold lower in *. rewrite fmap_cons. cbn [rfind_from].
  now rewrite IH, lower_char_eqb.
Qed.

Lemma existsb_lower_not_dot s :
  existsb (fun c => negb (c =? dot)) (lower s)
  = existsb (fun c => negb (c =? dot)) s.
Proof.
  induction s as [|x s IH]; [reflexivity|].
  unfold lower in *. rewrite fmap_cons. cbn [existsb].
  rewrite IH. f_equal. f_equal. now apply lower_char_eqb.
Qed.

Lemma slice_lower s i j : slice (lower s) i j = lower (slice s i j).
Proof. unfold slice, lower. now rewrite fmap_take, fmap_drop. Qed.

Lemma splitext_lower p :
  (splitext (lower p)).2 = lower (splitext p).2.
Proof.
  unfold splitext, rfind.
  rewrite !rfind_from_lower by (unfold slash, dot; lia).
  rewrite slice_lower, existsb_lower_not_dot.
  destruct ((rfind_from slash p 0 (-1) <? rfind_from dot p 0 (-1))
            && existsb (fun c => negb (c =? dot))
                 (slice p (rfind_from slash p 0 (-1) + 1)
                    (rfind_from dot p 0 (-1)))); simpl.
  - unfold lower. now rewrite fmap_drop.
  - reflexivity.
Qed.

Lemma allowed_lower name : _allowed (lower name) = _allowed name.
Proof. unfold _allowed. now rewrite splitext_lower, lower_idem. Qed.

(** X16.  The extension check ignores letter case: two file names that
    are equal up to case are both allowed or both refused. *)
Theorem allowed_case_insensitive (a b : str) :
  lower a = lower b -> _allowed a = _allowed b.
Proof.
  intros H. rewrite <- (allowed_lower a), <- (allowed_lower b). now rewrite H.
Qed.

Lemma rfind_from_lb c s :
  forall i found, -1 <= found -> 0 <= i -> -1 <= rfind_from c s i found.
Proof.
  induction s as [|x s IH]; intros i found Hf Hi; simpl; [exact Hf|].
  apply IH; [|lia]. destruct (x =? c); lia.
Qed.

(** X17.  A name is allowed only for its extension: an allowed name is a
    non-empty stem followed by an extension which, in lower case, is one
    of [.pdf], [.docx], [.txt] and [.md].  A name without a stem, such as
    [.pdf] itself, or without an extension is refused. *)
Theorem allowed_needs_extension (name : str) :
  _allowed name = true ->
  exists stem ext,
    name = stem ++ ext /\ stem <> []
    /\ (lower ext = u ".pdf" \/ lower ext = u ".docx"
        \/ lower ext = u ".txt" \/ lower ext = u ".md").
Proof.
  unfold _allowed. intros H. apply bool_decide_eq_true in H.
  unfold splitext in H.
  pose proof (rfind_from_lb slash name 0 (-1) (Z.le_refl _) (Z.le_refl _))
    as Hsep. fold (rfind slash name) in Hsep.
  destruct ((rfind slash name <? rfind dot name)
            && existsb (fun c => negb (c =? dot))
                 (slice name (rfind slash name + 1) (rfind dot name))) eqn:E;
    cbn [snd] in H.
  - apply andb_true_iff in E as [E1 E2]. apply Z.ltb_lt in E1.
    exists (take (Z.to_nat (rfind dot name)) name),
           (drop (Z.to_nat (rfind dot name)) name).
    split; [now rewrite take_drop|]. split.
    + assert (0 < rfind dot name - (rfind slash name + 1)) as Hd.
      { unfold slice in E2.
        destruct (Z.to_nat (rfind dot name - (rfind slash name + 1))) eqn:En;
          [discriminate E2 | lia]. }
      destruct name as [|c name']; [discriminate E2|].
      destruct (Z.to_nat (rfind dot (c :: name'))) eqn:En; [lia|].
      discriminate.
    + unfold ALLOWED_EXT in H.
      rewrite !elem_of_union, !elem_of_singleton in H. tauto.
  - exfalso. unfold ALLOWED_EXT in H.
    rewrite !elem_of_union, !elem_of_singleton in H.
    destruct H as [[[H|H]|H]|H]; discriminate H.
Qed.

Lemma rfind_from_none c s :
  contains c s = false -> forall i found, rfind_from c s i found = found.
Proof.
  induction s as [|x s IH]; intros H i found; [reflexivity|].
  simpl in H. apply orb_false_iff in H as [Hx Hs].
  cbn [rfind_from]. rewrite Z.eqb_sym, Hx. now apply IH.
Qed.

Lemma rfind_from_app c s t :
  forall i found,
    rfind_from c (s ++ t) i found
    = rfind_from c t (i + Z.of_nat (length s)) (rfind_from c s i found).
Proof.
  induction s as [|x s IH]; intros i found.
  - simpl. now rewrite Z.add_0_r.
  - cbn [app rfind_from length]. rewrite IH. f_equal. lia.
Qed.

Lemma contains_lower c0 s :
  c0 < 65 -> contains c0 (lower s) = contains c0 s.
Proof.
  intros Hc. induction s as [|x s IH]; [reflexivity|].
  unfold lower in *. rewrite fmap_cons. unfold contains in *.
  cbn [existsb]. rewrite IH. f_equal.
  rewrite !(Z.eqb_sym c0). now apply lower_char_eqb.
Qed.

(** The shape of an extension that is allowed in lower case: a dot, then
    characters that are neither dots nor slashes. *)
Lemma allowed_ext_shape ext :
  lower ext = u ".pdf" \/ lower ext = u ".docx"
  \/ lower ext = u ".txt" \/ lower ext = u ".md" ->
  exists rest, ext = dot :: rest /\ contains dot rest = false
               /\ contains slash rest = false.
Proof.
  intros H.
  assert (exists target,
            lower ext = dot :: target /\ contains dot target = false
            /\ contains slash target = false) as (target & E & Hd & Hs).
  { destruct H as [H|[H|[H|H]]]; rewrite H; eexists; repeat split. }
  destruct ext as [|a rest]; [discriminate E|].
  unfold lower in E. rewrite fmap_cons in E. injection E as Ha Hr.
  exists rest. split.
  - f_equal. apply Z.eqb_eq. rewrite <- (lower_char_eqb a dot) by (unfold dot; lia).
    now apply Z.eqb_eq.
  - fold (lower rest) in Hr. rewrite <- Hr in Hd, Hs.
    rewrite contains_lower in Hd by (unfold dot; lia).
    rewrite contains_lower in Hs by (unfold slash; lia). auto.
Qed.

(** X18.  A plain file name is allowed as soon as its extension is: a
    stem without a slash that has some character other than a dot,
    followed by an extension that is [.pdf], [.docx], [.txt] or [.md] in
    any letter case, passes the check. *)
Theorem allowed_accepts_extension (stem ext : str) :
  contains slash stem = false ->
  existsb (fun c => negb (c =? dot)) stem = true ->
  lower ext = u ".pdf" \/ lower ext = u ".docx"
  \/ lower ext = u ".txt" \/ lower ext = u ".md" ->
  _allowed (stem ++ ext) = true.
Proof.
  intros Hslash Hstem Hext.
  destruct (allowed_ext_shape ext Hext) as (rest & -> & Hd & Hs).
  assert (rfind slash (stem ++ dot :: rest) = -1) as Esep.
  { unfold rfind. apply rfind_from_none.
    rewrite contains_app, Hslash. simpl. now rewrite Hs. }
  assert (rfind dot (stem ++ dot :: rest) = Z.of_nat (length stem)) as Edot.
  { unfold rfind. rewrite rfind_from_app. cbn [rfind_from].
    rewrite Z.eqb_refl. now apply rfind_from_none. }
  unfold _allowed, splitext. rewrite Esep, Edot.
  assert ((-1 <? Z.of_nat (length stem)) = true) as -> by (apply Z.ltb_lt; lia).
  assert (slice (stem ++ dot :: rest) (-1 + 1) (Z.of_nat (length stem)) = stem)
    as ->.
  { unfold slice. rewrite Z.sub_0_r, Nat2Z.id.
    change (Z.to_nat (-1 + 1)) with 0%nat. rewrite drop_0.
    now rewrite take_app_length. }
  rewrite Hstem. cbn [andb snd].
  rewrite Nat2Z.id, drop_app_length.
  apply bool_decide_eq_true. unfold ALLOWED_EXT.
  rewrite !elem_of_union, !elem_of_singleton. tauto.
Qed.

End ExtensionFacts.

(** * Properties of the Streamlit client *)

Section NormalizeFacts.

Context {X : Type} (env : Env X).

Lemma card_of_card q a : card_of (list_to_map [ (Lit.question, q); (Lit.answer, a) ]) = card q a.
Proof. reflexivity. Qed.

Lemma helper_normalize_is_card item :
  exists q a, Helper.normalize env item = card q a.
Proof.
  destruct item; simpl; try (eexists _, _; reflexivity).
  destruct (json_loads env s) as [[]|]; eexists _, _; reflexivity.
Qed.

Lemma helper_each_item_spec items :
  forall cards,
    Helper.each_item env items cards
    = cards ++ (Helper.normalize env <$> items).
Proof.
  induction items as [|item rest IH]; intros cards; simpl.
  - now rewrite app_nil_r.
  - rewrite IH. now rewrite <- app_assoc.
Qed.

Lemma tab4_each_item_spec items :
  forall cards,
    Tab4.each_item env items cards = cards ++ omap (Tab4.normalize env) items.
Proof.
  induction items as [|item rest IH]; intros cards; simpl.
  - now rewrite app_nil_r.
  - rewrite IH. destruct (Tab4.normalize env item); simpl; [|reflexivity].
    now rewrite <- app_assoc.
Qed.

Lemma tab4_normalize_helper item c :
  Tab4.normalize env item = Some c -> Helper.normalize env item = c.
Proof.
  destruct item; simpl; try discriminate.
  - destruct (json_loads env s) as [[]|]; try discriminate. now intros [= <-].
  - now intros [= <-].
Qed.

(** X19.  The helper [normalize_cards] turns a list of items into a list
    of the same length, item by item, and every element of its result is
    an object with exactly a [question] and an [answer]. *)
Theorem helper_normalize_shape (items : list value) :
  exists cards,
    Helper.normalize_cards env (VList items) = Ok cards
    /\ length cards = length items
    /\ forall c, c ∈ cards -> exists q a, c = card q a.
Proof.
  exists (Helper.normalize env <$> items).
  unfold Helper.normalize_cards. simpl Py.iter.
  cbn [mbind res_mbind res_bind].
  rewrite helper_each_item_spec, app_nil_l.
  split; [reflexivity|]. split; [apply length_fmap|].
  intros c Hc. apply list_elem_of_fmap in Hc as (item & -> & _).
  apply helper_normalize_is_card.
Qed.

(** X20.  Normalising twice changes nothing: the result of the helper
    [normalize_cards], given to the helper again, comes back as it is. *)
Theorem helper_normalize_idempotent (raw_cards : value) cards :
  Helper.normalize_cards env raw_cards = Ok cards ->
  Helper.normalize_cards env (VList cards) = Ok cards.
Proof.
  unfold Helper.normalize_cards.
  destruct (Py.iter raw_cards) as [items|e]; [|discriminate].
  cbn [mbind res_mbind res_bind Py.iter].
  rewrite !helper_each_item_spec, !app_nil_l. intros [= <-].
  f_equal. rewrite <- list_fmap_compose.
  apply list_fmap_ext. intros _ item _. simpl.
  destruct (helper_normalize_is_card item) as (q & a & ->). reflexivity.
Qed.

(** X21.  The flashcards tab's [normalize_cards] is the stricter of the
    two: on the same input its cards are a sublist of the helper's.  It
    builds the same card for every item it keeps and passes over the items
    (strings that are not JSON objects, numbers, lists, null) that the
    helper would turn into a question. *)
Theorem tab4_normalize_sublist (raw_cards : value) kept all_cards :
  Tab4.normalize_cards env raw_cards = Ok kept ->
  Helper.normalize_cards env raw_cards = Ok all_cards ->
  sublist kept all_cards.
Proof.
  unfold Tab4.normalize_cards, Helper.normalize_cards.
  destruct (Py.iter raw_cards) as [items|e]; [|discriminate].
  cbn [mbind res_mbind res_bind].
  rewrite tab4_each_item_spec, helper_each_item_spec, !app_nil_l.
  intros [= <-] [= <-].
  induction items as [|item rest IH]; [constructor|].
  rewrite fmap_cons. cbn [omap list_omap].
  destruct (Tab4.normalize env item) as [c|] eqn:E.
  - rewrite (tab4_normalize_helper item c E). now apply sublist_skip.
  - now apply sublist_cons.
Qed.

Lemma tab4_cards_fixed (cards : list value) :
  (forall c, c ∈ cards -> exists q a, c = card q a) ->
  omap (Tab4.normalize env) cards = cards.
Proof.
  induction cards as [|c cards IH]; intros H; [reflexivity|].
  destruct (H c (list_elem_of_here _ _)) as (q & a & ->).
  cbn [omap list_omap].
  change (Tab4.normalize env (card q a)) with (Some (card q a)).
  cbv iota. f_equal. apply IH.
  intros c' Hc'. apply H. now apply list_elem_of_further.
Qed.

(** X22.  The client shows the server's fallback as it is: the cards of
    the line scan, which /flashcards returns when the generator's text is
    not JSON, pass through the tab's [normalize_cards] unchanged and in
    order. *)
Theorem client_keeps_fallback_cards (response : str) :
  Tab4.normalize_cards env (VList (scan_lines (split nl response) []))
  = Ok (scan_lines (split nl response) []).
Proof.
  unfold Tab4.normalize_cards. cbn [Py.iter mbind res_mbind res_bind].
  rewrite tab4_each_item_spec, app_nil_l. f_equal.
  apply tab4_cards_fixed. intros c Hc.
  rewrite scan_lines_spec, app_nil_l in Hc.
  apply list_elem_of_fmap in Hc as (line & -> & _).
  eexists _, _. reflexivity.
Qed.

End NormalizeFacts.

Section PagerFacts.

Import Pager.

Lemma displayed_some st s :
  displayed st = Some s -> st = Some s /\ 0 < len s.
Proof.
  destruct st as [s'|]; [|discriminate]. unfold displayed, len.
  destruct (flashcards s') eqn:E; [discriminate|].
  intros [= <-]. rewrite E. split; [reflexivity | simpl; lia].
Qed.

(** Each rerun keeps the index a position of the list, whenever there are
    cards to display. *)
Lemma step_in_range st c :
  (forall s, displayed st = Some s -> 0 <= index s < len s) ->
  forall s, displayed (step st c) = Some s -> 0 <= index s < len s.
Proof.
  intros Hst s Hs. destruct c as [cards| | |]; cbn [step] in Hs.
  - apply displayed_some in Hs as [[= <-] Hl].
    unfold len, generated in *. simpl in *. lia.
  - destruct (displayed st) as [s0|] eqn:E.
    + apply displayed_some in Hs as [[= <-] Hl].
      unfold len, previous in *. simpl in *.
      apply Z.mod_pos_bound. lia.
    + rewrite E in Hs. discriminate.
  - destruct (displayed st) as [s0|] eqn:E.
    + apply displayed_some in Hs as [[= <-] Hl].
      specialize (Hst s0 eq_refl). unfold len, flip in *. simpl in *. exact Hst.
    + rewrite E in Hs. discriminate.
  - destruct (displayed st) as [s0|] eqn:E.
    + apply displayed_some in Hs as [[= <-] Hl].
      unfold len, next in *. simpl in *.
      apply Z.mod_pos_bound. lia.
    + rewrite E in Hs. discriminate.
Qed.

Lemma foldl_in_range clicks :
  forall st,
    (forall s, displayed st = Some s -> 0 <= index s < len s) ->
    forall s, displayed (foldl step st clicks) = Some s ->
              0 <= index s < len s.
Proof.
  induction clicks as [|c clicks IH]; intros st H; [exact H|].
  simpl. apply IH, step_in_range, H.
Qed.

(** X23.  Whatever sequence of clicks led there, when the flashcard block
    is displayed the index is a valid position of the card list, so
    reading the current card never fails. *)
Theorem pager_index_in_range (clicks : list click) (s : session) :
  displayed (run clicks) = Some s ->
  0 <= index s < len s /\ is_Some (current_card s).
Proof.
  intros H.
  assert (0 <= index s < len s) as Hi.
  { apply (foldl_in_range clicks None); [|exact H].
    intros s' Hs'. discriminate. }
  split; [exact Hi|]. unfold current_card.
  assert ((0 <=? index s) && (index s <? len s) = true) as ->.
  { apply andb_true_iff. split; [apply Z.leb_le | apply Z.ltb_lt]; lia. }
  apply lookup_lt_is_Some. unfold len in Hi. lia.
Qed.

(** X24.  Next and Previous undo each other: from a valid position,
    pressing one and then the other shows the same card again, also across
    the ends of the list, where the index wraps around. *)
Theorem pager_next_previous (s : session) :
  0 <= index s < len s ->
  index (previous (next s)) = index s
  /\ index (next (previous s)) = index s.
Proof.
  intros H. unfold previous, next, len in *. simpl.
  set (n := Z.of_nat (length (flashcards s))) in *.
  split.
  - rewrite Zminus_mod_idemp_l.
    replace (index s + 1 - 1) with (index s) by lia.
    apply Z.mod_small, H.
  - rewrite Zplus_mod_idemp_l.
    replace (index s - 1 + 1) with (index s) by lia.
    apply Z.mod_small, H.
Qed.

Lemma iter_next_index k s :
  0 <= index s < len s ->
  index (Nat.iter k next s) = (index s + Z.of_nat k) mod len s
  /\ flashcards (Nat.iter k next s) = flashcards s.
Proof.
  intros H. induction k as [|k [Ei Ef]].
  - simpl. rewrite Z.add_0_r. split; [|reflexivity].
    symmetry. apply Z.mod_small, H.
  - change (Nat.iter (S k) next s) with (next (Nat.iter k next s)).
    set (t := Nat.iter k next s) in *.
    unfold next. cbn [index flashcards]. split; [|exact Ef].
    unfold len. rewrite Ef, Ei. fold (len s).
    rewrite Zplus_mod_idemp_l. f_equal. lia.
Qed.

(** X25.  Pressing Next once for every card goes round the whole list:
    from a valid position, after as many presses as there are cards the
    same card is shown again. *)
Theorem pager_next_goes_round (s : session) :
  0 <= index s < len s ->
  index (Nat.iter (length (flashcards s)) next s) = index s.
Proof.
  intros H.
  destruct (iter_next_index (length (flashcards s)) s H) as [-> _].
  fold (len s). rewrite <- (Z.mul_1_l (len s)) at 1.
  rewrite Z_mod_plus_full. apply Z.mod_small, H.
Qed.

End PagerFacts.

Section ClientServer.

Context {X : Type} (env : Env X).

Lemma payload_fields e sid text :
  fields env e (payload_of e sid text)
  = Ok (VStr sid, strip text, default_top_k e).
Proof. destruct e; try reflexivity. destruct text; reflexivity. Qed.

(** X26.  What a tab posts, the server can always read.  A body built by
    the client (after its own check that the text is not blank) never
    fails a read: the server answers its 400 validation error exactly when
    the student id typed in the sidebar is empty, and otherwise goes on to
    query the index with that id, the stripped text and the tab's own
    top_k (6, 12 or 10). *)
Theorem client_request_passes_reads (e : endpoint) (sid text : str)
    (body : value) (x : X) :
  posted e sid text = Some body ->
  (sid = [] ->
   handler env (post e (Some body)) x
   = Outcome (Ok (missing_response e)) [] x)
  /\ (sid <> [] ->
      exists rest,
        events (handler env (post e (Some body)) x)
        = EvQuery (VStr sid) (strip text) (default_top_k e)
            (query_chunks env (VStr sid) (strip text) (default_top_k e) x).1
          :: rest).
Proof.
  unfold posted. destruct (is_empty (strip text)) eqn:Hq; [discriminate|].
  intros [= <-].
  pose proof (payload_fields e sid text) as Hf.
  split.
  - intros ->.
    destruct e; cbn [post handler fields] in Hf |- *.
    + apply ask_fields_inv in Hf as (H1 & H2 & H3).
      unfold ask. pass_reads H1 H2 H3. reflexivity.
    + apply summarize_fields_inv in Hf as (H1 & H2 & H3).
      unfold summarize. pass_reads H1 H2 H3. reflexivity.
    + apply flashcards_fields_inv in Hf as (H1 & H2 & H3).
      unfold flashcards, catch, flashcards_try. pass_reads H1 H2 H3.
      reflexivity.
  - intros Hsid.
    assert (Py.truthy (VStr sid) = true) as Hs by now destruct sid.
    destruct e; cbn [post handler fields] in Hf |- *.
    + apply ask_fields_inv in Hf as (H1 & H2 & H3).
      unfold ask. pass_reads H1 H2 H3. rewrite Hs, Hq. cbn [negb orb].
      unfold query. rewrite bind_call. cbn [default_top_k].
      destruct (query_chunks env (VStr sid) (strip text) 6 x)
        as [[r|err] x1]; cbn [fst snd]; eexists; reflexivity.
    + apply summarize_fields_inv in Hf as (H1 & H2 & H3).
      unfold summarize. pass_reads H1 H2 H3. rewrite Hs, Hq.
      cbn [negb orb].
      unfold query. rewrite bind_call. cbn [default_top_k].
      destruct (query_chunks env (VStr sid) (strip text) 12 x)
        as [[r|err] x1]; cbn [fst snd]; eexists; reflexivity.
    + apply flashcards_fields_inv in Hf as (H1 & H2 & H3).
      rewrite flashcards_events.
      unfold flashcards_try. pass_reads H1 H2 H3. rewrite Hs, Hq.
      cbn [negb orb].
      unfold query. rewrite bind_call. cbn [default_top_k].
      destruct (query_chunks env (VStr sid) (strip text) 10 x)
        as [[r|err] x1]; cbn [fst snd]; eexists; reflexivity.
Qed.

End ClientServer.

(** * The further properties at concrete inputs *)

Section MoreInstances.

#[local] Open Scope nat_scope.

Lemma blank_fields_are_400_witness :
  fields (Stub.env Demo.quiet) Ask Cases.blank_question
    = Ok (VStr (u "s1"), [], 6%Z)
  /\ (Py.truthy (VStr (u "s1")) = false \/ is_empty ([] : str) = true)
  /\ handler (Stub.env Demo.quiet) (post Ask (Some Cases.blank_question)) 0
     = Outcome (Ok (missing_response Ask)) [] 0.
Proof.
  split; [reflexivity|]. split; [now right|].
  apply (blank_fields_are_400 (Stub.env Demo.quiet) Ask Cases.blank_question
           0 (VStr (u "s1")) [] 6%Z); [reflexivity | now right].
Defined.

Lemma valid_request_queries_index_witness :
  fields (Stub.env Demo.quiet) Summarize Demo.topic_diabetes
    = Ok (VStr (u "s1"), u "diabetes", 12%Z)
  /\ Py.truthy (VStr (u "s1")) = true
  /\ is_empty (u "diabetes") = false
  /\ exists rest,
      events (handler (Stub.env Demo.quiet)
                (post Summarize (Some Demo.topic_diabetes)) 0)
      = EvQuery (VStr (u "s1")) (u "diabetes") 12
          (query_chunks (Stub.env Demo.quiet) (VStr (u "s1")) (u "diabetes")
             12 0).1 :: rest.
Proof.
  do 3 (split; [reflexivity|]).
  apply (valid_request_queries_index (Stub.env Demo.quiet) Summarize
           Demo.topic_diabetes 0 (VStr (u "s1")) (u "diabetes") 12%Z);
    reflexivity.
Defined.

Lemma non_string_text_is_500_witness :
  Cases.numeric_question !! text_key Ask = Some (VInt 7)
  /\ is_str (VInt 7) = false
  /\ (Ask = Flashcards -> Py.truthy (VInt 7) = true)
  /\ (status (serve (Stub.env Demo.quiet)
                (post Ask (Some (VDict Cases.numeric_question))) 0) = 500%Z
      /\ has_key Lit.error
           (serve (Stub.env Demo.quiet)
              (post Ask (Some (VDict Cases.numeric_question))) 0)
         = false
      /\ events (handler (Stub.env Demo.quiet)
                   (post Ask (Some (VDict Cases.numeric_question))) 0) = []).
Proof.
  split; [reflexivity|]. split; [reflexivity|]. split; [discriminate|].
  apply (non_string_text_is_500 (Stub.env Demo.quiet) Ask
           Cases.numeric_question 0 (VInt 7));
    [reflexivity | reflexivity | discriminate].
Defined.

Lemma ask_200_keys_witness :
  status (serve (Stub.env Demo.with_matches)
            (PostAsk (Some Demo.ask_aspirin)) 0) = 200%Z
  /\ exists sid q k r rest answer citations,
      events (handler (Stub.env Demo.with_matches)
                (PostAsk (Some Demo.ask_aspirin)) 0)
        = EvQuery sid q k (Ok r) :: rest
      /\ serve (Stub.env Demo.with_matches) (PostAsk (Some Demo.ask_aspirin)) 0
         = jsonify [ (Lit.answer, VStr answer);
                     (Lit.context_used, VList citations) ] 200
      /\ (no_matches r = true -> rest = [] /\ citations = [])
      /\ (no_matches r = false ->
          exists context,
            rest = [ EvAnswer q context temperature_0_2 (Ok answer) ]).
Proof.
  split; [reflexivity|].
  apply (ask_200_keys (Stub.env Demo.with_matches)
           (Some Demo.ask_aspirin) 0).
  reflexivity.
Defined.

Lemma upload_rejects_empty_fields_witness :
  (form_student_id Cases.empty_student = Some []
   \/ exists f, files_file Cases.empty_student = Some f
                /\ (fs_filename f = None \/ fs_filename f = Some []))
  /\ upload (Stub.env Demo.three_pages) Cases.empty_student 0
     = Outcome
         (Ok (jsonify
                [ (Lit.error, VStr (u "student_id and file are required")) ]
                400)) [] 0.
Proof.
  split; [now left|].
  apply (upload_rejects_empty_fields (Stub.env Demo.three_pages)
           Cases.empty_student 0).
  now left.
Defined.

Lemma upload_pages_in_order_witness :
  result (upload (Stub.env Demo.three_pages) Demo.upload_pdf 0)
    = Ok (upload_ok (u "doc0") 2 (u "notes.pdf"))
  /\ status (upload_ok (u "doc0") 2 (u "notes.pdf")) = 200%Z
  /\ exists fid f name stream rest works tail,
      files_file Demo.upload_pdf = Some f /\ fs_filename f = Some name
      /\ events (upload (Stub.env Demo.three_pages) Demo.upload_pdf 0)
         = EvUuid fid
           :: EvSave f
                (path_join (UPLOAD_DIR (Stub.env Demo.three_pages))
                   (fid ++ u "_"
                    ++ secure_filename (Stub.env Demo.three_pages) name))
                (Ok ())
           :: EvExtract
                (path_join (UPLOAD_DIR (Stub.env Demo.three_pages))
                   (fid ++ u "_"
                    ++ secure_filename (Stub.env Demo.three_pages) name))
                stream
           :: rest
      /\ parsed rest = []
      /\ chunked (events (upload (Stub.env Demo.three_pages)
                            Demo.upload_pdf 0)) = pages stream
      /\ embed_inputs (events (upload (Stub.env Demo.three_pages)
                                 Demo.upload_pdf 0))
         = split_outputs (events (upload (Stub.env Demo.three_pages)
                                    Demo.upload_pdf 0))
      /\ rest = concat (page_calls <$> works) ++ tail
      /\ work_page <$> works = pages stream
      /\ (tail = [] \/ exists recs sid, tail = [EvUpsert recs sid (Ok ())]).
Proof.
  split; [vm_compute; reflexivity|]. split; [reflexivity|].
  apply (upload_pages_in_order (Stub.env Demo.three_pages) Demo.upload_pdf 0
           (upload_ok (u "doc0") 2 (u "notes.pdf")));
    vm_compute; reflexivity.
Defined.

Lemma upload_short_chunks_stored_whole_witness :
  result (upload (Stub.env Cases.two_short_pages) Demo.upload_pdf 0)
    = Ok (upload_ok (u "doc0") 2 (u "notes.pdf"))
  /\ status (upload_ok (u "doc0") 2 (u "notes.pdf")) = 200%Z
  /\ Forall (fun t : str => length t <= 1200)
       (embedded (events (upload (Stub.env Cases.two_short_pages)
                            Demo.upload_pdf 0)))
  /\ omap stored_text
       (concat (upserted (events (upload (Stub.env Cases.two_short_pages)
                                    Demo.upload_pdf 0))))
     = embedded (events (upload (Stub.env Cases.two_short_pages)
                           Demo.upload_pdf 0)).
Proof.
  assert (embedded (events (upload (Stub.env Cases.two_short_pages)
                              Demo.upload_pdf 0)) = [u "alpha"; u "beta"])
    as E by (vm_compute; reflexivity).
  assert (Forall (fun t : str => length t <= 1200)
            (embedded (events (upload (Stub.env Cases.two_short_pages)
                                 Demo.upload_pdf 0)))) as H.
  { rewrite E. repeat constructor; simpl; lia. }
  split; [vm_compute; reflexivity|]. split; [reflexivity|].
  split; [exact H|].
  apply (upload_short_chunks_stored_whole (Stub.env Cases.two_short_pages)
           Demo.upload_pdf 0 (upload_ok (u "doc0") 2 (u "notes.pdf")));
    [vm_compute; reflexivity | reflexivity | exact H].
Defined.

Lemma upstream_failure_status_witness :
  all_ok (events (handler (Cases.index_down Demo.quiet)
                    (PostAsk (Some Demo.ask_aspirin)) 0)) = false
  /\ (status (serve (Cases.index_down Demo.quiet)
                (PostAsk (Some Demo.ask_aspirin)) 0) <> 200%Z
      /\ body (serve (Cases.index_down Demo.quiet)
                 (PostAsk (Some Demo.ask_aspirin)) 0) = ErrorPage).
Proof.
  split; [reflexivity|].
  apply (upstream_failure_status (Cases.index_down Demo.quiet)
           (PostAsk (Some Demo.ask_aspirin)) 0).
  reflexivity.
Defined.

(** The same outage seen through /flashcards: a JSON 500. *)
Example flashcards_index_down :
  serve (Cases.index_down Demo.quiet)
    (PostFlashcards (Some Demo.topic_diabetes)) 0
  = jsonify [ (Lit.error, VStr (u "index down")) ] 500.
Proof. vm_compute. reflexivity. Qed.

Lemma summarize_context_and_body_witness :
  summarize_fields (Stub.env Demo.with_matches) Demo.topic_diabetes
    = Ok (VStr (u "s1"), u "diabetes", 12%Z)
  /\ Py.truthy (VStr (u "s1")) = true
  /\ is_empty (u "diabetes") = false
  /\ query_chunks (Stub.env Demo.with_matches) (VStr (u "s1")) (u "diabetes")
       12 0
     = (Ok (Stub.matches_of Demo.two_matches), 0)
  /\ Py.get (Stub.matches_of Demo.two_matches) Lit.matches (VList [])
     = Ok (VList Demo.two_matches)
  /\ Demo.two_matches <> []
  /\ Forall (fun m => has_metadata m = true) Demo.two_matches
  /\ (events (summarize (Stub.env Demo.with_matches)
                (Some Demo.topic_diabetes) 0)
      = [ EvQuery (VStr (u "s1")) (u "diabetes") 12
            (Ok (Stub.matches_of Demo.two_matches));
          EvAnswer
            (u "Summarize the topic: " ++ u "diabetes"
             ++ u " using ONLY the context below. "
             ++ u "Produce a concise, exam-oriented summary with bullet points and key definitions.")
            (join Lit.blank_line
               (block (Stub.env Demo.with_matches) <$> Demo.two_matches))
            temperature_0_2
            (answer_with_context (Stub.env Demo.with_matches)
               (u "Summarize the topic: " ++ u "diabetes"
                ++ u " using ONLY the context below. "
                ++ u "Produce a concise, exam-oriented summary with bullet points and key definitions.")
               (join Lit.blank_line
                  (block (Stub.env Demo.with_matches) <$> Demo.two_matches))
               temperature_0_2 0).1 ]
      /\ forall summary,
           (answer_with_context (Stub.env Demo.with_matches)
              (u "Summarize the topic: " ++ u "diabetes"
               ++ u " using ONLY the context below. "
               ++ u "Produce a concise, exam-oriented summary with bullet points and key definitions.")
              (join Lit.blank_line
                 (block (Stub.env Demo.with_matches) <$> Demo.two_matches))
              temperature_0_2 0).1 = Ok summary ->
           result (summarize (Stub.env Demo.with_matches)
                     (Some Demo.topic_diabetes) 0)
           = Ok (jsonify [ (Lit.topic, VStr (u "diabetes"));
                           (Lit.summary, VStr summary) ] 200)).
Proof.
  do 5 (split; [reflexivity|]). split; [discriminate|].
  split; [repeat constructor|].
  apply (summarize_context_and_body (Stub.env Demo.with_matches)
           Demo.topic_diabetes 0 (VStr (u "s1")) (u "diabetes") 12%Z
           (Stub.matches_of Demo.two_matches) 0 Demo.two_matches);
    try reflexivity; [discriminate | repeat constructor].
Defined.

Lemma summarize_context_same_as_ask_witness :
  ask_fields (Stub.env Demo.with_matches) Demo.ask_aspirin
    = Ok (VStr (u "s1"), u "How does aspirin work?", 6%Z)
  /\ Py.truthy (VStr (u "s1")) = true
  /\ is_empty (u "How does aspirin work?") = false
  /\ summarize_fields (Stub.env Demo.with_matches) Demo.topic_diabetes
     = Ok (VStr (u "s1"), u "diabetes", 12%Z)
  /\ is_empty (u "diabetes") = false
  /\ query_chunks (Stub.env Demo.with_matches) (VStr (u "s1"))
       (u "How does aspirin work?") 6 0
     = (Ok (Stub.matches_of Demo.two_matches), 0)
  /\ query_chunks (Stub.env Demo.with_matches) (VStr (u "s1")) (u "diabetes")
       12 0
     = (Ok (Stub.matches_of Demo.two_matches), 0)
  /\ contexts (events (summarize (Stub.env Demo.with_matches)
                         (Some Demo.topic_diabetes) 0))
     = contexts (events (ask (Stub.env Demo.with_matches)
                           (Some Demo.ask_aspirin) 0)).
Proof.
  do 7 (split; [reflexivity|]).
  apply (summarize_context_same_as_ask (Stub.env Demo.with_matches)
           Demo.ask_aspirin Demo.topic_diabetes 0 0
           (VStr (u "s1")) (u "How does aspirin work?") 6%Z
           (VStr (u "s1")) (u "diabetes") 12%Z
           (Stub.matches_of Demo.two_matches) 0 0); reflexivity.
Defined.


(** The context of that run, spelled out: the two texts and nothing else. *)
Example flashcards_context_of_two_matches :
  contexts (events (flashcards (Stub.env Demo.with_matches)
                      (Some Demo.topic_diabetes) 0))
  = [ u "Aspirin inhibits COX-1." ++ [nl; nl]
      ++ u "NSAIDs lower prostaglandins." ].
Proof. vm_compute. reflexivity. Qed.

Lemma fallback_questions_clean_witness :
  Cases.fallback_card ∈ scan_lines (split nl Demo.prose) []
  /\ exists q,
      Cases.fallback_card
      = dict [ (Lit.question, VStr q); (Lit.answer, VStr []) ]
      /\ contains 63 q = true
      /\ contains nl q = false
      /\ (forall c, head q = Some c -> is_space c = false)
      /\ (forall c, last q = Some c -> is_space c = false).
Proof.
  assert (Cases.fallback_card ∈ scan_lines (split nl Demo.prose) []) as H.
  { vm_compute. apply list_elem_of_here. }
  split; [exact H|].
  exact (fallback_questions_clean Demo.prose Cases.fallback_card H).
Defined.

Lemma fallback_without_question_mark_witness :
  contains 63 (u "No cards today.") = false
  /\ scan_lines (split nl (u "No cards today.")) [] = [].
Proof.
  split; [reflexivity|].
  apply (fallback_without_question_mark (u "No cards today.")). reflexivity.
Defined.

Lemma allowed_case_insensitive_witness :
  lower (u "notes.PDF") = lower (u "NOTES.pdf")
  /\ _allowed (u "notes.PDF") = _allowed (u "NOTES.pdf").
Proof.
  split; [reflexivity|].
  apply (allowed_case_insensitive (u "notes.PDF") (u "NOTES.pdf")).
  reflexivity.
Defined.

Lemma allowed_needs_extension_witness :
  _allowed (u "notes.PDF") = true
  /\ exists stem ext,
      u "notes.PDF" = stem ++ ext /\ stem <> []
      /\ (lower ext = u ".pdf" \/ lower ext = u ".docx"
          \/ lower ext = u ".txt" \/ lower ext = u ".md").
Proof.
  split; [vm_compute; reflexivity|].
  apply (allowed_needs_extension (u "notes.PDF")). vm_compute. reflexivity.
Defined.

Lemma allowed_accepts_extension_witness :
  contains slash (u "lecture.notes") = false
  /\ existsb (fun c => negb (c =? dot)%Z) (u "lecture.notes") = true
  /\ (lower (u ".Docx") = u ".pdf" \/ lower (u ".Docx") = u ".docx"
      \/ lower (u ".Docx") = u ".txt" \/ lower (u ".Docx") = u ".md")
  /\ _allowed (u "lecture.notes" ++ u ".Docx") = true.
Proof.
  split; [reflexivity|]. split; [reflexivity|].
  split; [right; left; reflexivity|].
  apply (allowed_accepts_extension (u "lecture.notes") (u ".Docx"));
    [reflexivity | reflexivity | right; left; reflexivity].
Defined.

Lemma helper_normalize_idempotent_witness :
  Helper.normalize_cards (Stub.env Demo.quiet) (VList Cases.mixed_items)
    = Ok Cases.mixed_cards
  /\ Helper.normalize_cards (Stub.env Demo.quiet) (VList Cases.mixed_cards)
     = Ok Cases.mixed_cards.
Proof.
  split; [vm_compute; reflexivity|].
  apply (helper_normalize_idempotent (Stub.env Demo.quiet)
           (VList Cases.mixed_items) Cases.mixed_cards).
  vm_compute. reflexivity.
Defined.

Lemma tab4_normalize_sublist_witness :
  Tab4.normalize_cards (Stub.env Demo.quiet) (VList Cases.mixed_items)
    = Ok [ card (VStr (u "Q1")) (VStr (u "A1")) ]
  /\ Helper.normalize_cards (Stub.env Demo.quiet) (VList Cases.mixed_items)
     = Ok Cases.mixed_cards
  /\ sublist [ card (VStr (u "Q1")) (VStr (u "A1")) ] Cases.mixed_cards.
Proof.
  split; [vm_compute; reflexivity|]. split; [vm_compute; reflexivity|].
  apply (tab4_normalize_sublist (Stub.env Demo.quiet)
           (VList Cases.mixed_items)); vm_compute; reflexivity.
Defined.

Lemma pager_index_in_range_witness :
  Pager.displayed (Pager.run Cases.some_clicks) = Some Cases.last_card_shown
  /\ ((0 <= Pager.index Cases.last_card_shown
             < Pager.len Cases.last_card_shown)%Z
      /\ is_Some (Pager.current_card Cases.last_card_shown)).
Proof.
  split; [reflexivity|].
  apply (pager_index_in_range Cases.some_clicks Cases.last_card_shown).
  reflexivity.
Defined.

Lemma pager_next_previous_witness :
  (0 <= Pager.index Cases.last_card_shown < Pager.len Cases.last_card_shown)%Z
  /\ (Pager.index (Pager.previous (Pager.next Cases.last_card_shown))
      = Pager.index Cases.last_card_shown
      /\ Pager.index (Pager.next (Pager.previous Cases.last_card_shown))
         = Pager.index Cases.last_card_shown).
Proof.
  split; [vm_compute; split; [discriminate | reflexivity]|].
  apply (pager_next_previous Cases.last_card_shown).
  vm_compute; split; [discriminate | reflexivity].
Defined.

Lemma pager_next_goes_round_witness :
  (0 <= Pager.index Cases.last_card_shown < Pager.len Cases.last_card_shown)%Z
  /\ Pager.index
       (Nat.iter (length (Pager.flashcards Cases.last_card_shown))
          Pager.next Cases.last_card_shown)
     = Pager.index Cases.last_card_shown.
Proof.
  split; [vm_compute; split; [discriminate | reflexivity]|].
  apply (pager_next_goes_round Cases.last_card_shown).
  vm_compute; split; [discriminate | reflexivity].
Defined.

Lemma client_request_passes_reads_witness :
  posted Ask (u "123") (u " What is X? ")
    = Some (payload_of Ask (u "123") (u " What is X? "))
  /\ ((u "123" = [] ->
       handler (Stub.env Demo.quiet)
         (post Ask (Some (payload_of Ask (u "123") (u " What is X? ")))) 0
       = Outcome (Ok (missing_response Ask)) [] 0)
      /\ (u "123" <> [] ->
          exists rest,
            events (handler (Stub.env Demo.quiet)
                      (post Ask
                         (Some (payload_of Ask (u "123")
                                  (u " What is X? ")))) 0)
            = EvQuery (VStr (u "123")) (strip (u " What is X? "))
                (default_top_k Ask)
                (query_chunks (Stub.env Demo.quiet) (VStr (u "123"))
                   (strip (u " What is X? ")) (default_top_k Ask) 0).1
              :: rest)).
Proof.
  split; [reflexivity|].
  apply (client_request_passes_reads (Stub.env Demo.quiet) Ask (u "123")
           (u " What is X? ")).
  reflexivity.
Defined.

End MoreInstances.
